(** * Off-screen renderer: a shallow embedding of
      [three/core/renderer/renderer.cpp]

    The renderer is orchestration code on top of GLFW and OpenGL.  Every
    library call is embedded as a primitive that appends one entry to the
    call log of the world and updates the small part of the library state
    the renderer depends on (live windows, close flags, the clear colour,
    the viewport, the current program, the framebuffer).  The methods of
    [Renderer] are functions in a state-and-exception monad over that
    world; the renderer object itself is passed explicitly. *)

From Stdlib Require Import ZArith List Bool Lia String.
From Stdlib Require Import Floats.SpecFloat.
From Stdlib Require Import Init.Byte.
From stdpp Require Import base option list list_numbers gmap.

Local Open Scope Z_scope.

(** ** C++ scalar types *)

Module Int.
(** [int] is 32 bits wide; arithmetic is written with its wrap-around. *)
Definition MIN : Z := - 2 ^ 31.
Definition MAX : Z := 2 ^ 31 - 1.

Definition wrap (z : Z) : Z := (z + 2 ^ 31) mod 2 ^ 32 - 2 ^ 31.

Definition add (a b : Z) : Z := wrap (a + b).
Definition sub (a b : Z) : Z := wrap (a - b).
Definition mul (a b : Z) : Z := wrap (a * b).

Definition in_range (z : Z) : Prop := MIN <= z <= MAX.

(** Conversion of an [int] to [size_t] (64 bits). *)
Definition to_size_t (z : Z) : Z := z mod 2 ^ 64.
End Int.

(** [GLfloat]: IEEE-754 binary32 values. *)
Definition GLfloat : Type := spec_float.
Definition f32_zero : GLfloat := S754_zero false.
Definition f32_one : GLfloat := S754_finite false 8388608 (-23).

(** [GLubyte] is [Byte.byte]; [GLuint] is an unsigned 32-bit integer. *)
Definition GLubyte : Type := byte.
Definition GLuint : Type := Z.
Definition GLuint_of_GLubyte (b : GLubyte) : GLuint :=
  Z.of_N (Byte.to_N b) mod 2 ^ 32.

(** [glm::mat4]: sixteen floats, column major, as [glm::value_ptr] shows
    them. *)
Definition mat4 : Type := list GLfloat.

(** ** Scene data (declared in headers outside this file; the fields are
    the ones the renderer reads) *)

Record Object := {
  _model_matrix : mat4;
  _num_faces : Z;
  _smoothness : bool
}.

Record Scene := {
  _objects : list Object
}.

Record PerspectiveCamera := {
  _view_matrix : mat4;
  _projection_matrix : mat4
}.

(** [scene::Scene*]: the scene is owned by the caller and the renderer
    only keeps its address. *)
Inductive ScenePtr :=
  | NULL
  | Addr (a : positive).

(** ** Numeric constants of the GL and GLFW headers *)

Inductive GLenum :=
  | GL_BLEND | GL_CULL_FACE | GL_DEPTH_TEST
  | GL_SRC_ALPHA | GL_ONE_MINUS_SRC_ALPHA
  | GL_RENDERBUFFER | GL_FRAMEBUFFER
  | GL_DEPTH_ATTACHMENT | GL_COLOR_ATTACHMENT0
  | GL_DEPTH_COMPONENT | GL_FLOAT | GL_RGB | GL_UNSIGNED_BYTE
  | GL_TRIANGLES | GL_PACK_ALIGNMENT
  | GL_FALSE | GL_TRUE
  | GLFW_CONTEXT_VERSION_MAJOR | GLFW_CONTEXT_VERSION_MINOR
  | GLFW_OPENGL_PROFILE | GLFW_OPENGL_CORE_PROFILE
  | GLFW_VISIBLE | GLFW_OPENGL_FORWARD_COMPAT
  | GLint (n : Z).

Definition GL_DEPTH_BUFFER_BIT : Z := 0x100.
Definition GL_COLOR_BUFFER_BIT : Z := 0x4000.

(** ** The two shader pipelines *)

Inductive Pipeline := Depth | Main.

#[global] Instance Pipeline_eq_dec : EqDecision Pipeline.
Proof. solve_decision. Defined.

(** ** Library state *)

Definition Window : Type := Z.

Record RGBA := {
  red : GLfloat; green : GLfloat; blue : GLfloat; alpha : GLfloat
}.

Inductive Uniform :=
  | UMatrix (m : mat4)
  | UFloat (f : GLfloat).

(** The part of the context state the renderer's calls read or write. *)
Record GLContext := {
  gl_viewport : Z * Z * Z * Z;
  gl_clear_color : RGBA;
  gl_clear_depth : GLfloat;
  gl_program : option Pipeline;
  gl_uniforms : list (Z * Uniform);       (* newest upload first *)
  gl_vertex_array : option (Z * option Object);
  gl_enabled : list GLenum;               (* newest first *)
  gl_blend_func : option (GLenum * GLenum);
  gl_pack_alignment : Z;
  gl_renderbuffers : list Z;
  gl_renderbuffer_binding : Z;
  gl_attachments : list (GLenum * Z)      (* newest first *)
}.

(** Initial context state, as the OpenGL specification defines it: the
    clear colour is (0,0,0,0), the clear depth is 1, pack alignment is 4,
    nothing is enabled or bound. *)
Definition gl_initial : GLContext := {|
  gl_viewport := (0, 0, 0, 0);
  gl_clear_color :=
    {| red := f32_zero; green := f32_zero; blue := f32_zero;
       alpha := f32_zero |};
  gl_clear_depth := f32_one;
  gl_program := None;
  gl_uniforms := [];
  gl_vertex_array := None;
  gl_enabled := [];
  gl_blend_func := None;
  gl_pack_alignment := 4;
  gl_renderbuffers := [];
  gl_renderbuffer_binding := 0;
  gl_attachments := []
|}.

(** The frame the draw calls write and [glReadPixels] reads, addressed by
    window coordinates (x to the right, y upwards from the bottom row). *)
Record Framebuffer := {
  fb_color : Z -> Z -> RGBA;
  fb_depth : Z -> Z -> GLfloat
}.

(** What the graphics hardware computes is not part of the program: the
    effect of a draw call on the frame, and the conversion of a colour
    component to the unsigned byte [glReadPixels] returns. *)
Record Driver := {
  rasterize : GLContext -> GLenum -> Z -> Z -> Framebuffer -> Framebuffer;
  unorm8 : GLfloat -> GLubyte
}.

(** Every call the renderer makes into GLFW, gl3w, OpenGL and the
    vertex-array and shader-program wrappers. *)
Inductive Call :=
  | Call_glfwSetErrorCallback
  | Call_glfwInit (ok : bool)
  | Call_glfwWindowHint (hint value : GLenum)
  | Call_glfwCreateWindow (width height : Z) (title : string) (win : Window)
  | Call_glfwMakeContextCurrent (win : Window)
  | Call_gl3wInit
  | Call_glfwWindowShouldClose (win : Window) (flag : bool)
  | Call_glfwDestroyWindow (win : Window)
  | Call_glfwTerminate
  | Call_VertexArrayObject_new
  | Call_Program_new (p : Pipeline)
  | Call_vao_build (scene : ScenePtr)
  | Call_vao_bind_object (index : Z)
  | Call_program_use (p : Pipeline)
  | Call_program_uniform_matrix (p : Pipeline) (location : Z) (m : mat4)
  | Call_program_uniform_float (p : Pipeline) (location : Z) (f : GLfloat)
  | Call_glGenRenderbuffers (n : Z) (name : Z)
  | Call_glViewport (x y width height : Z)
  | Call_glClear (mask : Z)
  | Call_glClearColor (r g b a : GLfloat)
  | Call_glDrawArrays (mode : GLenum) (first count : Z)
  | Call_glEnable (cap : GLenum)
  | Call_glBlendFunc (sfactor dfactor : GLenum)
  | Call_glPixelStorei (pname : GLenum) (param : Z)
  | Call_glBindRenderbuffer (target : GLenum) (name : Z)
  | Call_glFramebufferRenderbuffer
      (target attachment rbtarget : GLenum) (name : Z)
  | Call_glReadPixels (x y width height : Z) (format type : GLenum)
  | Call_glUseProgram (name : Z)
  | Call_glBindVertexArray (name : Z).

Record World := {
  calls : list Call;                (* oldest first *)
  platform_apple : bool;            (* the [__APPLE__] macro *)
  glfw_platform_ok : bool;          (* whether [glfwInit] can succeed *)
  glfw_initialized : bool;
  glfw_windows : list Window;       (* created and not yet destroyed *)
  glfw_close_flags : list Window;   (* windows that received a close signal *)
  glfw_current : option Window;
  glfw_next_window : Window;        (* the handle the next window gets *)
  driver : Driver;
  gl : GLContext;
  framebuffer : Framebuffer;
  scenes : gmap positive Scene      (* scenes owned by the caller *)
}.

(** ** Exceptions and the monad *)

Inductive Exception :=
  | runtime_error (what : string)
  | bad_array_new_length
  | domain_error (what : string).

Inductive Outcome (A : Type) :=
  | Ok (a : A) (w : World)
  | Throw (e : Exception) (w : World)
  | Undefined.
Arguments Ok {A} a w.
Arguments Throw {A} e w.
Arguments Undefined {A}.

Definition M (A : Type) : Type := World -> Outcome A.

Definition ret {A} (a : A) : M A := fun w => Ok a w.

Definition bind {A B} (m : M A) (k : A -> M B) : M B :=
  fun w =>
    match m w with
    | Ok a w' => k a w'
    | Throw e w' => Throw e w'
    | Undefined => Undefined
    end.

Definition throw {A} (e : Exception) : M A := fun w => Throw e w.
Definition undefined {A} : M A := fun _ => Undefined.

Declare Scope renderer_scope.
Delimit Scope renderer_scope with render.
Notation "x <- m ;; k" := (bind m (fun x => k))
  (at level 100, m at next level, right associativity) : renderer_scope.
Notation "m ;; k" := (bind m (fun _ => k))
  (at level 100, right associativity) : renderer_scope.
Local Open Scope renderer_scope.

Definition get_world : M World := fun w => Ok w w.
Definition modify_world (f : World -> World) : M unit := fun w => Ok tt (f w).

(** Undefined behaviour of array and pointer accesses. *)
Definition lift_ub {A} (o : option A) : M A :=
  match o with
  | Some a => ret a
  | None => undefined
  end.

(** ** Field updates *)

Definition set_calls (f : list Call -> list Call) (w : World) : World :=
  {| calls := f (calls w); platform_apple := platform_apple w;
     glfw_platform_ok := glfw_platform_ok w;
     glfw_initialized := glfw_initialized w;
     glfw_windows := glfw_windows w;
     glfw_close_flags := glfw_close_flags w;
     glfw_current := glfw_current w;
     glfw_next_window := glfw_next_window w;
     driver := driver w; gl := gl w; framebuffer := framebuffer w;
     scenes := scenes w |}.

Definition set_glfw_initialized (b : bool) (w : World) : World :=
  {| calls := calls w; platform_apple := platform_apple w;
     glfw_platform_ok := glfw_platform_ok w;
     glfw_initialized := b;
     glfw_windows := glfw_windows w;
     glfw_close_flags := glfw_close_flags w;
     glfw_current := glfw_current w;
     glfw_next_window := glfw_next_window w;
     driver := driver w; gl := gl w; framebuffer := framebuffer w;
     scenes := scenes w |}.

Definition set_glfw_windows (f : list Window -> list Window) (w : World)
  : World :=
  {| calls := calls w; platform_apple := platform_apple w;
     glfw_platform_ok := glfw_platform_ok w;
     glfw_initialized := glfw_initialized w;
     glfw_windows := f (glfw_windows w);
     glfw_close_flags := glfw_close_flags w;
     glfw_current := glfw_current w;
     glfw_next_window := glfw_next_window w;
     driver := driver w; gl := gl w; framebuffer := framebuffer w;
     scenes := scenes w |}.

Definition set_glfw_current (c : option Window) (w : World) : World :=
  {| calls := calls w; platform_apple := platform_apple w;
     glfw_platform_ok := glfw_platform_ok w;
     glfw_initialized := glfw_initialized w;
     glfw_windows := glfw_windows w;
     glfw_close_flags := glfw_close_flags w;
     glfw_current := c;
     glfw_next_window := glfw_next_window w;
     driver := driver w; gl := gl w; framebuffer := framebuffer w;
     scenes := scenes w |}.

Definition set_glfw_next_window (n : Window) (w : World) : World :=
  {| calls := calls w; platform_apple := platform_apple w;
     glfw_platform_ok := glfw_platform_ok w;
     glfw_initialized := glfw_initialized w;
     glfw_windows := glfw_windows w;
     glfw_close_flags := glfw_close_flags w;
     glfw_current := glfw_current w;
     glfw_next_window := n;
     driver := driver w; gl := gl w; framebuffer := framebuffer w;
     scenes := scenes w |}.

Definition set_gl (f : GLContext -> GLContext) (w : World) : World :=
  {| calls := calls w; platform_apple := platform_apple w;
     glfw_platform_ok := glfw_platform_ok w;
     glfw_initialized := glfw_initialized w;
     glfw_windows := glfw_windows w;
     glfw_close_flags := glfw_close_flags w;
     glfw_current := glfw_current w;
     glfw_next_window := glfw_next_window w;
     driver := driver w; gl := f (gl w); framebuffer := framebuffer w;
     scenes := scenes w |}.

Definition set_framebuffer (f : Framebuffer -> Framebuffer) (w : World)
  : World :=
  {| calls := calls w; platform_apple := platform_apple w;
     glfw_platform_ok := glfw_platform_ok w;
     glfw_initialized := glfw_initialized w;
     glfw_windows := glfw_windows w;
     glfw_close_flags := glfw_close_flags w;
     glfw_current := glfw_current w;
     glfw_next_window := glfw_next_window w;
     driver := driver w; gl := gl w; framebuffer := f (framebuffer w);
     scenes := scenes w |}.

Definition set_gl_viewport (v : Z * Z * Z * Z) (c : GLContext) : GLContext :=
  {| gl_viewport := v; gl_clear_color := gl_clear_color c;
     gl_clear_depth := gl_clear_depth c; gl_program := gl_program c;
     gl_uniforms := gl_uniforms c; gl_vertex_array := gl_vertex_array c;
     gl_enabled := gl_enabled c; gl_blend_func := gl_blend_func c;
     gl_pack_alignment := gl_pack_alignment c;
     gl_renderbuffers := gl_renderbuffers c;
     gl_renderbuffer_binding := gl_renderbuffer_binding c;
     gl_attachments := gl_attachments c |}.

Definition set_gl_clear_color (v : RGBA) (c : GLContext) : GLContext :=
  {| gl_viewport := gl_viewport c; gl_clear_color := v;
     gl_clear_depth := gl_clear_depth c; gl_program := gl_program c;
     gl_uniforms := gl_uniforms c; gl_vertex_array := gl_vertex_array c;
     gl_enabled := gl_enabled c; gl_blend_func := gl_blend_func c;
     gl_pack_alignment := gl_pack_alignment c;
     gl_renderbuffers := gl_renderbuffers c;
     gl_renderbuffer_binding := gl_renderbuffer_binding c;
     gl_attachments := gl_attachments c |}.

Definition set_gl_program (v : option Pipeline) (c : GLContext) : GLContext :=
  {| gl_viewport := gl_viewport c; gl_clear_color := gl_clear_color c;
     gl_clear_depth := gl_clear_depth c; gl_program := v;
     gl_uniforms := gl_uniforms c; gl_vertex_array := gl_vertex_array c;
     gl_enabled := gl_enabled c; gl_blend_func := gl_blend_func c;
     gl_pack_alignment := gl_pack_alignment c;
     gl_renderbuffers := gl_renderbuffers c;
     gl_renderbuffer_binding := gl_renderbuffer_binding c;
     gl_attachments := gl_attachments c |}.

Definition set_gl_uniforms (f : list (Z * Uniform) -> list (Z * Uniform))
    (c : GLContext) : GLContext :=
  {| gl_viewport := gl_viewport c; gl_clear_color := gl_clear_color c;
     gl_clear_depth := gl_clear_depth c; gl_program := gl_program c;
     gl_uniforms := f (gl_uniforms c);
     gl_vertex_array := gl_vertex_array c;
     gl_enabled := gl_enabled c; gl_blend_func := gl_blend_func c;
     gl_pack_alignment := gl_pack_alignment c;
     gl_renderbuffers := gl_renderbuffers c;
     gl_renderbuffer_binding := gl_renderbuffer_binding c;
     gl_attachments := gl_attachments c |}.

Definition set_gl_vertex_array (v : option (Z * option Object))
    (c : GLContext) : GLContext :=
  {| gl_viewport := gl_viewport c; gl_clear_color := gl_clear_color c;
     gl_clear_depth := gl_clear_depth c; gl_program := gl_program c;
     gl_uniforms := gl_uniforms c; gl_vertex_array := v;
     gl_enabled := gl_enabled c; gl_blend_func := gl_blend_func c;
     gl_pack_alignment := gl_pack_alignment c;
     gl_renderbuffers := gl_renderbuffers c;
     gl_renderbuffer_binding := gl_renderbuffer_binding c;
     gl_attachments := gl_attachments c |}.

Definition set_gl_enabled (f : list GLenum -> list GLenum) (c : GLContext)
  : GLContext :=
  {| gl_viewport := gl_viewport c; gl_clear_color := gl_clear_color c;
     gl_clear_depth := gl_clear_depth c; gl_program := gl_program c;
     gl_uniforms := gl_uniforms c; gl_vertex_array := gl_vertex_array c;
     gl_enabled := f (gl_enabled c); gl_blend_func := gl_blend_func c;
     gl_pack_alignment := gl_pack_alignment c;
     gl_renderbuffers := gl_renderbuffers c;
     gl_renderbuffer_binding := gl_renderbuffer_binding c;
     gl_attachments := gl_attachments c |}.

Definition set_gl_blend_func (v : option (GLenum * GLenum)) (c : GLContext)
  : GLContext :=
  {| gl_viewport := gl_viewport c; gl_clear_color := gl_clear_color c;
     gl_clear_depth := gl_clear_depth c; gl_program := gl_program c;
     gl_uniforms := gl_uniforms c; gl_vertex_array := gl_vertex_array c;
     gl_enabled := gl_enabled c; gl_blend_func := v;
     gl_pack_alignment := gl_pack_alignment c;
     gl_renderbuffers := gl_renderbuffers c;
     gl_renderbuffer_binding := gl_renderbuffer_binding c;
     gl_attachments := gl_attachments c |}.

Definition set_gl_pack_alignment (v : Z) (c : GLContext) : GLContext :=
  {| gl_viewport := gl_viewport c; gl_clear_color := gl_clear_color c;
     gl_clear_depth := gl_clear_depth c; gl_program := gl_program c;
     gl_uniforms := gl_uniforms c; gl_vertex_array := gl_vertex_array c;
     gl_enabled := gl_enabled c; gl_blend_func := gl_blend_func c;
     gl_pack_alignment := v;
     gl_renderbuffers := gl_renderbuffers c;
     gl_renderbuffer_binding := gl_renderbuffer_binding c;
     gl_attachments := gl_attachments c |}.

Definition set_gl_renderbuffers (f : list Z -> list Z) (c : GLContext)
  : GLContext :=
  {| gl_viewport := gl_viewport c; gl_clear_color := gl_clear_color c;
     gl_clear_depth := gl_clear_depth c; gl_program := gl_program c;
     gl_uniforms := gl_uniforms c; gl_vertex_array := gl_vertex_array c;
     gl_enabled := gl_enabled c; gl_blend_func := gl_blend_func c;
     gl_pack_alignment := gl_pack_alignment c;
     gl_renderbuffers := f (gl_renderbuffers c);
     gl_renderbuffer_binding := gl_renderbuffer_binding c;
     gl_attachments := gl_attachments c |}.

Definition set_gl_renderbuffer_binding (v : Z) (c : GLContext) : GLContext :=
  {| gl_viewport := gl_viewport c; gl_clear_color := gl_clear_color c;
     gl_clear_depth := gl_clear_depth c; gl_program := gl_program c;
     gl_uniforms := gl_uniforms c; gl_vertex_array := gl_vertex_array c;
     gl_enabled := gl_enabled c; gl_blend_func := gl_blend_func c;
     gl_pack_alignment := gl_pack_alignment c;
     gl_renderbuffers := gl_renderbuffers c;
     gl_renderbuffer_binding := v;
     gl_attachments := gl_attachments c |}.

Definition set_gl_attachments (f : list (GLenum * Z) -> list (GLenum * Z))
    (c : GLContext) : GLContext :=
  {| gl_viewport := gl_viewport c; gl_clear_color := gl_clear_color c;
     gl_clear_depth := gl_clear_depth c; gl_program := gl_program c;
     gl_uniforms := gl_uniforms c; gl_vertex_array := gl_vertex_array c;
     gl_enabled := gl_enabled c; gl_blend_func := gl_blend_func c;
     gl_pack_alignment := gl_pack_alignment c;
     gl_renderbuffers := gl_renderbuffers c;
     gl_renderbuffer_binding := gl_renderbuffer_binding c;
     gl_attachments := f (gl_attachments c) |}.

(** ** Loops, arrays *)

(** [for (x : l) s = body(x, s)], stopping at undefined behaviour. *)
Fixpoint for_each {A S} (l : list A) (body : A -> S -> option S) (s : S)
  : option S :=
  match l with
  | [] => Some s
  | x :: l' =>
      match body x s with
      | Some s' => for_each l' body s'
      | None => None
      end
  end.

(** [for (int i = 0; i < n; i++)]. *)
Definition for_int {S} (n : Z) (body : Z -> S -> option S) (s : S)
  : option S :=
  for_each (seqZ 0 n) body s.

Fixpoint for_each_M {A} (l : list A) (body : A -> M unit) : M unit :=
  match l with
  | [] => ret tt
  | x :: l' => body x ;; for_each_M l' body
  end.

(** [buf[i]] on a [unique_ptr<T[]>] or a [std::vector]: the index is
    converted to [size_t]; reading outside the array is undefined. *)
Definition array_get {T} (buf : list T) (i : Z) : option T :=
  buf !! Z.to_nat (Int.to_size_t i).

(** A block of [data] written at element offset [off]; writing outside
    the array is undefined. *)
Definition store_at {T} (buf : list T) (off : Z) (data : list T)
  : option (list T) :=
  match data with
  | [] => Some buf
  | _ =>
      if decide (0 <= off /\ off + Z.of_nat (length data)
                              <= Z.of_nat (length buf))
      then Some (take (Z.to_nat off) buf ++ data
                 ++ drop (Z.to_nat off + length data) buf)
      else None
  end.

(** [std::make_unique<T[]>(n)]: [n] is converted to [size_t]; a request
    larger than the largest object ([PTRDIFF_MAX] bytes) throws
    [std::bad_array_new_length]; the elements are value-initialised.
    Exhaustion of memory for a representable size is not modelled. *)
Definition PTRDIFF_MAX : Z := 2 ^ 63 - 1.

Definition make_unique_array {T} (zero : T) (sizeof : Z) (n : Z)
  : M (list T) :=
  let count := Int.to_size_t n in
  if decide (count * sizeof <= PTRDIFF_MAX)
  then ret (replicate (Z.to_nat count) zero)
  else throw bad_array_new_length.

(** A C-contiguous [py::array_t<T, py::array::c_style>]. *)
Record ndarray (T : Type) := {
  nd_shape : list Z;
  nd_data : list T
}.
Arguments nd_shape {T} _.
Arguments nd_data {T} _.

(** Element offset of an index in row-major order. *)
Definition nd_offset (shape idx : list Z) : Z :=
  fold_left (fun acc ni => acc * fst ni + snd ni) (zip shape idx) 0.

(** [a.mutable_unchecked<dims>()] throws [std::domain_error] when the
    array does not have [dims] dimensions. *)
Definition mutable_unchecked {T} (dims : nat) (a : ndarray T)
  : M (ndarray T) :=
  if decide (length (nd_shape a) = dims) then ret a
  else throw (domain_error "array has incorrect number of dimensions").

(** [a(idx...) = v] through the unchecked accessor: no bounds check, so an
    offset outside the data is undefined. *)
Definition nd_set {T} (a : ndarray T) (idx : list Z) (v : T)
  : option (ndarray T) :=
  let off := nd_offset (nd_shape a) idx in
  if decide (0 <= off < Z.of_nat (length (nd_data a)))
  then Some {| nd_shape := nd_shape a;
               nd_data := <[Z.to_nat off := v]> (nd_data a) |}
  else None.

Definition nd_get {T} (a : ndarray T) (idx : list Z) : option T :=
  let off := nd_offset (nd_shape a) idx in
  if decide (0 <= off) then nd_data a !! Z.to_nat off else None.

(** ** Library calls *)

Definition log (c : Call) : M unit :=
  modify_world (set_calls (fun l => l ++ [c])).

Definition glfwSetErrorCallback : M unit := log Call_glfwSetErrorCallback.

Definition glfwInit : M bool :=
  w <- get_world ;;
  let ok := glfw_initialized w || glfw_platform_ok w in
  log (Call_glfwInit ok) ;;
  modify_world (set_glfw_initialized ok) ;;
  ret ok.

Definition glfwWindowHint (hint value : GLenum) : M unit :=
  log (Call_glfwWindowHint hint value).

(** A new window comes with a context in its initial state.  A failed
    creation (a [NULL] handle) is not modelled. *)
Definition glfwCreateWindow (width height : Z) (title : string) : M Window :=
  w <- get_world ;;
  let win := glfw_next_window w in
  log (Call_glfwCreateWindow width height title win) ;;
  modify_world (set_glfw_windows (cons win)) ;;
  modify_world (set_glfw_next_window (win + 1)) ;;
  modify_world (set_gl (fun _ => gl_initial)) ;;
  ret win.

Definition glfwMakeContextCurrent (win : Window) : M unit :=
  log (Call_glfwMakeContextCurrent win) ;;
  modify_world (set_glfw_current (Some win)).

Definition gl3wInit : M unit := log Call_gl3wInit.

Definition glfwWindowShouldClose (win : Window) : M bool :=
  w <- get_world ;;
  let flag := bool_decide (win ∈ glfw_close_flags w) in
  log (Call_glfwWindowShouldClose win flag) ;;
  ret flag.

Definition glfwDestroyWindow (win : Window) : M unit :=
  log (Call_glfwDestroyWindow win) ;;
  modify_world (set_glfw_windows (filter (fun x => x <> win))) ;;
  w <- get_world ;;
  if decide (glfw_current w = Some win)
  then modify_world (set_glfw_current None)
  else ret tt.

Definition glfwTerminate : M unit :=
  log Call_glfwTerminate ;;
  modify_world (set_glfw_windows (fun _ => [])) ;;
  modify_world (set_glfw_current None) ;;
  modify_world (set_glfw_initialized false).

Definition glGenRenderbuffers (n : Z) : M Z :=
  w <- get_world ;;
  let name := Z.of_nat (length (gl_renderbuffers (gl w))) + 1 in
  log (Call_glGenRenderbuffers n name) ;;
  modify_world (set_gl (set_gl_renderbuffers (fun l => l ++ [name]))) ;;
  ret name.

Definition glViewport (x y width height : Z) : M unit :=
  log (Call_glViewport x y width height) ;;
  modify_world (set_gl (set_gl_viewport (x, y, width, height))).

(** [glClear] fills the buffers selected by [mask] with the clear values
    that are current when it is called. *)
Definition clear (mask : Z) (c : GLContext) (fb : Framebuffer)
  : Framebuffer :=
  {| fb_color :=
       if Z.eqb (Z.land mask GL_COLOR_BUFFER_BIT) 0 then fb_color fb
       else fun _ _ => gl_clear_color c;
     fb_depth :=
       if Z.eqb (Z.land mask GL_DEPTH_BUFFER_BIT) 0 then fb_depth fb
       else fun _ _ => gl_clear_depth c |}.

Definition glClear (mask : Z) : M unit :=
  log (Call_glClear mask) ;;
  w <- get_world ;;
  modify_world (set_framebuffer (clear mask (gl w))).

Definition glClearColor (r g b a : GLfloat) : M unit :=
  log (Call_glClearColor r g b a) ;;
  modify_world (set_gl (set_gl_clear_color
    {| red := r; green := g; blue := b; alpha := a |})).

Definition glDrawArrays (mode : GLenum) (first count : Z) : M unit :=
  log (Call_glDrawArrays mode first count) ;;
  w <- get_world ;;
  modify_world
    (set_framebuffer (rasterize (driver w) (gl w) mode first count)).

Definition glEnable (cap : GLenum) : M unit :=
  log (Call_glEnable cap) ;;
  modify_world (set_gl (set_gl_enabled (cons cap))).

Definition glBlendFunc (sfactor dfactor : GLenum) : M unit :=
  log (Call_glBlendFunc sfactor dfactor) ;;
  modify_world (set_gl (set_gl_blend_func (Some (sfactor, dfactor)))).

Definition glPixelStorei (pname : GLenum) (param : Z) : M unit :=
  log (Call_glPixelStorei pname param) ;;
  match pname with
  | GL_PACK_ALIGNMENT =>
      modify_world (set_gl (set_gl_pack_alignment param))
  | _ => ret tt
  end.

Definition glBindRenderbuffer (target : GLenum) (name : Z) : M unit :=
  log (Call_glBindRenderbuffer target name) ;;
  modify_world (set_gl (set_gl_renderbuffer_binding name)).

Definition glFramebufferRenderbuffer
    (target attachment rbtarget : GLenum) (name : Z) : M unit :=
  log (Call_glFramebufferRenderbuffer target attachment rbtarget name) ;;
  modify_world (set_gl (set_gl_attachments (cons (attachment, name)))).

Definition glUseProgram (name : Z) : M unit :=
  log (Call_glUseProgram name) ;;
  if Z.eqb name 0 then modify_world (set_gl (set_gl_program None))
  else ret tt.

Definition glBindVertexArray (name : Z) : M unit :=
  log (Call_glBindVertexArray name) ;;
  if Z.eqb name 0 then modify_world (set_gl (set_gl_vertex_array None))
  else ret tt.

(** Number of elements between the starts of two rows that [glReadPixels]
    writes: [nl] elements of [s] bytes each, rows aligned to [a] bytes. *)
Definition pack_row_length (s a nl : Z) : Z :=
  if a <=? s then nl else (a / s) * ((s * nl + a - 1) / a).

Definition depth_row (fb : Framebuffer) (x width y : Z) : list GLfloat :=
  (fun i => fb_depth fb (x + i) y) <$> seqZ 0 width.

Definition rgb_row (d : Driver) (fb : Framebuffer) (x width y : Z)
  : list GLubyte :=
  i ← seqZ 0 width;
  let c := fb_color fb (x + i) y in
  [unorm8 d (red c); unorm8 d (green c); unorm8 d (blue c)].

(** [glReadPixels(x, y, width, height, GL_DEPTH_COMPONENT, GL_FLOAT, buf)]:
    rows bottom to top.  A negative width or height is an error that
    writes nothing. *)
Definition glReadPixels_depth (x y width height : Z) (buf : list GLfloat)
  : M (list GLfloat) :=
  log (Call_glReadPixels x y width height GL_DEPTH_COMPONENT GL_FLOAT) ;;
  w <- get_world ;;
  let k := pack_row_length 4 (gl_pack_alignment (gl w)) width in
  lift_ub
    (for_int height
       (fun j b => store_at b (j * k) (depth_row (framebuffer w) x width (y + j)))
       buf).

(** [glReadPixels(x, y, width, height, GL_RGB, GL_UNSIGNED_BYTE, buf)]. *)
Definition glReadPixels_rgb (x y width height : Z) (buf : list GLubyte)
  : M (list GLubyte) :=
  log (Call_glReadPixels x y width height GL_RGB GL_UNSIGNED_BYTE) ;;
  w <- get_world ;;
  let k := pack_row_length 1 (gl_pack_alignment (gl w)) (3 * width) in
  lift_ub
    (for_int height
       (fun j b =>
          store_at b (j * k)
            (rgb_row (driver w) (framebuffer w) x width (y + j)))
       buf).

(** ** Vertex-array and shader-program wrappers
    ([opengl::VertexArrayObject], [multipass::Depth], [multipass::Main]) *)

Definition deref (p : ScenePtr) : M Scene :=
  w <- get_world ;;
  match p with
  | NULL => undefined
  | Addr a => lift_ub (scenes w !! a)
  end.

(** The geometry binding: one slot per object, in the order of the scene's
    object list. *)
Record VertexArrayObject := {
  vao_slots : list Object
}.

Definition VertexArrayObject_new : M VertexArrayObject :=
  log Call_VertexArrayObject_new ;;
  ret {| vao_slots := [] |}.

(** Modelled from the spec: [VertexArrayObject::build] is defined outside
    this file.  It rebuilds the geometry binding from the scene's object
    list; any prior binding is discarded. *)
Definition vao_build (vao : VertexArrayObject) (scene : ScenePtr)
  : M VertexArrayObject :=
  log (Call_vao_build scene) ;;
  s <- deref scene ;;
  ret {| vao_slots := _objects s |}.

(** Modelled from the spec: [VertexArrayObject::bind_object] is defined
    outside this file.  It binds the pre-uploaded geometry slot of the
    object with the given index. *)
Definition vao_bind_object (vao : VertexArrayObject) (index : Z) : M unit :=
  log (Call_vao_bind_object index) ;;
  modify_world
    (set_gl (set_gl_vertex_array
               (Some (index, array_get (vao_slots vao) index)))).

Definition Program_new (p : Pipeline) : M Pipeline :=
  log (Call_Program_new p) ;;
  ret p.

Definition program_use (p : Pipeline) : M unit :=
  log (Call_program_use p) ;;
  modify_world (set_gl (set_gl_program (Some p))).

Definition program_uniform_matrix (p : Pipeline) (location : Z) (m : mat4)
  : M unit :=
  log (Call_program_uniform_matrix p location m) ;;
  modify_world (set_gl (set_gl_uniforms (cons (location, UMatrix m)))).

Definition program_uniform_float (p : Pipeline) (location : Z) (f : GLfloat)
  : M unit :=
  log (Call_program_uniform_float p location f) ;;
  modify_world (set_gl (set_gl_uniforms (cons (location, UFloat f)))).

(** ** The renderer *)

Record Renderer := {
  _width : Z;
  _height : Z;
  _depth_buffer : list GLfloat;
  _color_buffer : list GLubyte;
  _prev_num_objects : Z;
  _window : Window;
  _vao : VertexArrayObject;
  _depth_program : Pipeline;
  _main_program : Pipeline;
  _render_buffer : Z;
  _scene : option ScenePtr          (* [None]: not assigned yet *)
}.

Definition set_scene_fields (scene : ScenePtr) (vao : VertexArrayObject)
    (r : Renderer) : Renderer :=
  {| _width := _width r; _height := _height r;
     _depth_buffer := _depth_buffer r; _color_buffer := _color_buffer r;
     _prev_num_objects := _prev_num_objects r; _window := _window r;
     _vao := vao;
     _depth_program := _depth_program r; _main_program := _main_program r;
     _render_buffer := _render_buffer r;
     _scene := Some scene |}.

Definition set_depth_buffer (b : list GLfloat) (r : Renderer) : Renderer :=
  {| _width := _width r; _height := _height r;
     _depth_buffer := b; _color_buffer := _color_buffer r;
     _prev_num_objects := _prev_num_objects r; _window := _window r;
     _vao := _vao r;
     _depth_program := _depth_program r; _main_program := _main_program r;
     _render_buffer := _render_buffer r;
     _scene := _scene r |}.

Definition set_color_buffer (b : list GLubyte) (r : Renderer) : Renderer :=
  {| _width := _width r; _height := _height r;
     _depth_buffer := _depth_buffer r; _color_buffer := b;
     _prev_num_objects := _prev_num_objects r; _window := _window r;
     _vao := _vao r;
     _depth_program := _depth_program r; _main_program := _main_program r;
     _render_buffer := _render_buffer r;
     _scene := _scene r |}.

(** [Renderer::initialize] *)
Definition initialize (width height : Z) : M Renderer :=
  glfwSetErrorCallback ;;
  ok <- glfwInit ;;
  if Bool.eqb (negb (negb ok)) false then
    throw (runtime_error "Failed to initialize GLFW.")
  else
    depth_buffer <- make_unique_array f32_zero 4 (Int.mul width height) ;;
    color_buffer <-
      make_unique_array x00%byte 1 (Int.mul (Int.mul width height) 3) ;;
    glfwWindowHint GLFW_CONTEXT_VERSION_MAJOR (GLint 3) ;;
    glfwWindowHint GLFW_CONTEXT_VERSION_MINOR (GLint 2) ;;
    glfwWindowHint GLFW_OPENGL_PROFILE GLFW_OPENGL_CORE_PROFILE ;;
    glfwWindowHint GLFW_VISIBLE GL_FALSE ;;
    w <- get_world ;;
    (if platform_apple w
     then glfwWindowHint GLFW_OPENGL_FORWARD_COMPAT GL_TRUE
     else ret tt) ;;
    window <- glfwCreateWindow width height "Renderer" ;;
    glfwMakeContextCurrent window ;;
    gl3wInit ;;
    vao <- VertexArrayObject_new ;;
    depth_program <- Program_new Depth ;;
    main_program <- Program_new Main ;;
    render_buffer <- glGenRenderbuffers 1 ;;
    ret {| _width := width; _height := height;
           _depth_buffer := depth_buffer; _color_buffer := color_buffer;
           _prev_num_objects := -1; _window := window;
           _vao := vao;
           _depth_program := depth_program; _main_program := main_program;
           _render_buffer := render_buffer;
           _scene := None |}.

(** [Renderer::set_scene] *)
Definition set_scene (r : Renderer) (scene : ScenePtr) : M Renderer :=
  glfwMakeContextCurrent (_window r) ;;
  vao <- vao_build (_vao r) scene ;;
  ret (set_scene_fields scene vao r).

(** [Renderer::Renderer(int, int)] *)
Definition Renderer_new (width height : Z) : M Renderer :=
  initialize width height.

(** [Renderer::Renderer(scene::Scene*, int, int)] *)
Definition Renderer_new_scene (scene : ScenePtr) (width height : Z)
  : M Renderer :=
  r <- initialize width height ;;
  set_scene r scene.

(** [Renderer::~Renderer] *)
Definition Renderer_delete (r : Renderer) : M unit :=
  glfwDestroyWindow (_window r) ;;
  glfwTerminate.

(** The body of the loop of [Renderer::render_objects]. *)
Definition render_object (r : Renderer) (view_mat projection_mat : mat4)
    (objects : list Object) (object_index : Z) : M unit :=
  object <- lift_ub (array_get objects object_index) ;;
  vao_bind_object (_vao r) object_index ;;
  let model_mat := _model_matrix object in
  program_uniform_matrix (_main_program r) 0 model_mat ;;
  program_uniform_matrix (_main_program r) 1 view_mat ;;
  program_uniform_matrix (_main_program r) 2 projection_mat ;;
  let smoothness := if _smoothness object then f32_one else f32_zero in
  program_uniform_float (_main_program r) 3 smoothness ;;
  glDrawArrays GL_TRIANGLES 0 (Int.mul 3 (_num_faces object)).

(** [Renderer::render_objects] *)
Definition render_objects (r : Renderer) (camera : PerspectiveCamera)
  : M unit :=
  glfwMakeContextCurrent (_window r) ;;
  glViewport 0 0 (_width r) (_height r) ;;
  glClear (Z.lor GL_COLOR_BUFFER_BIT GL_DEPTH_BUFFER_BIT) ;;
  glClearColor f32_zero f32_zero f32_zero f32_one ;;
  let view_mat := _view_matrix camera in
  let projection_mat := _projection_matrix camera in
  scene <- match _scene r with
           | Some p => deref p
           | None => undefined
           end ;;
  let objects := _objects scene in
  for_each_M (seqZ 0 (Z.of_nat (length objects)))
    (render_object r view_mat projection_mat objects).

(** The copy loops of [render_depth_map] and [render]. *)
Definition flip_depth (r : Renderer) (depth_map : ndarray GLfloat)
  : option (ndarray GLfloat) :=
  for_int (_height r) (fun h =>
    for_int (_width r) (fun w depth_map =>
      v ← array_get (_depth_buffer r)
            (Int.add (Int.mul (Int.sub (Int.sub (_height r) h) 1) (_width r))
                     w);
      nd_set depth_map [h; w] v))
    depth_map.

Definition color_index (r : Renderer) (h w c : Z) : Z :=
  Int.add
    (Int.add
       (Int.mul (Int.mul (Int.sub (Int.sub (_height r) h) 1) (_width r)) 3)
       (Int.mul w 3))
    c.

Definition flip_rgb (r : Renderer) (rgb_map : ndarray GLuint)
  : option (ndarray GLuint) :=
  for_int (_height r) (fun h =>
    for_int (_width r) (fun w rgb_map =>
      c0 ← array_get (_color_buffer r) (color_index r h w 0);
      rgb_map ← nd_set rgb_map [h; w; 0] (GLuint_of_GLubyte c0);
      c1 ← array_get (_color_buffer r) (color_index r h w 1);
      rgb_map ← nd_set rgb_map [h; w; 1] (GLuint_of_GLubyte c1);
      c2 ← array_get (_color_buffer r) (color_index r h w 2);
      nd_set rgb_map [h; w; 2] (GLuint_of_GLubyte c2)))
    rgb_map.

(** [Renderer::render_depth_map(camera, np_depth_map)] *)
Definition render_depth_map (r : Renderer) (camera : PerspectiveCamera)
    (np_depth_map : ndarray GLfloat) : M (Renderer * ndarray GLfloat) :=
  closing <- glfwWindowShouldClose (_window r) ;;
  if closing : bool then
    glfwDestroyWindow (_window r) ;;
    glfwTerminate ;;
    ret (r, np_depth_map)
  else
    program_use (_main_program r) ;;
    glEnable GL_BLEND ;;
    glEnable GL_CULL_FACE ;;
    glEnable GL_DEPTH_TEST ;;
    glBlendFunc GL_SRC_ALPHA GL_ONE_MINUS_SRC_ALPHA ;;
    glBindRenderbuffer GL_RENDERBUFFER (_render_buffer r) ;;
    glFramebufferRenderbuffer
      GL_FRAMEBUFFER GL_DEPTH_ATTACHMENT GL_RENDERBUFFER (_render_buffer r) ;;
    render_objects r camera ;;
    depth_buffer <-
      glReadPixels_depth 0 0 (_width r) (_height r) (_depth_buffer r) ;;
    let r := set_depth_buffer depth_buffer r in
    depth_map <- mutable_unchecked 2 np_depth_map ;;
    depth_map <- lift_ub (flip_depth r depth_map) ;;
    glUseProgram 0 ;;
    glBindVertexArray 0 ;;
    glBindRenderbuffer GL_RENDERBUFFER 0 ;;
    ret (r, depth_map).

(** [Renderer::render(camera, np_rgb_map)] *)
Definition render (r : Renderer) (camera : PerspectiveCamera)
    (np_rgb_map : ndarray GLuint) : M (Renderer * ndarray GLuint) :=
  closing <- glfwWindowShouldClose (_window r) ;;
  if closing : bool then
    glfwDestroyWindow (_window r) ;;
    glfwTerminate ;;
    ret (r, np_rgb_map)
  else
    program_use (_main_program r) ;;
    glEnable GL_BLEND ;;
    glEnable GL_CULL_FACE ;;
    glEnable GL_DEPTH_TEST ;;
    glBlendFunc GL_SRC_ALPHA GL_ONE_MINUS_SRC_ALPHA ;;
    glPixelStorei GL_PACK_ALIGNMENT 1 ;;
    glViewport 0 0 (_width r) (_height r) ;;
    glBindRenderbuffer GL_RENDERBUFFER (_render_buffer r) ;;
    glFramebufferRenderbuffer
      GL_FRAMEBUFFER GL_COLOR_ATTACHMENT0 GL_RENDERBUFFER (_render_buffer r) ;;
    render_objects r camera ;;
    color_buffer <-
      glReadPixels_rgb 0 0 (_width r) (_height r) (_color_buffer r) ;;
    let r := set_color_buffer color_buffer r in
    rgb_map <- mutable_unchecked 3 np_rgb_map ;;
    rgb_map <- lift_ub (flip_rgb r rgb_map) ;;
    glUseProgram 0 ;;
    glBindVertexArray 0 ;;
    glBindRenderbuffer GL_RENDERBUFFER 0 ;;
    ret (r, rgb_map).

(** [Renderer::render_depth_map(scene, camera, np_depth_map)] *)
Definition render_depth_map_scene (r : Renderer) (scene : ScenePtr)
    (camera : PerspectiveCamera) (np_depth_map : ndarray GLfloat)
  : M (Renderer * ndarray GLfloat) :=
  r <- set_scene r scene ;;
  render_depth_map r camera np_depth_map.

(** [Renderer::render(scene, camera, np_rgb_map)] *)
Definition render_scene (r : Renderer) (scene : ScenePtr)
    (camera : PerspectiveCamera) (np_rgb_map : ndarray GLuint)
  : M (Renderer * ndarray GLuint) :=
  r <- set_scene r scene ;;
  render r camera np_rgb_map.

(** ** Sequences of operations on one renderer *)

Inductive Op :=
  | op_set_scene (scene : ScenePtr)
  | op_render_objects (camera : PerspectiveCamera)
  | op_render_depth_map (camera : PerspectiveCamera) (out : ndarray GLfloat)
  | op_render (camera : PerspectiveCamera) (out : ndarray GLuint)
  | op_render_depth_map_scene (scene : ScenePtr) (camera : PerspectiveCamera)
      (out : ndarray GLfloat)
  | op_render_scene (scene : ScenePtr) (camera : PerspectiveCamera)
      (out : ndarray GLuint).

Definition run_op (r : Renderer) (op : Op) : M Renderer :=
  match op with
  | op_set_scene scene => set_scene r scene
  | op_render_objects camera => render_objects r camera ;; ret r
  | op_render_depth_map camera out =>
      ro <- render_depth_map r camera out ;; ret (fst ro)
  | op_render camera out =>
      ro <- render r camera out ;; ret (fst ro)
  | op_render_depth_map_scene scene camera out =>
      ro <- render_depth_map_scene r scene camera out ;; ret (fst ro)
  | op_render_scene scene camera out =>
      ro <- render_scene r scene camera out ;; ret (fst ro)
  end.

Fixpoint run_ops (r : Renderer) (ops : list Op) : M Renderer :=
  match ops with
  | [] => ret r
  | op :: ops' => r' <- run_op r op ;; run_ops r' ops'
  end.

(** ** Vocabulary of the properties *)

(** The world in which an outcome leaves the libraries, if it has one. *)
Definition final_world {A} (o : Outcome A) : option World :=
  match o with
  | Ok _ w => Some w
  | Throw _ w => Some w
  | Undefined => None
  end.

(** Dimensions for which the [int] products of the source do not
    overflow. *)
Definition valid_dims (width height : Z) : Prop :=
  0 <= width /\ 0 <= height /\ width * height * 3 <= Int.MAX.

Definition buffers_sized (r : Renderer) : Prop :=
  Z.of_nat (length (_depth_buffer r)) = _width r * _height r /\
  Z.of_nat (length (_color_buffer r)) = _width r * _height r * 3.

(** The window has not received a close signal. *)
Definition window_open (r : Renderer) (w : World) : Prop :=
  _window r ∉ glfw_close_flags w.

Definition close_requested (r : Renderer) (w : World) : Prop :=
  _window r ∈ glfw_close_flags w.

(** The renderer's scene pointer designates the scene [s]. *)
Definition bound_scene (r : Renderer) (w : World) (s : Scene) : Prop :=
  exists a, _scene r = Some (Addr a) /\ scenes w !! a = Some s.

(** The geometry binding is the one built from the scene set last. *)
Definition geometry_synced (r : Renderer) (w : World) : Prop :=
  match _scene r with
  | None => vao_slots (_vao r) = []
  | Some p =>
      exists s, deref p w = Ok s w /\ vao_slots (_vao r) = _objects s
  end.

(** The scene's sizes fit the [int] counters of the draw loop. *)
Definition drawable (s : Scene) : Prop :=
  Z.of_nat (length (_objects s)) <= Int.MAX /\
  Forall (fun o => Int.in_range (3 * _num_faces o)) (_objects s).

(** The calls [render_objects] makes for the object at index [i]. *)
Definition object_calls (r : Renderer) (camera : PerspectiveCamera)
    (i : Z) (o : Object) : list Call :=
  [ Call_vao_bind_object i;
    Call_program_uniform_matrix (_main_program r) 0 (_model_matrix o);
    Call_program_uniform_matrix (_main_program r) 1 (_view_matrix camera);
    Call_program_uniform_matrix (_main_program r) 2
      (_projection_matrix camera);
    Call_program_uniform_float (_main_program r) 3
      (if _smoothness o then f32_one else f32_zero);
    Call_glDrawArrays GL_TRIANGLES 0 (3 * _num_faces o) ].

Definition objects_calls (r : Renderer) (camera : PerspectiveCamera)
    (objects : list Object) : list Call :=
  concat (imap (fun i o => object_calls r camera (Z.of_nat i) o) objects).

Definition render_objects_calls (r : Renderer) (camera : PerspectiveCamera)
    (objects : list Object) : list Call :=
  [ Call_glfwMakeContextCurrent (_window r);
    Call_glViewport 0 0 (_width r) (_height r);
    Call_glClear (Z.lor GL_COLOR_BUFFER_BIT GL_DEPTH_BUFFER_BIT);
    Call_glClearColor f32_zero f32_zero f32_zero f32_one ]
  ++ objects_calls r camera objects.

Definition set_scene_calls (r : Renderer) (scene : ScenePtr) : list Call :=
  [ Call_glfwMakeContextCurrent (_window r); Call_vao_build scene ].

Definition render_calls (r : Renderer) (camera : PerspectiveCamera)
    (objects : list Object) : list Call :=
  [ Call_glfwWindowShouldClose (_window r) false;
    Call_program_use (_main_program r);
    Call_glEnable GL_BLEND;
    Call_glEnable GL_CULL_FACE;
    Call_glEnable GL_DEPTH_TEST;
    Call_glBlendFunc GL_SRC_ALPHA GL_ONE_MINUS_SRC_ALPHA;
    Call_glPixelStorei GL_PACK_ALIGNMENT 1;
    Call_glViewport 0 0 (_width r) (_height r);
    Call_glBindRenderbuffer GL_RENDERBUFFER (_render_buffer r);
    Call_glFramebufferRenderbuffer
      GL_FRAMEBUFFER GL_COLOR_ATTACHMENT0 GL_RENDERBUFFER (_render_buffer r) ]
  ++ render_objects_calls r camera objects
  ++ [ Call_glReadPixels 0 0 (_width r) (_height r) GL_RGB GL_UNSIGNED_BYTE;
       Call_glUseProgram 0;
       Call_glBindVertexArray 0;
       Call_glBindRenderbuffer GL_RENDERBUFFER 0 ].

Definition render_depth_map_calls (r : Renderer) (camera : PerspectiveCamera)
    (objects : list Object) : list Call :=
  [ Call_glfwWindowShouldClose (_window r) false;
    Call_program_use (_main_program r);
    Call_glEnable GL_BLEND;
    Call_glEnable GL_CULL_FACE;
    Call_glEnable GL_DEPTH_TEST;
    Call_glBlendFunc GL_SRC_ALPHA GL_ONE_MINUS_SRC_ALPHA;
    Call_glBindRenderbuffer GL_RENDERBUFFER (_render_buffer r);
    Call_glFramebufferRenderbuffer
      GL_FRAMEBUFFER GL_DEPTH_ATTACHMENT GL_RENDERBUFFER (_render_buffer r) ]
  ++ render_objects_calls r camera objects
  ++ [ Call_glReadPixels 0 0 (_width r) (_height r)
         GL_DEPTH_COMPONENT GL_FLOAT;
       Call_glUseProgram 0;
       Call_glBindVertexArray 0;
       Call_glBindRenderbuffer GL_RENDERBUFFER 0 ].

(** The calls of the close-signal branch. *)
Definition teardown_calls (r : Renderer) : list Call :=
  [ Call_glfwWindowShouldClose (_window r) true;
    Call_glfwDestroyWindow (_window r);
    Call_glfwTerminate ].

(** Calls that write the frame. *)
Definition is_drawing (c : Call) : bool :=
  match c with
  | Call_glDrawArrays _ _ _ | Call_glClear _ => true
  | _ => false
  end.

(** The pipeline a call creates, activates or feeds, if any. *)
Definition call_pipeline (c : Call) : option Pipeline :=
  match c with
  | Call_Program_new p
  | Call_program_use p
  | Call_program_uniform_matrix p _ _
  | Call_program_uniform_float p _ _ => Some p
  | _ => None
  end.

(** A call that activates or feeds pipeline [p] (its construction apart). *)
Definition uses_pipeline (p : Pipeline) (c : Call) : bool :=
  match c with
  | Call_program_use q
  | Call_program_uniform_matrix q _ _
  | Call_program_uniform_float q _ _ => bool_decide (q = p)
  | _ => false
  end.

Definition glfwInit_fails (w : World) : Prop :=
  glfw_initialized w || glfw_platform_ok w = false.

Definition opaque_black : RGBA :=
  {| red := f32_zero; green := f32_zero; blue := f32_zero;
     alpha := f32_one |}.

(** ** A concrete world for the examples *)

Definition example_driver : Driver := {|
  rasterize := fun _ _ _ _ fb =>
    {| fb_color := fun x y =>
         if Z.eqb y 0
         then {| red := f32_one; green := f32_zero; blue := f32_one;
                 alpha := f32_one |}
         else fb_color fb x y;
       fb_depth := fun x y => if Z.eqb y 0 then f32_zero
                              else fb_depth fb x y |};
  unorm8 := fun f => match f with S754_zero _ => x00%byte | _ => xff%byte end
|}.

Definition example_object (smooth : bool) (faces : Z) : Object :=
  {| _model_matrix := [f32_one]; _num_faces := faces;
     _smoothness := smooth |}.

Definition scene_A : Scene :=
  {| _objects := [example_object true 12] |}.

Definition scene_B : Scene :=
  {| _objects := [example_object false 2; example_object true 4] |}.

Definition scene_empty : Scene := {| _objects := [] |}.

Definition example_camera : PerspectiveCamera :=
  {| _view_matrix := [f32_zero]; _projection_matrix := [f32_one; f32_zero] |}.

Definition world0 : World := {|
  calls := [];
  platform_apple := false;
  glfw_platform_ok := true;
  glfw_initialized := false;
  glfw_windows := [];
  glfw_close_flags := [];
  glfw_current := None;
  glfw_next_window := 1;
  driver := example_driver;
  gl := gl_initial;
  framebuffer := {| fb_color := fun _ _ => opaque_black;
                    fb_depth := fun _ _ => f32_zero |};
  scenes := <[1%positive := scene_A]>
              (<[2%positive := scene_B]>
                 (<[3%positive := scene_empty]> ∅))
|}.

(** The copy loops have passed cell [(h', w')] when they stand at
    [(h, w)]. *)
Definition copied_before (h w h' w' : Z) : Prop :=
  h' < h \/ (h' = h /\ w' < w).

Definition depth_flip_inv (r : Renderer) (h w : Z) (a : ndarray GLfloat)
  : Prop :=
  nd_shape a = [_height r; _width r] /\
  Z.of_nat (length (nd_data a)) = _height r * _width r /\
  forall h' w', 0 <= h' < _height r -> 0 <= w' < _width r ->
    copied_before h w h' w' ->
    nd_data a !! Z.to_nat (h' * _width r + w')
    = _depth_buffer r !! Z.to_nat ((_height r - 1 - h') * _width r + w').

Definition rgb_flip_inv (r : Renderer) (h w : Z) (a : ndarray GLuint)
  : Prop :=
  nd_shape a = [_height r; _width r; 3] /\
  Z.of_nat (length (nd_data a)) = _height r * _width r * 3 /\
  forall h' w' c, 0 <= h' < _height r -> 0 <= w' < _width r -> 0 <= c < 3 ->
    copied_before h w h' w' ->
    nd_data a !! Z.to_nat ((h' * _width r + w') * 3 + c)
    = GLuint_of_GLubyte <$>
        _color_buffer r
          !! Z.to_nat ((_height r - 1 - h') * _width r * 3 + w' * 3 + c).


(** What the draw pass leaves as it found it: everything but the call
    log, the current context, the viewport, the clear colour, the uniform
    and vertex-array state and the frame. *)
Definition draw_frame (w w' : World) : Prop :=
  platform_apple w' = platform_apple w /\
  glfw_platform_ok w' = glfw_platform_ok w /\
  glfw_initialized w' = glfw_initialized w /\
  glfw_windows w' = glfw_windows w /\
  glfw_close_flags w' = glfw_close_flags w /\
  glfw_next_window w' = glfw_next_window w /\
  driver w' = driver w /\
  scenes w' = scenes w /\
  gl_clear_depth (gl w') = gl_clear_depth (gl w) /\
  gl_program (gl w') = gl_program (gl w) /\
  gl_enabled (gl w') = gl_enabled (gl w) /\
  gl_blend_func (gl w') = gl_blend_func (gl w) /\
  gl_pack_alignment (gl w') = gl_pack_alignment (gl w) /\
  gl_renderbuffers (gl w') = gl_renderbuffers (gl w) /\
  gl_renderbuffer_binding (gl w') = gl_renderbuffer_binding (gl w) /\
  gl_attachments (gl w') = gl_attachments (gl w).

(** The first four calls of [render_objects], up to the loop. *)
Definition render_objects_prelude (r : Renderer) : M unit :=
  glfwMakeContextCurrent (_window r) ;;
  glViewport 0 0 (_width r) (_height r) ;;
  glClear (Z.lor GL_COLOR_BUFFER_BIT GL_DEPTH_BUFFER_BIT) ;;
  glClearColor f32_zero f32_zero f32_zero f32_one.

(** The world in which the loop of [render_objects] starts. *)
Definition loop_entry (r : Renderer) (w : World) : World :=
  match render_objects_prelude r w with
  | Ok _ w' => w'
  | _ => w
  end.


(** Unfolds the library calls, for stepping through a method. *)
Ltac unfold_calls :=
  unfold glfwSetErrorCallback, glfwInit, glfwWindowHint, glfwCreateWindow,
    glfwMakeContextCurrent, gl3wInit, glfwWindowShouldClose,
    glfwDestroyWindow, glfwTerminate, glGenRenderbuffers, glViewport,
    glClear, glClearColor, glDrawArrays, glEnable, glBlendFunc,
    glPixelStorei, glBindRenderbuffer, glFramebufferRenderbuffer,
    glUseProgram, glBindVertexArray, VertexArrayObject_new, vao_bind_object,
    Program_new, program_use, program_uniform_matrix, program_uniform_float,
    log, modify_world, get_world, bind, ret in *.

(** A renderer of 2 by 2 pixels with [scene_B] bound, and the world that
    holds it. *)
Definition example_state : Renderer * World :=
  Eval vm_compute in
    match (r <- Renderer_new 2 2 ;; set_scene r (Addr 2)) world0 with
    | Ok r w => (r, w)
    | _ => ({| _width := 0; _height := 0; _depth_buffer := [];
               _color_buffer := []; _prev_num_objects := 0; _window := 0;
               _vao := {| vao_slots := [] |}; _depth_program := Depth;
               _main_program := Main; _render_buffer := 0;
               _scene := None |}, world0)
    end.

Definition example_renderer : Renderer := fst example_state.
Definition example_world : World := snd example_state.

Definition example_depth_out : ndarray GLfloat :=
  {| nd_shape := [2; 2]; nd_data := replicate 4 f32_one |}.

Definition example_rgb_out : ndarray GLuint :=
  {| nd_shape := [2; 2; 3]; nd_data := replicate 12 7 |}.


(** A property of whatever state an outcome leaves behind. *)
Definition outcome_sat {A} (o : Outcome A) (Q : A -> World -> Prop)
    (E : World -> Prop) : Prop :=
  match o with
  | Ok a w => Q a w
  | Throw _ w => E w
  | Undefined => True
  end.

(** A call that names no pipeline, or the renderer's main pipeline. *)
Definition renderer_call (r : Renderer) (c : Call) : Prop :=
  call_pipeline c = None \/ call_pipeline c = Some (_main_program r).

(** [w'] is [w] after more calls of the renderer; the caller's scenes are
    untouched. *)
Definition extends (r : Renderer) (w w' : World) : Prop :=
  scenes w' = scenes w /\
  exists delta, calls w' = calls w ++ delta /\ Forall (renderer_call r) delta.

(** What no operation changes in a renderer: its dimensions, handles and
    pipelines, and the sizes of its two buffers. *)
Definition renderer_stable (r r' : Renderer) : Prop :=
  _width r' = _width r /\
  _height r' = _height r /\
  _window r' = _window r /\
  _depth_program r' = _depth_program r /\
  _main_program r' = _main_program r /\
  _render_buffer r' = _render_buffer r /\
  length (_depth_buffer r') = length (_depth_buffer r) /\
  length (_color_buffer r') = length (_color_buffer r).


(** Checks [renderer_call] on each call of an explicit list. *)
Ltac solve_renderer_calls :=
  unfold renderer_call;
  repeat (apply Forall_cons; split; [first [by left | by right]|]);
  by apply Forall_nil.

(** The window system delivers a close signal to window [win]. *)
Definition signal_close (win : Window) (w : World) : World :=
  {| calls := calls w; platform_apple := platform_apple w;
     glfw_platform_ok := glfw_platform_ok w;
     glfw_initialized := glfw_initialized w;
     glfw_windows := glfw_windows w;
     glfw_close_flags := win :: glfw_close_flags w;
     glfw_current := glfw_current w;
     glfw_next_window := glfw_next_window w;
     driver := driver w; gl := gl w; framebuffer := framebuffer w;
     scenes := scenes w |}.

Definition example_closing_world : World :=
  signal_close (_window example_renderer) example_world.

(** The calls of the destructor. *)
Definition destructor_calls (r : Renderer) : list Call :=
  [ Call_glfwDestroyWindow (_window r); Call_glfwTerminate ].


(** The world right after a render call has found the window open and
    activated the renderer's main pipeline. *)
Definition entered (r : Renderer) (w : World) : World :=
  match (glfwWindowShouldClose (_window r) ;;
         program_use (_main_program r)) w with
  | Ok _ w' => w'
  | _ => w
  end.


(** A renderer of 2 by 2 pixels right after construction, and a renderer
    constructed on the empty scene. *)
Definition example_constructed : Renderer * World :=
  Eval vm_compute in
    match Renderer_new 2 2 world0 with
    | Ok r w => (r, w)
    | _ => example_state
    end.

Definition example_constructed_empty : Renderer * World :=
  Eval vm_compute in
    match Renderer_new_scene (Addr 3) 2 2 world0 with
    | Ok r w => (r, w)
    | _ => example_state
    end.

(** The clear colour of a context in its initial state: transparent
    black. *)
Definition transparent_black : RGBA := gl_clear_color gl_initial.


(** No call of [delta] activates the Depth pipeline or feeds it. *)
Definition no_depth_use (delta : list Call) : Prop :=
  Forall (fun c => uses_pipeline Depth c = false) delta.

(** The calls made from [w] on: a list without use of the Depth
    pipeline. *)
Definition calls_without_depth (w w' : World) : Prop :=
  exists delta, calls w' = calls w ++ delta /\ no_depth_use delta.

(** The calls made from [w] on: the query of the close flag, answered
    with no, the activation of the Main pipeline, and a rest without use
    of the Depth pipeline. *)
Definition activates_main (r : Renderer) (w w' : World) : Prop :=
  exists rest,
    calls w' = calls w
               ++ [Call_glfwWindowShouldClose (_window r) false;
                   Call_program_use Main] ++ rest
    /\ no_depth_use rest.


(** Proves [extends r w w'] when [w'] is [w] under explicit updates. *)
Ltac solve_extends :=
  split;
  [ simpl; done
  | eexists; split;
    [ simpl; rewrite <- ?app_assoc; simpl; reflexivity
    | solve_renderer_calls ] ].

(** Channel [c] (0, 1, 2) of a colour. *)
Definition channel (c : Z) (p : RGBA) : GLfloat :=
  if Z.eqb c 0 then red p else if Z.eqb c 1 then green p else blue p.

(** The world in which [render] calls [render_objects], when it found the
    window open. *)
Definition render_setup (r : Renderer) (w : World) : World :=
  match (glfwWindowShouldClose (_window r) ;;
         program_use (_main_program r) ;;
         glEnable GL_BLEND ;;
         glEnable GL_CULL_FACE ;;
         glEnable GL_DEPTH_TEST ;;
         glBlendFunc GL_SRC_ALPHA GL_ONE_MINUS_SRC_ALPHA ;;
         glPixelStorei GL_PACK_ALIGNMENT 1 ;;
         glViewport 0 0 (_width r) (_height r) ;;
         glBindRenderbuffer GL_RENDERBUFFER (_render_buffer r) ;;
         glFramebufferRenderbuffer
           GL_FRAMEBUFFER GL_COLOR_ATTACHMENT0 GL_RENDERBUFFER
           (_render_buffer r)) w with
  | Ok _ w' => w'
  | _ => w
  end.

(** The same for [render_depth_map]. *)
Definition render_depth_map_setup (r : Renderer) (w : World) : World :=
  match (glfwWindowShouldClose (_window r) ;;
         program_use (_main_program r) ;;
         glEnable GL_BLEND ;;
         glEnable GL_CULL_FACE ;;
         glEnable GL_DEPTH_TEST ;;
         glBlendFunc GL_SRC_ALPHA GL_ONE_MINUS_SRC_ALPHA ;;
         glBindRenderbuffer GL_RENDERBUFFER (_render_buffer r) ;;
         glFramebufferRenderbuffer
           GL_FRAMEBUFFER GL_DEPTH_ATTACHMENT GL_RENDERBUFFER
           (_render_buffer r)) w with
  | Ok _ w' => w'
  | _ => w
  end.

(** The world after the three calls that end both render methods. *)
Definition render_finish (w : World) : World :=
  match (glUseProgram 0 ;;
         glBindVertexArray 0 ;;
         glBindRenderbuffer GL_RENDERBUFFER 0) w with
  | Ok _ w' => w'
  | _ => w
  end.

(** The world with one more call in its log. *)
Definition logged (c : Call) (w : World) : World :=
  set_calls (fun l => l ++ [c]) w.

(** The three calls that end both render methods. *)
Definition cleanup_calls : list Call :=
  [ Call_glUseProgram 0;
    Call_glBindVertexArray 0;
    Call_glBindRenderbuffer GL_RENDERBUFFER 0 ].



(** Arrays of the wrong rank: the twelve colour values and the four depth
    values as flat arrays. *)
Definition example_flat_rgb_out : ndarray GLuint :=
  {| nd_shape := [12]; nd_data := replicate 12 7 |}.

Definition example_flat_depth_out : ndarray GLfloat :=
  {| nd_shape := [4]; nd_data := replicate 4 f32_one |}.


(** The pointer designates a live scene that can be drawn. *)
Definition scene_ok (scs : gmap positive Scene) (p : ScenePtr) : Prop :=
  exists a s, p = Addr a /\ scs !! a = Some s /\ drawable s.

(** Arrays of the shapes the two render methods write. *)
Definition depth_shaped (width height : Z) (out : ndarray GLfloat) : Prop :=
  nd_shape out = [height; width]
  /\ Z.of_nat (length (nd_data out)) = height * width.

Definition rgb_shaped (width height : Z) (out : ndarray GLuint) : Prop :=
  nd_shape out = [height; width; 3]
  /\ Z.of_nat (length (nd_data out)) = height * width * 3.

(** An operation called with a live scene and an array of the renderer's
    shape, where it takes one. *)
Definition op_ok (width height : Z) (scs : gmap positive Scene) (op : Op)
  : Prop :=
  match op with
  | op_set_scene p => scene_ok scs p
  | op_render_objects _ => True
  | op_render_depth_map _ out => depth_shaped width height out
  | op_render _ out => rgb_shaped width height out
  | op_render_depth_map_scene p _ out =>
      scene_ok scs p /\ depth_shaped width height out
  | op_render_scene p _ out =>
      scene_ok scs p /\ rgb_shaped width height out
  end.

(** A renderer that can render: no close signal, dimensions and buffers
    as construction leaves them, a live drawable scene set, and a pack
    alignment that keeps the rows of a depth readback adjacent. *)
Definition ready (r : Renderer) (w : World) : Prop :=
  window_open r w
  /\ valid_dims (_width r) (_height r)
  /\ buffers_sized r
  /\ gl_pack_alignment (gl w) <= 4
  /\ exists s, bound_scene r w s /\ drawable s.

Definition example_ops : list Op :=
  [ op_render example_camera example_rgb_out;
    op_render_depth_map example_camera example_depth_out;
    op_set_scene (Addr 1);
    op_render_objects example_camera;
    op_render_depth_map_scene (Addr 3) example_camera example_depth_out;
    op_render_scene (Addr 2) example_camera example_rgb_out ].

(** A second renderer, of 3 by 1 pixels, constructed after the first. *)
Definition example_second : Renderer * World :=
  Eval vm_compute in
    match Renderer_new 3 1 (snd example_constructed) with
    | Ok r w => (r, w)
    | _ => example_constructed
    end.


(** The copy loop of [render_depth_map] standing at [(h, w)] on an array
    of shape [[H2; W2]] that was [a0] when the loop started: the cells
    passed hold the flipped readback, every other element is as it was. *)
Definition depth_block_inv (r : Renderer) (a0 : ndarray GLfloat)
    (H2 W2 h w : Z) (a : ndarray GLfloat) : Prop :=
  nd_shape a = [H2; W2]
  /\ length (nd_data a) = length (nd_data a0)
  /\ (forall h' w', 0 <= h' < _height r -> 0 <= w' < _width r ->
        copied_before h w h' w' ->
        nd_data a !! Z.to_nat (h' * W2 + w')
        = _depth_buffer r !! Z.to_nat ((_height r - 1 - h') * _width r + w'))
  /\ (forall i j, 0 <= i -> 0 <= j < W2 ->
        ~ (i < _height r /\ j < _width r /\ copied_before h w i j) ->
        nd_data a !! Z.to_nat (i * W2 + j)
        = nd_data a0 !! Z.to_nat (i * W2 + j)).

(** The same for the copy loop of [render] on an array of shape
    [[H2; W2; C2]]. *)
Definition rgb_block_inv (r : Renderer) (a0 : ndarray GLuint)
    (H2 W2 C2 h w : Z) (a : ndarray GLuint) : Prop :=
  nd_shape a = [H2; W2; C2]
  /\ length (nd_data a) = length (nd_data a0)
  /\ (forall h' w' c, 0 <= h' < _height r -> 0 <= w' < _width r ->
        0 <= c < 3 -> copied_before h w h' w' ->
        nd_data a !! Z.to_nat ((h' * W2 + w') * C2 + c)
        = GLuint_of_GLubyte <$>
            _color_buffer r
              !! Z.to_nat ((_height r - 1 - h') * _width r * 3 + w' * 3 + c))
  /\ (forall i j k, 0 <= i -> 0 <= j < W2 -> 0 <= k < C2 ->
        ~ (i < _height r /\ j < _width r /\ k < 3 /\ copied_before h w i j) ->
        nd_data a !! Z.to_nat ((i * W2 + j) * C2 + k)
        = nd_data a0 !! Z.to_nat ((i * W2 + j) * C2 + k)).

(** Arrays with room to spare: three rows of four pixels, with four
    channels for colour; and arrays with a row too few. *)
Definition example_rgba_out : ndarray GLuint :=
  {| nd_shape := [3; 4; 4]; nd_data := replicate 48 7 |}.

Definition example_wide_depth_out : ndarray GLfloat :=
  {| nd_shape := [3; 4]; nd_data := replicate 12 f32_one |}.

Definition example_short_rgb_out : ndarray GLuint :=
  {| nd_shape := [1; 2; 3]; nd_data := replicate 6 7 |}.

Definition example_short_depth_out : ndarray GLfloat :=
  {| nd_shape := [1; 2]; nd_data := replicate 2 f32_one |}.

(** A renderer of 1 by 2 pixels on [scene_B], and the world in which the
    host has set the pack alignment to 8 afterwards. *)
Definition example_tall : Renderer * World :=
  Eval vm_compute in
    match Renderer_new_scene (Addr 2) 1 2 world0 with
    | Ok r w => (r, w)
    | _ => example_state
    end.

Definition example_tall_world8 : World :=
  match glPixelStorei GL_PACK_ALIGNMENT 8 (snd example_tall) with
  | Ok _ w => w
  | _ => snd example_tall
  end.

(** ** Properties *)

(** *** Integer conversions *)

Lemma wrap_in_range z : Int.in_range z -> Int.wrap z = z.
Proof.
  unfold Int.in_range, Int.wrap, Int.MIN, Int.MAX. intros Hz.
  rewrite Z.mod_small by lia. lia.
Qed.

Lemma to_size_t_small z : 0 <= z < 2 ^ 64 -> Int.to_size_t z = z.
Proof. intros Hz. unfold Int.to_size_t. now rewrite Z.mod_small. Qed.

Lemma array_get_lookup {T} (buf : list T) (i : Z) :
  0 <= i < 2 ^ 64 -> array_get buf i = buf !! Z.to_nat i.
Proof. intros Hi. unfold array_get. now rewrite to_size_t_small. Qed.

Lemma GLuint_of_GLubyte_value b :
  GLuint_of_GLubyte b = Z.of_N (Byte.to_N b).
Proof.
  unfold GLuint_of_GLubyte. apply Z.mod_small.
  pose proof (Byte.to_N_bounded b) as Hb.
  split; [lia|].
  apply Z.le_lt_trans with 255; [lia | reflexivity].
Qed.

(** *** Loop rules *)

Lemma for_each_seqZ_inv {St} (I : Z -> St -> Prop) (body : Z -> St -> option St)
    (k : nat) :
  forall (a : Z) (s : St),
    I a s ->
    (forall i s, a <= i < a + Z.of_nat k -> I i s ->
                 exists s', body i s = Some s' /\ I (i + 1) s') ->
    exists s', for_each (seqZ a (Z.of_nat k)) body s = Some s'
               /\ I (a + Z.of_nat k) s'.
Proof.
  induction k as [|k IH]; intros a s Ha Hstep.
  - rewrite seqZ_nil by lia. simpl. exists s. split; [done|].
    now replace (a + Z.of_nat 0) with a by lia.
  - rewrite seqZ_cons by lia. simpl.
    destruct (Hstep a s) as (s1 & Hb & H1); [lia | done |].
    rewrite Hb.
    replace (Z.pred (Z.of_nat (S k))) with (Z.of_nat k) by lia.
    destruct (IH (Z.succ a) s1) as (s2 & Hrun & H2).
    + now replace (Z.succ a) with (a + 1) by lia.
    + intros i s' Hi HI. apply Hstep; [lia | done].
    + exists s2. split; [done|].
      now replace (a + Z.of_nat (S k)) with (Z.succ a + Z.of_nat k) by lia.
Qed.

Lemma for_int_inv {St} (I : Z -> St -> Prop) (n : Z)
    (body : Z -> St -> option St) (s : St) :
  0 <= n ->
  I 0 s ->
  (forall i s, 0 <= i < n -> I i s ->
               exists s', body i s = Some s' /\ I (i + 1) s') ->
  exists s', for_int n body s = Some s' /\ I n s'.
Proof.
  intros Hn H0 Hstep. unfold for_int.
  destruct (for_each_seqZ_inv I body (Z.to_nat n) 0 s) as (s' & Hrun & HI).
  - done.
  - intros i s1 Hi. apply Hstep. lia.
  - rewrite Z2Nat.id in Hrun, HI by lia. exists s'. split; [done|].
    now rewrite Z.add_0_l in HI.
Qed.

Lemma for_int_nonpos {St} (n : Z) (body : Z -> St -> option St) (s : St) :
  n <= 0 -> for_int n body s = Some s.
Proof. intros Hn. unfold for_int. now rewrite seqZ_nil. Qed.

(** *** The copy loops *)

Lemma depth_index (r : Renderer) (h w : Z) :
  valid_dims (_width r) (_height r) ->
  0 <= h < _height r -> 0 <= w < _width r ->
  Int.add (Int.mul (Int.sub (Int.sub (_height r) h) 1) (_width r)) w
  = (_height r - 1 - h) * _width r + w
  /\ 0 <= (_height r - 1 - h) * _width r + w < _width r * _height r.
Proof.
  intros (HW & HH & Hmax) Hh Hw.
  unfold Int.MAX in Hmax.
  assert (0 <= (_height r - 1 - h) * _width r + w < _width r * _height r)
    as Hidx by nia.
  split; [|done].
  unfold Int.add, Int.mul, Int.sub.
  rewrite (wrap_in_range (_height r - h))
    by (unfold Int.in_range, Int.MIN, Int.MAX; nia).
  rewrite (wrap_in_range (_height r - h - 1))
    by (unfold Int.in_range, Int.MIN, Int.MAX; nia).
  replace (_height r - h - 1) with (_height r - 1 - h) by lia.
  rewrite (wrap_in_range ((_height r - 1 - h) * _width r))
    by (unfold Int.in_range, Int.MIN, Int.MAX; nia).
  apply wrap_in_range. unfold Int.in_range, Int.MIN, Int.MAX; nia.
Qed.

Lemma nd_offset_2 (s0 s1 h w : Z) : nd_offset [s0; s1] [h; w] = h * s1 + w.
Proof. unfold nd_offset. simpl. lia. Qed.

Lemma nd_offset_3 (s0 s1 s2 h w c : Z) :
  nd_offset [s0; s1; s2] [h; w; c] = (h * s1 + w) * s2 + c.
Proof. unfold nd_offset. simpl. lia. Qed.

Lemma cell_offset_inj (W h w h' w' : Z) :
  0 <= w < W -> 0 <= w' < W -> h * W + w = h' * W + w' ->
  h = h' /\ w = w'.
Proof. intros Hw Hw' Heq. assert (h = h') by nia. subst. lia. Qed.

Lemma flip_depth_spec (r : Renderer) (a : ndarray GLfloat) :
  valid_dims (_width r) (_height r) ->
  Z.of_nat (length (_depth_buffer r)) = _width r * _height r ->
  nd_shape a = [_height r; _width r] ->
  Z.of_nat (length (nd_data a)) = _height r * _width r ->
  exists a', flip_depth r a = Some a' /\ depth_flip_inv r (_height r) 0 a'.
Proof.
  intros Hdims Hbuf Hshape Hlen.
  pose proof Hdims as (HW & HH & Hmax).
  unfold flip_depth.
  apply (for_int_inv (fun h a => depth_flip_inv r h 0 a)); [done| |].
  { split; [done|]. split; [done|].
    intros h' w' Hh' Hw' [?|[? ?]]; lia. }
  intros h a1 Hh Hinv.
  destruct (for_int_inv (fun w a => depth_flip_inv r h w a) (_width r)
              (fun w depth_map =>
                 v ← array_get (_depth_buffer r)
                       (Int.add
                          (Int.mul (Int.sub (Int.sub (_height r) h) 1)
                             (_width r)) w);
                 nd_set depth_map [h; w] v) a1)
    as (a2 & Hrun & Hinv2); [done|done| |].
  - intros w a3 Hw (Hs3 & Hl3 & Hc3).
    destruct (depth_index r h w Hdims Hh Hw) as (-> & Hidx).
    unfold Int.MAX in Hmax.
    rewrite array_get_lookup by lia.
    destruct (lookup_lt_is_Some_2 (_depth_buffer r)
                (Z.to_nat ((_height r - 1 - h) * _width r + w)))
      as (v & Hv); [lia|].
    rewrite Hv. simpl. unfold nd_set. rewrite Hs3, nd_offset_2.
    rewrite decide_True by nia.
    eexists. split; [done|].
    unfold depth_flip_inv. simpl.
    split; [done|]. split; [by rewrite length_insert|].
    intros h' w' Hh' Hw' Hcb.
    destruct (decide (h' * _width r + w' = h * _width r + w)) as [Heq|Hne].
    + apply cell_offset_inj in Heq as (-> & ->); [|done..].
      rewrite list_lookup_insert_eq by nia. done.
    + rewrite list_lookup_insert_ne by nia.
      apply Hc3; [done..|].
      destruct Hcb as [?|[-> ?]]; [by left|].
      right. split; [done|].
      destruct (decide (w' = w)) as [->|]; [done|lia].
  - exists a2. split; [done|].
    destruct Hinv2 as (Hs2 & Hl2 & Hc2).
    split; [done|]. split; [done|].
    intros h' w' Hh' Hw' [?|[? ?]]; [|lia].
    apply Hc2; [done..|].
    destruct (decide (h' = h)) as [->|]; [right; lia|left; lia].
Qed.

Lemma color_index_value (r : Renderer) (h w c : Z) :
  valid_dims (_width r) (_height r) ->
  0 <= h < _height r -> 0 <= w < _width r -> 0 <= c < 3 ->
  color_index r h w c = (_height r - 1 - h) * _width r * 3 + w * 3 + c
  /\ 0 <= (_height r - 1 - h) * _width r * 3 + w * 3 + c
       < _width r * _height r * 3.
Proof.
  intros (HW & HH & Hmax) Hh Hw Hc.
  unfold Int.MAX in Hmax.
  assert (0 <= (_height r - 1 - h) * _width r + w < _width r * _height r)
    as Hidx by nia.
  split; [|nia].
  unfold color_index, Int.add, Int.mul, Int.sub.
  rewrite (wrap_in_range (_height r - h))
    by (unfold Int.in_range, Int.MIN, Int.MAX; nia).
  rewrite (wrap_in_range (_height r - h - 1))
    by (unfold Int.in_range, Int.MIN, Int.MAX; nia).
  replace (_height r - h - 1) with (_height r - 1 - h) by lia.
  rewrite (wrap_in_range ((_height r - 1 - h) * _width r))
    by (unfold Int.in_range, Int.MIN, Int.MAX; nia).
  rewrite (wrap_in_range ((_height r - 1 - h) * _width r * 3))
    by (unfold Int.in_range, Int.MIN, Int.MAX; nia).
  rewrite (wrap_in_range (w * 3))
    by (unfold Int.in_range, Int.MIN, Int.MAX; nia).
  rewrite (wrap_in_range ((_height r - 1 - h) * _width r * 3 + w * 3))
    by (unfold Int.in_range, Int.MIN, Int.MAX; nia).
  apply wrap_in_range. unfold Int.in_range, Int.MIN, Int.MAX; nia.
Qed.

Lemma color_buffer_get (r : Renderer) (h w c : Z) :
  valid_dims (_width r) (_height r) ->
  Z.of_nat (length (_color_buffer r)) = _width r * _height r * 3 ->
  0 <= h < _height r -> 0 <= w < _width r -> 0 <= c < 3 ->
  exists b,
    array_get (_color_buffer r) (color_index r h w c) = Some b /\
    _color_buffer r
      !! Z.to_nat ((_height r - 1 - h) * _width r * 3 + w * 3 + c) = Some b.
Proof.
  intros Hdims Hbuf Hh Hw Hc.
  destruct (color_index_value r h w c Hdims Hh Hw Hc) as (-> & Hidx).
  pose proof Hdims as (HW & HH & Hmax). unfold Int.MAX in Hmax.
  rewrite array_get_lookup by lia.
  destruct (lookup_lt_is_Some_2 (_color_buffer r)
              (Z.to_nat ((_height r - 1 - h) * _width r * 3 + w * 3 + c)))
    as (b & Hb); [lia|].
  exists b. done.
Qed.

Lemma nd_set_rgb (a : ndarray GLuint) (H W h w c : Z) (v : GLuint) :
  nd_shape a = [H; W; 3] ->
  Z.of_nat (length (nd_data a)) = H * W * 3 ->
  0 <= h < H -> 0 <= w < W -> 0 <= c < 3 ->
  nd_set a [h; w; c] v
  = Some {| nd_shape := [H; W; 3];
            nd_data := <[Z.to_nat ((h * W + w) * 3 + c) := v]> (nd_data a) |}.
Proof.
  intros Hs Hl Hh Hw Hc. unfold nd_set. rewrite Hs, nd_offset_3.
  rewrite decide_True by nia. done.
Qed.

Lemma channel_offset_inj (W h w c h' w' c' : Z) :
  0 <= w < W -> 0 <= w' < W -> 0 <= c < 3 -> 0 <= c' < 3 ->
  (h * W + w) * 3 + c = (h' * W + w') * 3 + c' ->
  h = h' /\ w = w' /\ c = c'.
Proof.
  intros Hw Hw' Hc Hc' Heq.
  assert (h * W + w = h' * W + w') as Hcell by lia.
  apply cell_offset_inj in Hcell as (-> & ->); [|done..].
  repeat split. lia.
Qed.

Lemma flip_rgb_spec (r : Renderer) (a : ndarray GLuint) :
  valid_dims (_width r) (_height r) ->
  Z.of_nat (length (_color_buffer r)) = _width r * _height r * 3 ->
  nd_shape a = [_height r; _width r; 3] ->
  Z.of_nat (length (nd_data a)) = _height r * _width r * 3 ->
  exists a', flip_rgb r a = Some a' /\ rgb_flip_inv r (_height r) 0 a'.
Proof.
  intros Hdims Hbuf Hshape Hlen.
  pose proof Hdims as (HW & HH & Hmax).
  unfold flip_rgb.
  apply (for_int_inv (fun h a => rgb_flip_inv r h 0 a)); [done| |].
  { split; [done|]. split; [done|].
    intros h' w' c Hh' Hw' Hc [?|[? ?]]; lia. }
  intros h a1 Hh Hinv.
  destruct (for_int_inv (fun w a => rgb_flip_inv r h w a) (_width r)
              (fun w rgb_map =>
                 c0 ← array_get (_color_buffer r) (color_index r h w 0);
                 rgb_map ← nd_set rgb_map [h; w; 0] (GLuint_of_GLubyte c0);
                 c1 ← array_get (_color_buffer r) (color_index r h w 1);
                 rgb_map ← nd_set rgb_map [h; w; 1] (GLuint_of_GLubyte c1);
                 c2 ← array_get (_color_buffer r) (color_index r h w 2);
                 nd_set rgb_map [h; w; 2] (GLuint_of_GLubyte c2)) a1)
    as (a2 & Hrun & Hinv2); [done|done| |].
  - intros w a3 Hw (Hs3 & Hl3 & Hc3).
    destruct (color_buffer_get r h w 0) as (b0 & -> & Hb0); [done..|lia|].
    destruct (color_buffer_get r h w 1) as (b1 & -> & Hb1); [done..|lia|].
    destruct (color_buffer_get r h w 2) as (b2 & -> & Hb2); [done..|lia|].
    simpl.
    rewrite (nd_set_rgb a3 (_height r) (_width r)) by (done || lia).
    simpl.
    rewrite (nd_set_rgb _ (_height r) (_width r))
      by (simpl; rewrite ?length_insert; done || lia).
    simpl.
    rewrite (nd_set_rgb _ (_height r) (_width r))
      by (simpl; rewrite ?length_insert; done || lia).
    eexists. split; [done|].
    unfold rgb_flip_inv. simpl.
    split; [done|]. split; [by rewrite !length_insert|].
    intros h' w' c Hh' Hw' Hc Hcb.
    unfold Int.MAX in Hmax.
    destruct (decide (h' = h /\ w' = w)) as [[-> ->]|Hne].
    + assert (c = 0 \/ c = 1 \/ c = 2) as [-> | [-> | ->]] by lia.
      * rewrite list_lookup_insert_ne by nia.
        rewrite list_lookup_insert_ne by nia.
        rewrite list_lookup_insert_eq by nia. by rewrite Hb0.
      * rewrite list_lookup_insert_ne by nia.
        rewrite list_lookup_insert_eq by (rewrite length_insert; nia).
        by rewrite Hb1.
      * rewrite list_lookup_insert_eq by (rewrite !length_insert; nia).
        by rewrite Hb2.
    + assert (forall c0, 0 <= c0 < 3 ->
                (h * _width r + w) * 3 + c0
                <> (h' * _width r + w') * 3 + c) as Hoff.
      { intros c0 Hc0 Heq.
        apply channel_offset_inj in Heq as (-> & -> & _); [|done..].
        by apply Hne. }
      pose proof (Hoff 0 ltac:(lia)). pose proof (Hoff 1 ltac:(lia)).
      pose proof (Hoff 2 ltac:(lia)).
      rewrite !list_lookup_insert_ne by nia.
      apply Hc3; [done..|].
      destruct Hcb as [?|[-> ?]]; [by left|].
      right. split; [done|].
      destruct (decide (w' = w)) as [->|]; [|lia].
      exfalso. by apply Hne.
  - exists a2. split; [done|].
    destruct Hinv2 as (Hs2 & Hl2 & Hc2).
    split; [done|]. split; [done|].
    intros h' w' c Hh' Hw' Hc [?|[? ?]]; [|lia].
    apply Hc2; [done..|].
    destruct (decide (h' = h)) as [->|]; [right; lia|left; lia].
Qed.

(** *** Stepping through the monad *)

Lemma bind_Ok {A B} (m : M A) (k : A -> M B) (w w' : World) (a : A) :
  m w = Ok a w' -> bind m k w = k a w'.
Proof. intros H. unfold bind. now rewrite H. Qed.

Lemma bind_Ok_inv {A B} (m : M A) (k : A -> M B) (w w2 : World) (b : B) :
  bind m k w = Ok b w2 ->
  exists a w1, m w = Ok a w1 /\ k a w1 = Ok b w2.
Proof.
  unfold bind. destruct (m w) as [a w1| |]; [|done..].
  intros H. by exists a, w1.
Qed.

Lemma for_each_M_seqZ_inv (I : Z -> World -> Prop) (body : Z -> M unit)
    (k : nat) :
  forall (a : Z) (w : World),
    I a w ->
    (forall i w, a <= i < a + Z.of_nat k -> I i w ->
                 exists w', body i w = Ok tt w' /\ I (i + 1) w') ->
    exists w', for_each_M (seqZ a (Z.of_nat k)) body w = Ok tt w'
               /\ I (a + Z.of_nat k) w'.
Proof.
  induction k as [|k IH]; intros a w Ha Hstep.
  - rewrite seqZ_nil by lia. simpl. exists w. split; [done|].
    now replace (a + Z.of_nat 0) with a by lia.
  - rewrite seqZ_cons by lia. simpl.
    destruct (Hstep a w) as (w1 & Hb & H1); [lia | done |].
    rewrite (bind_Ok _ _ _ _ _ Hb).
    replace (Z.pred (Z.of_nat (S k))) with (Z.of_nat k) by lia.
    destruct (IH (Z.succ a) w1) as (w2 & Hrun & H2).
    + now replace (Z.succ a) with (a + 1) by lia.
    + intros i w' Hi HI. apply Hstep; [lia | done].
    + exists w2. split; [done|].
      now replace (a + Z.of_nat (S k)) with (Z.succ a + Z.of_nat k) by lia.
Qed.

(** *** The draw pass *)

Lemma draw_frame_refl w : draw_frame w w.
Proof. by repeat split. Qed.

Lemma draw_frame_trans w1 w2 w3 :
  draw_frame w1 w2 -> draw_frame w2 w3 -> draw_frame w1 w3.
Proof.
  unfold draw_frame. intros H12 H23.
  repeat match goal with H : _ /\ _ |- _ => destruct H end.
  repeat split; congruence.
Qed.

Lemma render_objects_prelude_ok (r : Renderer) (w : World) :
  render_objects_prelude r w = Ok tt (loop_entry r w).
Proof. reflexivity. Qed.

Lemma loop_entry_calls (r : Renderer) (w : World) :
  calls (loop_entry r w)
  = calls w ++
    [ Call_glfwMakeContextCurrent (_window r);
      Call_glViewport 0 0 (_width r) (_height r);
      Call_glClear (Z.lor GL_COLOR_BUFFER_BIT GL_DEPTH_BUFFER_BIT);
      Call_glClearColor f32_zero f32_zero f32_zero f32_one ].
Proof.
  unfold loop_entry, render_objects_prelude. unfold_calls. simpl.
  by rewrite <- !app_assoc.
Qed.

Lemma loop_entry_frame (r : Renderer) (w : World) :
  draw_frame w (loop_entry r w).
Proof. by repeat split. Qed.

Lemma objects_calls_snoc (r : Renderer) (camera : PerspectiveCamera)
    (objects : list Object) (o : Object) :
  objects_calls r camera (objects ++ [o])
  = objects_calls r camera objects
    ++ object_calls r camera (Z.of_nat (length objects)) o.
Proof.
  unfold objects_calls. rewrite imap_app, concat_app. simpl.
  by rewrite Nat.add_0_r.
Qed.

Lemma render_object_spec (r : Renderer) (camera : PerspectiveCamera)
    (objects : list Object) (i : Z) (o : Object) (w : World) :
  0 <= i < 2 ^ 64 ->
  objects !! Z.to_nat i = Some o ->
  Int.in_range (3 * _num_faces o) ->
  exists w',
    render_object r (_view_matrix camera) (_projection_matrix camera)
      objects i w = Ok tt w'
    /\ calls w' = calls w ++ object_calls r camera i o
    /\ draw_frame w w'
    /\ glfw_current w' = glfw_current w
    /\ gl_viewport (gl w') = gl_viewport (gl w)
    /\ gl_clear_color (gl w') = gl_clear_color (gl w).
Proof.
  intros Hi Ho Hfaces. unfold render_object.
  rewrite array_get_lookup, Ho by done.
  unfold lift_ub. unfold_calls. simpl.
  unfold Int.mul. rewrite wrap_in_range by done.
  eexists. split; [done|]. simpl.
  split; [by rewrite <- !app_assoc|].
  by repeat split.
Qed.

Lemma render_objects_unfold (r : Renderer) (camera : PerspectiveCamera)
    (w : World) :
  render_objects r camera w
  = (scene <- match _scene r with
              | Some p => deref p
              | None => undefined
              end ;;
     for_each_M (seqZ 0 (Z.of_nat (length (_objects scene))))
       (render_object r (_view_matrix camera) (_projection_matrix camera)
          (_objects scene)))
      (loop_entry r w).
Proof. reflexivity. Qed.

Lemma deref_Addr (a : positive) (s : Scene) (w : World) :
  scenes w !! a = Some s -> deref (Addr a) w = Ok s w.
Proof. intros H. unfold deref, bind, get_world, lift_ub. by rewrite H. Qed.

Lemma render_loop_spec (r : Renderer) (camera : PerspectiveCamera)
    (s : Scene) (w : World) :
  drawable s ->
  exists w',
    for_each_M (seqZ 0 (Z.of_nat (length (_objects s))))
      (render_object r (_view_matrix camera) (_projection_matrix camera)
         (_objects s)) w = Ok tt w'
    /\ calls w' = calls w ++ objects_calls r camera (_objects s)
    /\ draw_frame w w'
    /\ glfw_current w' = glfw_current w
    /\ gl_viewport (gl w') = gl_viewport (gl w)
    /\ gl_clear_color (gl w') = gl_clear_color (gl w).
Proof.
  intros (Hlen & Hfaces). unfold Int.MAX in Hlen.
  destruct (for_each_M_seqZ_inv
    (fun i w' =>
       calls w' = calls w
                  ++ objects_calls r camera (take (Z.to_nat i) (_objects s))
       /\ draw_frame w w'
       /\ glfw_current w' = glfw_current w
       /\ gl_viewport (gl w') = gl_viewport (gl w)
       /\ gl_clear_color (gl w') = gl_clear_color (gl w))
    (render_object r (_view_matrix camera) (_projection_matrix camera)
       (_objects s))
    (length (_objects s)) 0 w) as (w' & Hrun & Hinv).
  - simpl. rewrite app_nil_r. split; [done|].
    split; [apply draw_frame_refl|done].
  - intros i w1 Hi (Hcalls & Hframe & Hcur & Hview & Hclear).
    destruct (lookup_lt_is_Some_2 (_objects s) (Z.to_nat i)) as (o & Ho);
      [lia|].
    destruct (render_object_spec r camera (_objects s) i o w1)
      as (w2 & Hstep & Hcalls2 & Hframe2 & Hcur2 & Hview2 & Hclear2).
    + lia.
    + done.
    + rewrite Forall_forall in Hfaces. apply Hfaces.
      by eapply list_elem_of_lookup_2.
    + exists w2. split; [done|].
      split.
      { rewrite Hcalls2, Hcalls, <- app_assoc. f_equal.
        replace (Z.to_nat (i + 1)) with (S (Z.to_nat i)) by lia.
        rewrite (take_S_r _ _ o) by done.
        rewrite objects_calls_snoc, length_take.
        replace (Z.of_nat (Z.to_nat i `min` length (_objects s))) with i
          by lia.
        done. }
      split; [by eapply draw_frame_trans|].
      repeat split; congruence.
  - exists w'. split; [done|].
    destruct Hinv as (Hcalls & Hrest).
    split; [|done].
    rewrite Hcalls. f_equal. f_equal.
    apply take_ge. lia.
Qed.

Lemma render_objects_spec (r : Renderer) (camera : PerspectiveCamera)
    (s : Scene) (w : World) :
  bound_scene r w s ->
  drawable s ->
  exists w',
    render_objects r camera w = Ok tt w'
    /\ calls w' = calls w ++ render_objects_calls r camera (_objects s)
    /\ draw_frame w w'
    /\ glfw_current w' = Some (_window r)
    /\ gl_viewport (gl w') = (0, 0, _width r, _height r)
    /\ gl_clear_color (gl w') = opaque_black
    /\ (_objects s = [] -> w' = loop_entry r w).
Proof.
  intros (a & Hptr & Hscene) Hdraw.
  rewrite render_objects_unfold, Hptr.
  rewrite (bind_Ok _ _ _ _ _ (deref_Addr a s (loop_entry r w) Hscene)).
  destruct (render_loop_spec r camera s (loop_entry r w) Hdraw)
    as (w' & Hrun & Hcalls & Hframe & Hcur & Hview & Hclear).
  exists w'. split; [done|].
  split.
  { rewrite Hcalls, loop_entry_calls. unfold render_objects_calls.
    by rewrite <- app_assoc. }
  split.
  { eapply draw_frame_trans; [apply loop_entry_frame|done]. }
  split; [by rewrite Hcur|].
  split; [by rewrite Hview|].
  split; [by rewrite Hclear|].
  intros Hnil. rewrite Hnil in Hrun. simpl in Hrun.
  unfold ret in Hrun. by injection Hrun.
Qed.

(** *** Readback *)

Lemma store_at_length {T} (buf data buf' : list T) (off : Z) :
  store_at buf off data = Some buf' -> length buf' = length buf.
Proof.
  unfold store_at. destruct data as [|x data]; [by intros [= ->]|].
  case_decide as Hb; [|done]. intros [= <-].
  simpl in Hb.
  rewrite length_app, length_take. simpl.
  rewrite length_app, length_drop. lia.
Qed.

Lemma store_at_ok {T} (buf data : list T) (off : Z) :
  0 <= off ->
  off + Z.of_nat (length data) <= Z.of_nat (length buf) ->
  is_Some (store_at buf off data).
Proof.
  intros H0 Hfit. unfold store_at. destruct data; [done|].
  by rewrite decide_True.
Qed.

Lemma store_rows_ok {T} (row : Z -> list T) (k H : Z) (buf : list T) :
  0 <= k -> 0 <= H ->
  (forall j, Z.of_nat (length (row j)) = k) ->
  k * H <= Z.of_nat (length buf) ->
  exists buf',
    for_int H (fun j b => store_at b (j * k) (row j)) buf = Some buf'
    /\ length buf' = length buf.
Proof.
  intros Hk HH Hrow Hfit.
  apply (for_int_inv (fun (_ : Z) b => length b = length buf)); [done..|].
  intros j b Hj Hb.
  destruct (store_at_ok b (row j) (j * k)) as (b' & Hb'); [nia| |].
  { rewrite Hrow, Hb. nia. }
  exists b'. split; [done|].
  apply store_at_length in Hb'. congruence.
Qed.

Lemma length_depth_row (fb : Framebuffer) (x width y : Z) :
  0 <= width -> Z.of_nat (length (depth_row fb x width y)) = width.
Proof.
  intros Hw. unfold depth_row. rewrite length_fmap, length_seqZ. lia.
Qed.

Lemma length_bind_const {A B} (f : A -> list B) (n : nat) (l : list A) :
  (forall x, length (f x) = n) -> length (l ≫= f) = (n * length l)%nat.
Proof.
  intros Hf. induction l as [|x l IH]; [simpl; lia|].
  rewrite bind_cons, length_app, Hf, IH. simpl. lia.
Qed.

Lemma length_rgb_row (d : Driver) (fb : Framebuffer) (x width y : Z) :
  0 <= width -> Z.of_nat (length (rgb_row d fb x width y)) = 3 * width.
Proof.
  intros Hw. unfold rgb_row.
  rewrite (length_bind_const _ 3) by done.
  rewrite length_seqZ. lia.
Qed.

Lemma glReadPixels_depth_spec (r : Renderer) (w : World) :
  valid_dims (_width r) (_height r) ->
  Z.of_nat (length (_depth_buffer r)) = _width r * _height r ->
  gl_pack_alignment (gl w) <= 4 ->
  exists buf',
    glReadPixels_depth 0 0 (_width r) (_height r) (_depth_buffer r) w
    = Ok buf'
        (set_calls
           (fun l => l ++ [Call_glReadPixels 0 0 (_width r) (_height r)
                             GL_DEPTH_COMPONENT GL_FLOAT]) w)
    /\ length buf' = length (_depth_buffer r).
Proof.
  intros (HW & HH & Hmax) Hbuf Halign.
  unfold glReadPixels_depth. unfold_calls. simpl.
  unfold pack_row_length.
  replace (gl_pack_alignment (gl w) <=? 4) with true
    by (symmetry; apply Z.leb_le; done).
  destruct (store_rows_ok
              (fun j => depth_row (framebuffer w) 0 (_width r) (0 + j))
              (_width r) (_height r) (_depth_buffer r))
    as (buf' & Hrun & Hlen); [done|done| |lia|].
  { intros j. by apply length_depth_row. }
  rewrite Hrun. simpl. by exists buf'.
Qed.

Lemma glReadPixels_rgb_spec (r : Renderer) (w : World) :
  valid_dims (_width r) (_height r) ->
  Z.of_nat (length (_color_buffer r)) = _width r * _height r * 3 ->
  gl_pack_alignment (gl w) = 1 ->
  exists buf',
    glReadPixels_rgb 0 0 (_width r) (_height r) (_color_buffer r) w
    = Ok buf'
        (set_calls
           (fun l => l ++ [Call_glReadPixels 0 0 (_width r) (_height r)
                             GL_RGB GL_UNSIGNED_BYTE]) w)
    /\ length buf' = length (_color_buffer r).
Proof.
  intros (HW & HH & Hmax) Hbuf Halign.
  unfold glReadPixels_rgb. unfold_calls. simpl.
  rewrite Halign. unfold pack_row_length. simpl.
  destruct (store_rows_ok
              (fun j => rgb_row (driver w) (framebuffer w) 0 (_width r)
                          (0 + j))
              (3 * _width r) (_height r) (_color_buffer r))
    as (buf' & Hrun & Hlen); [lia|done| |lia|].
  { intros j. by apply length_rgb_row. }
  rewrite Hrun. simpl. by exists buf'.
Qed.

(** *** A frame that is read back *)

Lemma render_depth_map_open (r : Renderer) (camera : PerspectiveCamera)
    (out : ndarray GLfloat) (s : Scene) (w : World) :
  window_open r w ->
  bound_scene r w s ->
  drawable s ->
  valid_dims (_width r) (_height r) ->
  buffers_sized r ->
  gl_pack_alignment (gl w) <= 4 ->
  nd_shape out = [_height r; _width r] ->
  Z.of_nat (length (nd_data out)) = _height r * _width r ->
  exists buf out' w',
    render_depth_map r camera out w
    = Ok (set_depth_buffer buf r, out') w'
    /\ length buf = length (_depth_buffer r)
    /\ depth_flip_inv (set_depth_buffer buf r) (_height r) 0 out'
    /\ calls w' = calls w ++ render_depth_map_calls r camera (_objects s)
    /\ scenes w' = scenes w
    /\ glfw_close_flags w' = glfw_close_flags w
    /\ gl_pack_alignment (gl w') = gl_pack_alignment (gl w)
    /\ gl_clear_color (gl w') = opaque_black.
Proof.
  intros Hopen Hscene Hdraw Hdims (Hdepth & Hcolor) Halign Hshape Hlen.
  unfold render_depth_map, glfwWindowShouldClose.
  unfold_calls. simpl.
  rewrite bool_decide_eq_false_2 by done.
  match goal with
  | |- context [render_objects r camera ?W] =>
      destruct (render_objects_spec r camera s W)
        as (w2 & -> & Hcalls2 & Hframe2 & _ & _ & Hclear2 & _);
        [done..|]
  end.
  simpl in Hcalls2.
  destruct Hframe2 as (_ & _ & _ & _ & Hflags2 & _ & _ & Hscenes2 & _ & _
                       & _ & _ & Halign2 & _).
  simpl in Hflags2, Hscenes2, Halign2.
  destruct (glReadPixels_depth_spec r w2) as (buf & -> & Hbuf);
    [done|done|lia|].
  unfold mutable_unchecked. rewrite decide_True by (by rewrite Hshape).
  unfold ret.
  destruct (flip_depth_spec (set_depth_buffer buf r) out)
    as (out' & Hflip & Hinv); simpl; [done|lia|done|done|].
  rewrite Hflip. simpl.
  eexists buf, out', _. split; [done|].
  split; [done|]. split; [done|]. simpl.
  split.
  { rewrite Hcalls2. unfold render_depth_map_calls.
    rewrite <- !app_assoc. done. }
  by rewrite Hscenes2, Hflags2, Halign2, Hclear2.
Qed.

Lemma render_open (r : Renderer) (camera : PerspectiveCamera)
    (out : ndarray GLuint) (s : Scene) (w : World) :
  window_open r w ->
  bound_scene r w s ->
  drawable s ->
  valid_dims (_width r) (_height r) ->
  buffers_sized r ->
  nd_shape out = [_height r; _width r; 3] ->
  Z.of_nat (length (nd_data out)) = _height r * _width r * 3 ->
  exists buf out' w',
    render r camera out w = Ok (set_color_buffer buf r, out') w'
    /\ length buf = length (_color_buffer r)
    /\ rgb_flip_inv (set_color_buffer buf r) (_height r) 0 out'
    /\ calls w' = calls w ++ render_calls r camera (_objects s)
    /\ scenes w' = scenes w
    /\ glfw_close_flags w' = glfw_close_flags w
    /\ gl_pack_alignment (gl w') = 1
    /\ gl_clear_color (gl w') = opaque_black.
Proof.
  intros Hopen Hscene Hdraw Hdims (Hdepth & Hcolor) Hshape Hlen.
  unfold render, glfwWindowShouldClose.
  unfold_calls. simpl.
  rewrite bool_decide_eq_false_2 by done.
  match goal with
  | |- context [render_objects r camera ?W] =>
      destruct (render_objects_spec r camera s W)
        as (w2 & -> & Hcalls2 & Hframe2 & _ & _ & Hclear2 & _);
        [done..|]
  end.
  simpl in Hcalls2.
  destruct Hframe2 as (_ & _ & _ & _ & Hflags2 & _ & _ & Hscenes2 & _ & _
                       & _ & _ & Halign2 & _).
  simpl in Hflags2, Hscenes2, Halign2.
  destruct (glReadPixels_rgb_spec r w2) as (buf & -> & Hbuf);
    [done|done|done|].
  unfold mutable_unchecked. rewrite decide_True by (by rewrite Hshape).
  unfold ret.
  destruct (flip_rgb_spec (set_color_buffer buf r) out)
    as (out' & Hflip & Hinv); simpl; [done|lia|done|done|].
  rewrite Hflip. simpl.
  eexists buf, out', _. split; [done|].
  split; [done|]. split; [done|]. simpl.
  split.
  { rewrite Hcalls2. unfold render_calls.
    rewrite <- !app_assoc. done. }
  by rewrite Hscenes2, Hflags2, Halign2, Hclear2.
Qed.

(** C1.  A [render_depth_map] or [render] call that reaches readback
    returns normally, and fills the caller's array with the vertical flip
    of the readback buffer: the output element at row [h], column [w]
    (for colour, each of the three channels [c]) is the element of the
    readback buffer at row [height - 1 - h], column [w], with the same
    float value for depth and the same numeric value, widened from
    [GLubyte] to [GLuint], for colour. *)
Theorem readback_is_vertical_flip (r : Renderer)
    (camera : PerspectiveCamera) (s : Scene) (w : World)
    (depth_out : ndarray GLfloat) (rgb_out : ndarray GLuint) :
  window_open r w ->
  bound_scene r w s ->
  drawable s ->
  valid_dims (_width r) (_height r) ->
  buffers_sized r ->
  gl_pack_alignment (gl w) <= 4 ->
  nd_shape depth_out = [_height r; _width r] ->
  Z.of_nat (length (nd_data depth_out)) = _height r * _width r ->
  nd_shape rgb_out = [_height r; _width r; 3] ->
  Z.of_nat (length (nd_data rgb_out)) = _height r * _width r * 3 ->
  (exists r' out' w',
     render_depth_map r camera depth_out w = Ok (r', out') w'
     /\ forall h x, 0 <= h < _height r -> 0 <= x < _width r ->
          exists v,
            nd_get out' [h; x] = Some v
            /\ _depth_buffer r'
                 !! Z.to_nat ((_height r - 1 - h) * _width r + x) = Some v)
  /\
  (exists r' out' w',
     render r camera rgb_out w = Ok (r', out') w'
     /\ forall h x c, 0 <= h < _height r -> 0 <= x < _width r ->
          0 <= c < 3 ->
          exists b,
            nd_get out' [h; x; c] = Some (Z.of_N (Byte.to_N b))
            /\ _color_buffer r'
                 !! Z.to_nat ((_height r - 1 - h) * _width r * 3 + x * 3 + c)
               = Some b).
Proof.
  intros Hopen Hscene Hdraw Hdims Hsized Halign Hds Hdl Hcs Hcl.
  pose proof Hdims as (HW & HH & Hmax). unfold Int.MAX in Hmax.
  pose proof Hsized as (Hdepth & Hcolor).
  split.
  - destruct (render_depth_map_open r camera depth_out s w)
      as (buf & out' & w' & Hrun & Hbuf & (Hs & Hl & Hflip) & _);
      [done..|].
    exists (set_depth_buffer buf r), out', w'. split; [done|].
    intros h x Hh Hx. simpl in *.
    destruct (lookup_lt_is_Some_2 buf
                (Z.to_nat ((_height r - 1 - h) * _width r + x)))
      as (v & Hv); [nia|].
    exists v. split; [|done].
    unfold nd_get. rewrite Hs, nd_offset_2.
    rewrite decide_True by nia.
    rewrite Hflip; [done..|]. left. lia.
  - destruct (render_open r camera rgb_out s w)
      as (buf & out' & w' & Hrun & Hbuf & (Hs & Hl & Hflip) & _);
      [done..|].
    exists (set_color_buffer buf r), out', w'. split; [done|].
    intros h x c Hh Hx Hc. simpl in *.
    destruct (lookup_lt_is_Some_2 buf
                (Z.to_nat ((_height r - 1 - h) * _width r * 3 + x * 3 + c)))
      as (b & Hb); [nia|].
    exists b. split; [|done].
    unfold nd_get. rewrite Hs, nd_offset_3.
    rewrite decide_True by nia.
    rewrite Hflip; [|done..|left; lia].
    by rewrite Hb, <- GLuint_of_GLubyte_value.
Qed.

Lemma example_window_open : window_open example_renderer example_world.
Proof. unfold window_open. simpl. apply not_elem_of_nil. Qed.

Lemma example_bound_scene :
  bound_scene example_renderer example_world scene_B.
Proof. exists 2%positive. split; reflexivity. Qed.

Lemma example_drawable : drawable scene_B.
Proof.
  split; [vm_compute; discriminate|].
  repeat constructor; vm_compute; discriminate.
Qed.

Lemma example_valid_dims :
  valid_dims (_width example_renderer) (_height example_renderer).
Proof. repeat split; vm_compute; discriminate. Qed.

Lemma example_buffers_sized : buffers_sized example_renderer.
Proof. split; reflexivity. Qed.

Lemma readback_is_vertical_flip_witness :
  (exists r' out' w',
     render_depth_map example_renderer example_camera example_depth_out
       example_world = Ok (r', out') w'
     /\ forall h x, 0 <= h < 2 -> 0 <= x < 2 ->
          exists v,
            nd_get out' [h; x] = Some v
            /\ _depth_buffer r' !! Z.to_nat ((2 - 1 - h) * 2 + x) = Some v)
  /\
  (exists r' out' w',
     render example_renderer example_camera example_rgb_out example_world
     = Ok (r', out') w'
     /\ forall h x c, 0 <= h < 2 -> 0 <= x < 2 -> 0 <= c < 3 ->
          exists b,
            nd_get out' [h; x; c] = Some (Z.of_N (Byte.to_N b))
            /\ _color_buffer r' !! Z.to_nat ((2 - 1 - h) * 2 * 3 + x * 3 + c)
               = Some b).
Proof.
  apply (readback_is_vertical_flip example_renderer example_camera scene_B
           example_world example_depth_out example_rgb_out).
  - apply example_window_open.
  - apply example_bound_scene.
  - apply example_drawable.
  - apply example_valid_dims.
  - apply example_buffers_sized.
  - vm_compute. discriminate.
  - reflexivity.
  - reflexivity.
  - reflexivity.
  - reflexivity.
Defined.

(** *** What every operation preserves *)

Lemma extends_refl r w : extends r w w.
Proof. split; [done|]. exists []. by rewrite app_nil_r. Qed.

Lemma extends_trans r w1 w2 w3 :
  extends r w1 w2 -> extends r w2 w3 -> extends r w1 w3.
Proof.
  intros (Hs1 & d1 & Hc1 & Hf1) (Hs2 & d2 & Hc2 & Hf2).
  split; [congruence|]. exists (d1 ++ d2).
  split; [by rewrite Hc2, Hc1, app_assoc|]. by apply Forall_app.
Qed.

Lemma extends_stable r r' w w' :
  _main_program r' = _main_program r -> extends r' w w' -> extends r w w'.
Proof.
  intros Hp (Hs & d & Hc & Hf). split; [done|]. exists d. split; [done|].
  unfold renderer_call in *. by rewrite <- Hp.
Qed.

Lemma renderer_stable_refl r : renderer_stable r r.
Proof. by repeat split. Qed.

Lemma renderer_stable_trans r1 r2 r3 :
  renderer_stable r1 r2 -> renderer_stable r2 r3 -> renderer_stable r1 r3.
Proof.
  unfold renderer_stable. intros H12 H23.
  repeat match goal with H : _ /\ _ |- _ => destruct H end.
  repeat split; congruence.
Qed.

(** [extends] from a world whose log grew by an explicit list. *)
Lemma extends_calls r w w' (delta : list Call) :
  scenes w' = scenes w ->
  calls w' = calls w ++ delta ->
  Forall (renderer_call r) delta ->
  extends r w w'.
Proof. intros Hs Hc Hf. split; [done|]. by exists delta. Qed.

Lemma render_object_final (r : Renderer) (view_mat projection_mat : mat4)
    (objects : list Object) (i : Z) (w : World) :
  outcome_sat (render_object r view_mat projection_mat objects i w)
    (fun _ w' => extends r w w') (fun w' => extends r w w').
Proof.
  unfold render_object.
  destruct (array_get objects i) as [o|]; [|done].
  unfold lift_ub. unfold_calls. simpl.
  eapply extends_calls; simpl; [done|by rewrite <- !app_assoc|].
  solve_renderer_calls.
Qed.

Lemma for_each_M_final {A} (r : Renderer) (body : A -> M unit)
    (l : list A) :
  (forall x w, outcome_sat (body x w)
                 (fun _ w' => extends r w w') (fun w' => extends r w w')) ->
  forall w, outcome_sat (for_each_M l body w)
              (fun _ w' => extends r w w') (fun w' => extends r w w').
Proof.
  intros Hbody. induction l as [|x l IH]; intros w; simpl.
  - apply extends_refl.
  - unfold bind. specialize (Hbody x w).
    destruct (body x w) as [[] w1|e w1|]; simpl in *; [|done..].
    specialize (IH w1).
    destruct (for_each_M l body w1) as [[] w2|e w2|]; simpl in *;
      [by eapply extends_trans..|done].
Qed.

Lemma render_objects_final (r : Renderer) (camera : PerspectiveCamera)
    (w : World) :
  outcome_sat (render_objects r camera w)
    (fun _ w' => extends r w w') (fun w' => extends r w w').
Proof.
  rewrite render_objects_unfold.
  assert (extends r w (loop_entry r w)) as Hentry.
  { eapply extends_calls; [done|apply loop_entry_calls|].
    solve_renderer_calls. }
  unfold bind.
  destruct (_scene r) as [[|a]|]; simpl; [done| |done].
  unfold deref, bind, get_world, lift_ub.
  destruct (scenes (loop_entry r w) !! a) as [s|]; simpl; [|done].
  pose proof (for_each_M_final r
    (render_object r (_view_matrix camera) (_projection_matrix camera)
       (_objects s))
    (seqZ 0 (Z.of_nat (length (_objects s))))
    (fun x w0 => render_object_final r _ _ _ x w0) (loop_entry r w)) as Hloop.
  destruct (for_each_M _ _ (loop_entry r w)) as [[] w2|e w2|]; simpl in *;
    [by eapply extends_trans..|done].
Qed.

Lemma store_rows_length {T} (l : list Z) (off : Z -> Z) (row : Z -> list T) :
  forall buf buf',
    for_each l (fun j b => store_at b (off j) (row j)) buf = Some buf' ->
    length buf' = length buf.
Proof.
  induction l as [|j l IH]; intros buf buf'; simpl.
  - by intros [= ->].
  - destruct (store_at buf (off j) (row j)) as [b1|] eqn:Hstore; [|done].
    intros Hrun. apply IH in Hrun. apply store_at_length in Hstore.
    congruence.
Qed.

Lemma glReadPixels_depth_final (x y width height : Z) (buf : list GLfloat)
    (r : Renderer) (w : World) :
  outcome_sat (glReadPixels_depth x y width height buf w)
    (fun buf' w' => extends r w w' /\ length buf' = length buf)
    (fun w' => extends r w w').
Proof.
  unfold glReadPixels_depth. unfold_calls. simpl.
  match goal with
  | |- context [for_int ?n ?f ?b] => destruct (for_int n f b) as [buf'|] eqn:Hrun
  end; simpl; [|done].
  split; [solve_extends|].
  unfold for_int in Hrun.
  match type of Hrun with
  | for_each ?l (fun j b => store_at b (@?off j) (@?row j)) _ = _ =>
      exact (store_rows_length l off row _ _ Hrun)
  end.
Qed.

Lemma glReadPixels_rgb_final (x y width height : Z) (buf : list GLubyte)
    (r : Renderer) (w : World) :
  outcome_sat (glReadPixels_rgb x y width height buf w)
    (fun buf' w' => extends r w w' /\ length buf' = length buf)
    (fun w' => extends r w w').
Proof.
  unfold glReadPixels_rgb. unfold_calls. simpl.
  match goal with
  | |- context [for_int ?n ?f ?b] => destruct (for_int n f b) as [buf'|] eqn:Hrun
  end; simpl; [|done].
  split; [solve_extends|].
  unfold for_int in Hrun.
  match type of Hrun with
  | for_each ?l (fun j b => store_at b (@?off j) (@?row j)) _ = _ =>
      exact (store_rows_length l off row _ _ Hrun)
  end.
Qed.

Lemma teardown_extends (r : Renderer) (w : World) :
  exists w',
    (glfwDestroyWindow (_window r) ;; glfwTerminate) w = Ok tt w'
    /\ calls w' = calls w ++ [Call_glfwDestroyWindow (_window r);
                              Call_glfwTerminate]
    /\ scenes w' = scenes w
    /\ framebuffer w' = framebuffer w
    /\ gl w' = gl w
    /\ glfw_close_flags w' = glfw_close_flags w
    /\ glfw_windows w' = []
    /\ glfw_initialized w' = false
    /\ glfw_current w' = None.
Proof.
  unfold glfwDestroyWindow, glfwTerminate. unfold_calls. simpl.
  case_decide; simpl; eexists; (split; [done|]); simpl;
    rewrite <- ?app_assoc; by repeat split.
Qed.

(** *** The close-signal branch *)

Lemma render_depth_map_closing (r : Renderer) (camera : PerspectiveCamera)
    (out : ndarray GLfloat) (w : World) :
  close_requested r w ->
  exists w',
    render_depth_map r camera out w = Ok (r, out) w'
    /\ calls w' = calls w ++ teardown_calls r
    /\ scenes w' = scenes w
    /\ framebuffer w' = framebuffer w
    /\ gl w' = gl w
    /\ glfw_close_flags w' = glfw_close_flags w
    /\ glfw_windows w' = []
    /\ glfw_initialized w' = false
    /\ glfw_current w' = None.
Proof.
  intros Hclose. unfold render_depth_map, glfwWindowShouldClose.
  unfold bind at 1 2. unfold get_world, log, modify_world, ret.
  rewrite bool_decide_eq_true_2 by done. unfold bind at 1.
  match goal with
  | |- context [bind (glfwDestroyWindow _) _ ?W] =>
      destruct (teardown_extends r W)
        as (w' & Hrun & Hcalls & Hs & Hfb & Hgl & Hflags & Hwin & Hinit & Hcur)
  end.
  exists w'. split.
  - unfold bind in *. destruct (glfwDestroyWindow (_window r) _); [|done..].
    by rewrite Hrun.
  - simpl in *. rewrite Hcalls, <- app_assoc. by repeat split.
Qed.

Lemma render_closing (r : Renderer) (camera : PerspectiveCamera)
    (out : ndarray GLuint) (w : World) :
  close_requested r w ->
  exists w',
    render r camera out w = Ok (r, out) w'
    /\ calls w' = calls w ++ teardown_calls r
    /\ scenes w' = scenes w
    /\ framebuffer w' = framebuffer w
    /\ gl w' = gl w
    /\ glfw_close_flags w' = glfw_close_flags w
    /\ glfw_windows w' = []
    /\ glfw_initialized w' = false
    /\ glfw_current w' = None.
Proof.
  intros Hclose. unfold render, glfwWindowShouldClose.
  unfold bind at 1 2. unfold get_world, log, modify_world, ret.
  rewrite bool_decide_eq_true_2 by done. unfold bind at 1.
  match goal with
  | |- context [bind (glfwDestroyWindow _) _ ?W] =>
      destruct (teardown_extends r W)
        as (w' & Hrun & Hcalls & Hs & Hfb & Hgl & Hflags & Hwin & Hinit & Hcur)
  end.
  exists w'. split.
  - unfold bind in *. destruct (glfwDestroyWindow (_window r) _); [|done..].
    by rewrite Hrun.
  - simpl in *. rewrite Hcalls, <- app_assoc. by repeat split.
Qed.

(** C3.  When the window has received a close signal, [render] and
    [render_depth_map] return normally (no exception, no undefined
    behaviour) after exactly three calls: the query of the close flag,
    [glfwDestroyWindow] and [glfwTerminate].  None of them draws, the frame
    is as it was, the caller's array is returned as it was passed, and the
    window and the library are torn down. *)
Theorem close_signal_tears_down_without_rendering (r : Renderer)
    (camera : PerspectiveCamera) (depth_out : ndarray GLfloat)
    (rgb_out : ndarray GLuint) (w : World) :
  close_requested r w ->
  (exists w',
     render_depth_map r camera depth_out w = Ok (r, depth_out) w'
     /\ calls w' = calls w ++ teardown_calls r
     /\ framebuffer w' = framebuffer w
     /\ glfw_windows w' = [] /\ glfw_initialized w' = false)
  /\
  (exists w',
     render r camera rgb_out w = Ok (r, rgb_out) w'
     /\ calls w' = calls w ++ teardown_calls r
     /\ framebuffer w' = framebuffer w
     /\ glfw_windows w' = [] /\ glfw_initialized w' = false)
  /\ Forall (fun c => is_drawing c = false) (teardown_calls r).
Proof.
  intros Hclose. split; [|split].
  - destruct (render_depth_map_closing r camera depth_out w Hclose)
      as (w' & Hrun & Hcalls & _ & Hfb & _ & _ & Hwin & Hinit & _).
    by exists w'.
  - destruct (render_closing r camera rgb_out w Hclose)
      as (w' & Hrun & Hcalls & _ & Hfb & _ & _ & Hwin & Hinit & _).
    by exists w'.
  - unfold teardown_calls. by repeat constructor.
Qed.

Lemma example_close_requested :
  close_requested example_renderer example_closing_world.
Proof. unfold close_requested. simpl. apply list_elem_of_here. Qed.

Lemma close_signal_tears_down_without_rendering_witness :
  (exists w',
     render_depth_map example_renderer example_camera example_depth_out
       example_closing_world = Ok (example_renderer, example_depth_out) w'
     /\ calls w' = calls example_closing_world
                   ++ teardown_calls example_renderer
     /\ framebuffer w' = framebuffer example_closing_world
     /\ glfw_windows w' = [] /\ glfw_initialized w' = false)
  /\
  (exists w',
     render example_renderer example_camera example_rgb_out
       example_closing_world = Ok (example_renderer, example_rgb_out) w'
     /\ calls w' = calls example_closing_world
                   ++ teardown_calls example_renderer
     /\ framebuffer w' = framebuffer example_closing_world
     /\ glfw_windows w' = [] /\ glfw_initialized w' = false)
  /\ Forall (fun c => is_drawing c = false) (teardown_calls example_renderer).
Proof.
  apply (close_signal_tears_down_without_rendering example_renderer
           example_camera example_depth_out example_rgb_out
           example_closing_world).
  apply example_close_requested.
Defined.

(** C9.  The close-signal branch returns the renderer object as it
    received it: the window handle and every other field are unchanged and
    nothing records the teardown.  The window is no longer live and the
    library is terminated, and the destructor, run on that object, calls
    [glfwDestroyWindow] on the same handle and [glfwTerminate] a second
    time. *)
Theorem close_branch_keeps_fields_and_destructor_repeats (r : Renderer)
    (camera : PerspectiveCamera) (depth_out : ndarray GLfloat)
    (rgb_out : ndarray GLuint) (w : World) :
  close_requested r w ->
  (exists w1 w2,
     render_depth_map r camera depth_out w = Ok (r, depth_out) w1
     /\ (_window r ∉ glfw_windows w1)
     /\ glfw_initialized w1 = false
     /\ Renderer_delete r w1 = Ok tt w2
     /\ calls w2 = calls w ++ teardown_calls r ++ destructor_calls r)
  /\
  (exists w1 w2,
     render r camera rgb_out w = Ok (r, rgb_out) w1
     /\ (_window r ∉ glfw_windows w1)
     /\ glfw_initialized w1 = false
     /\ Renderer_delete r w1 = Ok tt w2
     /\ calls w2 = calls w ++ teardown_calls r ++ destructor_calls r).
Proof.
  intros Hclose. split.
  - destruct (render_depth_map_closing r camera depth_out w Hclose)
      as (w1 & Hrun & Hcalls & _ & _ & _ & _ & Hwin & Hinit & _).
    destruct (teardown_extends r w1) as (w2 & Hdel & Hcalls2 & _).
    exists w1, w2. split; [done|].
    split; [rewrite Hwin; apply not_elem_of_nil|].
    split; [done|]. split; [done|].
    by rewrite Hcalls2, Hcalls, <- app_assoc.
  - destruct (render_closing r camera rgb_out w Hclose)
      as (w1 & Hrun & Hcalls & _ & _ & _ & _ & Hwin & Hinit & _).
    destruct (teardown_extends r w1) as (w2 & Hdel & Hcalls2 & _).
    exists w1, w2. split; [done|].
    split; [rewrite Hwin; apply not_elem_of_nil|].
    split; [done|]. split; [done|].
    by rewrite Hcalls2, Hcalls, <- app_assoc.
Qed.

Lemma close_branch_keeps_fields_and_destructor_repeats_witness :
  (exists w1 w2,
     render_depth_map example_renderer example_camera example_depth_out
       example_closing_world = Ok (example_renderer, example_depth_out) w1
     /\ (_window example_renderer ∉ glfw_windows w1)
     /\ glfw_initialized w1 = false
     /\ Renderer_delete example_renderer w1 = Ok tt w2
     /\ calls w2 = calls example_closing_world
                   ++ teardown_calls example_renderer
                   ++ destructor_calls example_renderer)
  /\
  (exists w1 w2,
     render example_renderer example_camera example_rgb_out
       example_closing_world = Ok (example_renderer, example_rgb_out) w1
     /\ (_window example_renderer ∉ glfw_windows w1)
     /\ glfw_initialized w1 = false
     /\ Renderer_delete example_renderer w1 = Ok tt w2
     /\ calls w2 = calls example_closing_world
                   ++ teardown_calls example_renderer
                   ++ destructor_calls example_renderer).
Proof.
  apply (close_branch_keeps_fields_and_destructor_repeats example_renderer
           example_camera example_depth_out example_rgb_out
           example_closing_world).
  apply example_close_requested.
Defined.

(** C2.  With a scene bound, [render_objects] returns after, following its
    four opening calls, one group of six calls per object of the scene, in
    index order 0..N-1 and nothing else: bind geometry slot [i]; upload the
    object's model matrix, the camera's view matrix and the camera's
    projection matrix at locations 0, 1, 2 and the float 1.0 or 0.0 for a
    true or false smoothness flag at location 3, all on the main pipeline;
    [glDrawArrays(GL_TRIANGLES, 0, 3 * num_faces)].  The program that is
    active when it is called is still the active one when it returns. *)
Theorem render_objects_draws_each_object_in_order (r : Renderer)
    (camera : PerspectiveCamera) (s : Scene) (w : World) :
  bound_scene r w s ->
  drawable s ->
  exists w',
    render_objects r camera w = Ok tt w'
    /\ calls w' = calls w ++ render_objects_calls r camera (_objects s)
    /\ length (objects_calls r camera (_objects s))
       = (6 * length (_objects s))%nat
    /\ (forall i o, _objects s !! i = Some o ->
          take 6 (drop (6 * i) (objects_calls r camera (_objects s)))
          = object_calls r camera (Z.of_nat i) o)
    /\ gl_program (gl w') = gl_program (gl w).
Proof.
  intros Hscene Hdraw.
  destruct (render_objects_spec r camera s w Hscene Hdraw)
    as (w' & Hrun & Hcalls & Hframe & _).
  exists w'. split; [done|]. split; [done|].
  assert (forall l : list Object,
            length (objects_calls r camera l) = (6 * length l)%nat) as Hlen.
  { induction l as [|o l IH] using rev_ind; [done|].
    rewrite objects_calls_snoc, !length_app, IH. simpl. lia. }
  split; [apply Hlen|]. split.
  - intros i o Hi.
    rewrite <- (take_drop_middle _ _ _ Hi) at 1.
    replace (take i (_objects s) ++ o :: drop (S i) (_objects s))
      with ((take i (_objects s) ++ [o]) ++ drop (S i) (_objects s))
      by (by rewrite <- app_assoc).
    unfold objects_calls at 1. rewrite imap_app, concat_app.
    fold (objects_calls r camera (take i (_objects s) ++ [o])).
    rewrite objects_calls_snoc.
    assert (length (take i (_objects s)) = i) as Hti.
    { rewrite length_take. apply lookup_lt_Some in Hi. lia. }
    rewrite Hti, <- app_assoc.
    rewrite drop_app_length'; [|by rewrite Hlen, Hti].
    rewrite take_app_length'; [done|done].
  - by destruct Hframe as (_ & _ & _ & _ & _ & _ & _ & _ & _ & Hprog & _).
Qed.

Lemma render_objects_draws_each_object_in_order_witness :
  exists w',
    render_objects example_renderer example_camera example_world = Ok tt w'
    /\ calls w' = calls example_world
                  ++ render_objects_calls example_renderer example_camera
                       (_objects scene_B)
    /\ length (objects_calls example_renderer example_camera
                 (_objects scene_B))
       = (6 * length (_objects scene_B))%nat
    /\ (forall i o, _objects scene_B !! i = Some o ->
          take 6 (drop (6 * i)
                    (objects_calls example_renderer example_camera
                       (_objects scene_B)))
          = object_calls example_renderer example_camera (Z.of_nat i) o)
    /\ gl_program (gl w') = gl_program (gl example_world).
Proof.
  apply (render_objects_draws_each_object_in_order example_renderer
           example_camera scene_B example_world).
  - apply example_bound_scene.
  - apply example_drawable.
Defined.

(** *** Construction *)

Lemma make_unique_array_ok {T} (zero : T) (sizeof n : Z) (w : World) :
  0 <= n <= Int.MAX -> 1 <= sizeof <= 4 ->
  make_unique_array zero sizeof n w = Ok (replicate (Z.to_nat n) zero) w.
Proof.
  intros Hn Hs. unfold make_unique_array. unfold Int.MAX in Hn.
  rewrite to_size_t_small by lia.
  rewrite decide_True; [done|]. unfold PTRDIFF_MAX. nia.
Qed.

Lemma valid_dims_products (width height : Z) :
  valid_dims width height ->
  Int.mul width height = width * height
  /\ Int.mul (Int.mul width height) 3 = width * height * 3
  /\ 0 <= width * height <= Int.MAX
  /\ 0 <= width * height * 3 <= Int.MAX.
Proof.
  intros (HW & HH & Hmax). unfold Int.MAX in *.
  assert (0 <= width * height) by nia.
  unfold Int.mul.
  rewrite (wrap_in_range (width * height))
    by (unfold Int.in_range, Int.MIN, Int.MAX; lia).
  rewrite wrap_in_range by (unfold Int.in_range, Int.MIN, Int.MAX; lia).
  lia.
Qed.

Lemma initialize_fails (width height : Z) (w : World) :
  glfwInit_fails w ->
  exists w',
    initialize width height w
    = Throw (runtime_error "Failed to initialize GLFW.") w'
    /\ calls w' = calls w ++ [Call_glfwSetErrorCallback; Call_glfwInit false]
    /\ glfw_windows w' = glfw_windows w
    /\ glfw_initialized w' = false
    /\ glfw_current w' = glfw_current w
    /\ gl w' = gl w.
Proof.
  unfold glfwInit_fails. intros Hfail.
  unfold initialize. unfold_calls. simpl. rewrite Hfail. simpl.
  unfold throw. eexists. split; [done|]. simpl.
  rewrite <- app_assoc. by repeat split.
Qed.

Lemma initialize_succeeds (width height : Z) (w : World) :
  ~ glfwInit_fails w ->
  valid_dims width height ->
  exists r w',
    initialize width height w = Ok r w'
    /\ _width r = width /\ _height r = height
    /\ _depth_buffer r = replicate (Z.to_nat (width * height)) f32_zero
    /\ _color_buffer r = replicate (Z.to_nat (width * height * 3)) x00%byte
    /\ _depth_program r = Depth /\ _main_program r = Main
    /\ _scene r = None /\ vao_slots (_vao r) = []
    /\ _window r ∈ glfw_windows w'
    /\ gl_clear_color (gl w') = gl_clear_color gl_initial
    /\ gl_pack_alignment (gl w') = 4
    /\ scenes w' = scenes w.
Proof.
  unfold glfwInit_fails. intros Hinit Hdims.
  destruct (valid_dims_products width height Hdims)
    as (Hwh & Hwh3 & Hr & Hr3).
  apply not_false_is_true in Hinit.
  unfold initialize. unfold_calls. simpl. rewrite Hinit. simpl.
  rewrite Hwh3, Hwh.
  rewrite make_unique_array_ok by (done || lia).
  rewrite make_unique_array_ok by (done || lia).
  simpl.
  destruct (platform_apple w); simpl;
    (eexists _, _; split; [done|]; simpl; repeat split;
     apply list_elem_of_here).
Qed.

Lemma initialize_negative_size (width height : Z) (w : World) :
  ~ glfwInit_fails w ->
  - 2 ^ 31 <= width * height < 0 ->
  exists w', initialize width height w = Throw bad_array_new_length w'.
Proof.
  unfold glfwInit_fails. intros Hinit Hneg.
  apply not_false_is_true in Hinit.
  unfold initialize. unfold_calls. simpl. rewrite Hinit. simpl.
  unfold make_unique_array, Int.mul.
  rewrite wrap_in_range by (unfold Int.in_range, Int.MIN, Int.MAX; lia).
  unfold Int.to_size_t.
  rewrite decide_False; [unfold throw; by eexists|].
  unfold PTRDIFF_MAX.
  assert ((width * height) mod 2 ^ 64 = width * height + 2 ^ 64) as ->.
  { symmetry. apply Z.mod_unique with (-1); lia. }
  lia.
Qed.

(** *** [set_scene] *)

Lemma set_scene_final (r : Renderer) (p : ScenePtr) (w : World) :
  outcome_sat (set_scene r p w)
    (fun r' w' =>
       extends r w w'
       /\ glfw_close_flags w' = glfw_close_flags w
       /\ exists s,
            deref p w = Ok s w
            /\ r' = set_scene_fields p {| vao_slots := _objects s |} r)
    (fun _ => False).
Proof.
  unfold set_scene, vao_build. unfold_calls. simpl.
  unfold deref. unfold_calls. simpl.
  destruct p as [|a]; simpl; [done|].
  destruct (scenes w !! a) as [s|]; simpl; [|done].
  split; [solve_extends|]. split; [done|]. by exists s.
Qed.

Lemma set_scene_spec (r : Renderer) (a : positive) (s : Scene) (w : World) :
  scenes w !! a = Some s ->
  exists w',
    set_scene r (Addr a) w
    = Ok (set_scene_fields (Addr a) {| vao_slots := _objects s |} r) w'
    /\ calls w' = calls w ++ set_scene_calls r (Addr a)
    /\ scenes w' = scenes w
    /\ glfw_close_flags w' = glfw_close_flags w
    /\ gl w' = gl w
    /\ framebuffer w' = framebuffer w.
Proof.
  intros Hs.
  unfold set_scene, vao_build. unfold_calls. simpl.
  unfold deref. unfold_calls. simpl. rewrite Hs. simpl.
  eexists. split; [done|]. simpl. rewrite <- app_assoc. by repeat split.
Qed.

(** C5, as the code has it.  For dimensions that are not negative and
    whose buffer size [width * height * 3] fits an [int], construction
    (with or without a scene) throws if and only if [glfwInit] fails.  The
    exception is then [std::runtime_error], thrown after the registration
    of the error callback and the failed [glfwInit] and before anything
    else: no window exists, the library is not initialised, and no
    renderer is returned.  When [glfwInit] succeeds, construction without
    a scene returns a renderer. *)
Theorem construction_throws_iff_glfw_fails (width height : Z) (w : World) :
  valid_dims width height ->
  ((exists e w', Renderer_new width height w = Throw e w')
   <-> glfwInit_fails w)
  /\ (forall scene,
        (exists e w', Renderer_new_scene scene width height w = Throw e w')
        <-> glfwInit_fails w)
  /\ (glfwInit_fails w ->
      exists w',
        Renderer_new width height w
        = Throw (runtime_error "Failed to initialize GLFW.") w'
        /\ calls w' = calls w
                      ++ [Call_glfwSetErrorCallback; Call_glfwInit false]
        /\ glfw_windows w' = glfw_windows w
        /\ glfw_initialized w' = false)
  /\ (~ glfwInit_fails w ->
      exists r w', Renderer_new width height w = Ok r w').
Proof.
  intros Hdims. unfold Renderer_new, Renderer_new_scene.
  assert (glfwInit_fails w \/ ~ glfwInit_fails w) as Hcases.
  { unfold glfwInit_fails.
    destruct (glfw_initialized w || glfw_platform_ok w); auto. }
  split; [|split; [|split]].
  - split.
    + intros (e & w' & Hthrow). destruct Hcases as [?|Hok]; [done|].
      destruct (initialize_succeeds width height w Hok Hdims)
        as (r & w1 & Hrun & _). congruence.
    + intros Hfail.
      destruct (initialize_fails width height w Hfail) as (w' & Hrun & _).
      by eexists _, _.
  - intros scene. split.
    + intros (e & w' & Hthrow). destruct Hcases as [?|Hok]; [done|].
      destruct (initialize_succeeds width height w Hok Hdims)
        as (r & w1 & Hrun & _).
      unfold bind in Hthrow. rewrite Hrun in Hthrow.
      pose proof (set_scene_final r scene w1) as Hset.
      rewrite Hthrow in Hset. done.
    + intros Hfail.
      destruct (initialize_fails width height w Hfail) as (w' & Hrun & _).
      unfold bind. rewrite Hrun. by eexists _, _.
  - intros Hfail.
    destruct (initialize_fails width height w Hfail)
      as (w' & Hrun & Hcalls & Hwin & Hinit & _).
    by exists w'.
  - intros Hok.
    destruct (initialize_succeeds width height w Hok Hdims)
      as (r & w1 & Hrun & _).
    by exists r, w1.
Qed.

Lemma construction_throws_iff_glfw_fails_witness :
  ((exists e w', Renderer_new 2 2 world0 = Throw e w')
   <-> glfwInit_fails world0)
  /\ (forall scene,
        (exists e w', Renderer_new_scene scene 2 2 world0 = Throw e w')
        <-> glfwInit_fails world0)
  /\ (glfwInit_fails world0 ->
      exists w',
        Renderer_new 2 2 world0
        = Throw (runtime_error "Failed to initialize GLFW.") w'
        /\ calls w' = calls world0
                      ++ [Call_glfwSetErrorCallback; Call_glfwInit false]
        /\ glfw_windows w' = glfw_windows world0
        /\ glfw_initialized w' = false)
  /\ (~ glfwInit_fails world0 ->
      exists r w', Renderer_new 2 2 world0 = Ok r w').
Proof.
  apply (construction_throws_iff_glfw_fails 2 2 world0).
  repeat split; vm_compute; discriminate.
Defined.

(** C5, as the claim states it, fails: with [glfwInit] succeeding,
    [Renderer(-1, 1)] throws [std::bad_array_new_length] from the
    allocation of the depth buffer. *)
Lemma construction_throws_although_glfw_initializes :
  (exists w', Renderer_new (-1) 1 world0 = Throw bad_array_new_length w')
  /\ ~ glfwInit_fails world0
  /\ ~ ((exists e w', Renderer_new (-1) 1 world0 = Throw e w')
        <-> glfwInit_fails world0).
Proof.
  assert (~ glfwInit_fails world0) as Hok by (vm_compute; discriminate).
  assert (exists w', Renderer_new (-1) 1 world0
                     = Throw bad_array_new_length w') as Hthrow.
  { apply initialize_negative_size; [done|]. lia. }
  split; [done|]. split; [done|].
  intros [Hiff _]. apply Hok, Hiff.
  destruct Hthrow as (w' & Hthrow). by eexists _, _.
Qed.

(** *** Operations, whatever their outcome *)

Lemma entered_calls (r : Renderer) (w : World) :
  window_open r w ->
  calls (entered r w)
  = calls w ++ [Call_glfwWindowShouldClose (_window r) false;
                Call_program_use (_main_program r)].
Proof.
  intros Hopen. unfold entered, glfwWindowShouldClose. unfold_calls. simpl.
  rewrite bool_decide_eq_false_2 by done. by rewrite <- app_assoc.
Qed.

Lemma entered_extends (r : Renderer) (w : World) :
  window_open r w -> extends r w (entered r w).
Proof.
  intros Hopen. eapply extends_calls; [done|by apply entered_calls|].
  solve_renderer_calls.
Qed.

Lemma render_depth_map_final_open (r : Renderer)
    (camera : PerspectiveCamera) (out : ndarray GLfloat) (w : World) :
  window_open r w ->
  outcome_sat (render_depth_map r camera out w)
    (fun ro w' =>
       extends r (entered r w) w'
       /\ renderer_stable r (fst ro)
       /\ _scene (fst ro) = _scene r /\ _vao (fst ro) = _vao r)
    (fun w' => extends r (entered r w) w').
Proof.
  intros Hopen.
  unfold render_depth_map, entered, glfwWindowShouldClose.
  unfold_calls. simpl.
  rewrite bool_decide_eq_false_2 by done.
  match goal with
  | |- context [extends r ?W0 _] => set (w0 := W0)
  end.
  match goal with
  | |- context [render_objects r camera ?W] =>
      pose proof (render_objects_final r camera W) as Hro;
      assert (extends r w0 W) as H1 by (subst w0; solve_extends);
      destruct (render_objects r camera W) as [[] w2|e w2|]
  end; simpl in *; [|by eapply extends_trans|done].
  assert (extends r w0 w2) as H2 by (by eapply extends_trans).
  pose proof (glReadPixels_depth_final 0 0 (_width r) (_height r)
                (_depth_buffer r) r w2) as Hread.
  destruct (glReadPixels_depth _ _ _ _ _ w2) as [buf w3|e w3|];
    simpl in *; [|by eapply extends_trans|done].
  destruct Hread as (H3 & Hlen).
  assert (extends r w0 w3) as H4 by (by eapply extends_trans).
  unfold mutable_unchecked. case_decide; simpl; [|done].
  destruct (flip_depth (set_depth_buffer buf r) out) as [out'|]; simpl;
    [|done].
  split.
  { eapply extends_trans; [exact H4|]. solve_extends. }
  by repeat split.
Qed.

Lemma render_final_open (r : Renderer) (camera : PerspectiveCamera)
    (out : ndarray GLuint) (w : World) :
  window_open r w ->
  outcome_sat (render r camera out w)
    (fun ro w' =>
       extends r (entered r w) w'
       /\ renderer_stable r (fst ro)
       /\ _scene (fst ro) = _scene r /\ _vao (fst ro) = _vao r)
    (fun w' => extends r (entered r w) w').
Proof.
  intros Hopen.
  unfold render, entered, glfwWindowShouldClose.
  unfold_calls. simpl.
  rewrite bool_decide_eq_false_2 by done.
  match goal with
  | |- context [extends r ?W0 _] => set (w0 := W0)
  end.
  match goal with
  | |- context [render_objects r camera ?W] =>
      pose proof (render_objects_final r camera W) as Hro;
      assert (extends r w0 W) as H1 by (subst w0; solve_extends);
      destruct (render_objects r camera W) as [[] w2|e w2|]
  end; simpl in *; [|by eapply extends_trans|done].
  assert (extends r w0 w2) as H2 by (by eapply extends_trans).
  pose proof (glReadPixels_rgb_final 0 0 (_width r) (_height r)
                (_color_buffer r) r w2) as Hread.
  destruct (glReadPixels_rgb _ _ _ _ _ w2) as [buf w3|e w3|];
    simpl in *; [|by eapply extends_trans|done].
  destruct Hread as (H3 & Hlen).
  assert (extends r w0 w3) as H4 by (by eapply extends_trans).
  unfold mutable_unchecked. case_decide; simpl; [|done].
  destruct (flip_rgb (set_color_buffer buf r) out) as [out'|]; simpl;
    [|done].
  split.
  { eapply extends_trans; [exact H4|]. solve_extends. }
  by repeat split.
Qed.

Lemma outcome_sat_impl {A} (o : Outcome A) (Q Q' : A -> World -> Prop)
    (E E' : World -> Prop) :
  (forall a w, Q a w -> Q' a w) -> (forall w, E w -> E' w) ->
  outcome_sat o Q E -> outcome_sat o Q' E'.
Proof. intros HQ HE. destruct o; simpl; auto. Qed.

Lemma render_depth_map_final (r : Renderer) (camera : PerspectiveCamera)
    (out : ndarray GLfloat) (w : World) :
  outcome_sat (render_depth_map r camera out w)
    (fun ro w' =>
       extends r w w'
       /\ renderer_stable r (fst ro)
       /\ _scene (fst ro) = _scene r /\ _vao (fst ro) = _vao r)
    (fun w' => extends r w w').
Proof.
  destruct (decide (_window r ∈ glfw_close_flags w)) as [Hclose|Hopen].
  - destruct (render_depth_map_closing r camera out w Hclose)
      as (w' & -> & Hcalls & Hs & _). simpl.
    split; [|by split; [apply renderer_stable_refl|]].
    eapply extends_calls; [done..|]. unfold teardown_calls.
    solve_renderer_calls.
  - eapply outcome_sat_impl;
      [| |apply (render_depth_map_final_open r camera out w Hopen)].
    + intros ro w' (Hext & Hrest). split; [|done].
      eapply extends_trans; [by apply entered_extends|done].
    + intros w' Hext.
      eapply extends_trans; [by apply entered_extends|done].
Qed.

Lemma render_final (r : Renderer) (camera : PerspectiveCamera)
    (out : ndarray GLuint) (w : World) :
  outcome_sat (render r camera out w)
    (fun ro w' =>
       extends r w w'
       /\ renderer_stable r (fst ro)
       /\ _scene (fst ro) = _scene r /\ _vao (fst ro) = _vao r)
    (fun w' => extends r w w').
Proof.
  destruct (decide (_window r ∈ glfw_close_flags w)) as [Hclose|Hopen].
  - destruct (render_closing r camera out w Hclose)
      as (w' & -> & Hcalls & Hs & _). simpl.
    split; [|by split; [apply renderer_stable_refl|]].
    eapply extends_calls; [done..|]. unfold teardown_calls.
    solve_renderer_calls.
  - eapply outcome_sat_impl;
      [| |apply (render_final_open r camera out w Hopen)].
    + intros ro w' (Hext & Hrest). split; [|done].
      eapply extends_trans; [by apply entered_extends|done].
    + intros w' Hext.
      eapply extends_trans; [by apply entered_extends|done].
Qed.

Lemma deref_frame (p : ScenePtr) (s : Scene) (w w' : World) :
  scenes w' = scenes w -> deref p w = Ok s w -> deref p w' = Ok s w'.
Proof.
  intros Hs. unfold deref, bind, get_world, lift_ub. rewrite Hs.
  destruct p as [|a]; [done|].
  destruct (scenes w !! a); [|done]. unfold ret. by intros [= ->].
Qed.

Lemma geometry_synced_frame (r r' : Renderer) (w w' : World) :
  scenes w' = scenes w -> _scene r' = _scene r -> _vao r' = _vao r ->
  geometry_synced r w -> geometry_synced r' w'.
Proof.
  unfold geometry_synced. intros Hs -> ->.
  destruct (_scene r) as [p|]; [|done].
  intros (s & Hderef & Hslots). exists s. split; [|done].
  by eapply deref_frame.
Qed.

Lemma set_scene_synced (r r' : Renderer) (p : ScenePtr) (w w' : World) :
  set_scene r p w = Ok r' w' ->
  geometry_synced r' w' /\ _scene r' = Some p.
Proof.
  intros Hrun. pose proof (set_scene_final r p w) as Hfin.
  rewrite Hrun in Hfin. simpl in Hfin.
  destruct Hfin as ((Hs & _) & _ & s & Hderef & ->).
  split; [|done]. unfold geometry_synced. simpl.
  exists s. split; [|done]. by eapply deref_frame.
Qed.

Lemma set_scene_fields_stable (r : Renderer) (p : ScenePtr)
    (vao : VertexArrayObject) :
  renderer_stable r (set_scene_fields p vao r).
Proof. by repeat split. Qed.

Lemma run_op_final (r : Renderer) (op : Op) (w : World) :
  outcome_sat (run_op r op w)
    (fun r' w' =>
       extends r w w' /\ renderer_stable r r'
       /\ (geometry_synced r w -> geometry_synced r' w'))
    (fun w' => extends r w w').
Proof.
  destruct op as [p|camera|camera out|camera out|p camera out|p camera out];
    simpl.
  - pose proof (set_scene_final r p w) as Hfin.
    destruct (set_scene r p w) as [r' w'|e w'|] eqn:Hrun; simpl in *;
      [|done..].
    destruct Hfin as (Hext & _ & s & _ & ->).
    split; [done|]. split; [apply set_scene_fields_stable|].
    intros _. by eapply set_scene_synced.
  - unfold bind. pose proof (render_objects_final r camera w) as Hfin.
    destruct (render_objects r camera w) as [[] w'|e w'|]; simpl in *;
      [|done..].
    split; [done|]. split; [apply renderer_stable_refl|].
    destruct Hfin as (Hs & _). by apply geometry_synced_frame.
  - unfold bind. pose proof (render_depth_map_final r camera out w) as Hfin.
    destruct (render_depth_map r camera out w) as [[r' out'] w'|e w'|];
      simpl in *; [|done..].
    destruct Hfin as (Hext & Hstable & Hscene & Hvao).
    split; [done|]. split; [done|].
    destruct Hext as (Hs & _). by apply geometry_synced_frame.
  - unfold bind. pose proof (render_final r camera out w) as Hfin.
    destruct (render r camera out w) as [[r' out'] w'|e w'|];
      simpl in *; [|done..].
    destruct Hfin as (Hext & Hstable & Hscene & Hvao).
    split; [done|]. split; [done|].
    destruct Hext as (Hs & _). by apply geometry_synced_frame.
  - unfold render_depth_map_scene, bind.
    pose proof (set_scene_final r p w) as Hfin.
    destruct (set_scene r p w) as [r1 w1|e w1|] eqn:Hrun; simpl in *;
      [|done..].
    destruct Hfin as (Hext1 & _ & s & _ & Hr1).
    assert (renderer_stable r r1) as Hst1
      by (rewrite Hr1; apply set_scene_fields_stable).
    pose proof (render_depth_map_final r1 camera out w1) as Hfin2.
    assert (_main_program r1 = _main_program r) as Hmain by (by rewrite Hr1).
    destruct (render_depth_map r1 camera out w1) as [[r' out'] w'|e w'|];
      simpl in *; [| |done].
    + destruct Hfin2 as (Hext2 & Hstable & Hscene & Hvao).
      split; [eapply extends_trans; [done|by eapply extends_stable]|].
      split; [by eapply renderer_stable_trans|].
      intros _. destruct Hext2 as (Hs & _).
      eapply geometry_synced_frame; [done..|].
      by eapply set_scene_synced.
    + eapply extends_trans; [done|by eapply extends_stable].
  - unfold render_scene, bind.
    pose proof (set_scene_final r p w) as Hfin.
    destruct (set_scene r p w) as [r1 w1|e w1|] eqn:Hrun; simpl in *;
      [|done..].
    destruct Hfin as (Hext1 & _ & s & _ & Hr1).
    assert (renderer_stable r r1) as Hst1
      by (rewrite Hr1; apply set_scene_fields_stable).
    pose proof (render_final r1 camera out w1) as Hfin2.
    assert (_main_program r1 = _main_program r) as Hmain by (by rewrite Hr1).
    destruct (render r1 camera out w1) as [[r' out'] w'|e w'|];
      simpl in *; [| |done].
    + destruct Hfin2 as (Hext2 & Hstable & Hscene & Hvao).
      split; [eapply extends_trans; [done|by eapply extends_stable]|].
      split; [by eapply renderer_stable_trans|].
      intros _. destruct Hext2 as (Hs & _).
      eapply geometry_synced_frame; [done..|].
      by eapply set_scene_synced.
    + eapply extends_trans; [done|by eapply extends_stable].
Qed.

Lemma run_ops_final (ops : list Op) :
  forall (r : Renderer) (w : World),
    outcome_sat (run_ops r ops w)
      (fun r' w' =>
         extends r w w' /\ renderer_stable r r'
         /\ (geometry_synced r w -> geometry_synced r' w'))
      (fun w' => extends r w w').
Proof.
  induction ops as [|op ops IH]; intros r w; simpl.
  - split; [apply extends_refl|]. split; [apply renderer_stable_refl|done].
  - unfold bind. pose proof (run_op_final r op w) as Hop.
    destruct (run_op r op w) as [r1 w1|e w1|]; simpl in *; [|done..].
    destruct Hop as (Hext1 & Hst1 & Hsync1).
    assert (_main_program r1 = _main_program r) as Hmain
      by (by destruct Hst1 as (_ & _ & _ & _ & ? & _)).
    specialize (IH r1 w1).
    destruct (run_ops r1 ops w1) as [r2 w2|e w2|]; simpl in *; [| |done].
    + destruct IH as (Hext2 & Hst2 & Hsync2).
      split; [eapply extends_trans; [done|by eapply extends_stable]|].
      split; [by eapply renderer_stable_trans|]. auto.
    + eapply extends_trans; [done|by eapply extends_stable].
Qed.

Lemma initialize_Ok_inv (width height : Z) (w w' : World) (r : Renderer) :
  initialize width height w = Ok r w' ->
  _width r = width /\ _height r = height
  /\ _depth_program r = Depth /\ _main_program r = Main
  /\ _scene r = None /\ vao_slots (_vao r) = []
  /\ gl_clear_color (gl w') = transparent_black
  /\ gl_pack_alignment (gl w') = 4
  /\ ~ glfwInit_fails w.
Proof.
  unfold initialize, glfwInit_fails. unfold_calls. simpl.
  destruct (glfw_initialized w || glfw_platform_ok w); simpl; [|done].
  unfold make_unique_array.
  case_decide; simpl; [|done]. case_decide; simpl; [|done].
  destruct (platform_apple w); simpl; intros [= <- <-]; by repeat split.
Qed.

Lemma renderer_call_not_depth (r : Renderer) (c : Call) :
  _main_program r = Main -> renderer_call r c ->
  uses_pipeline Depth c = false.
Proof.
  intros Hmain [Hnone|Hsome]; destruct c; simpl in *; try done;
    rewrite Hmain in *; by simplify_eq.
Qed.

Lemma extends_not_depth (r : Renderer) (w w' : World) :
  _main_program r = Main -> extends r w w' -> calls_without_depth w w'.
Proof.
  intros Hmain (_ & delta & Hcalls & Hall). exists delta. split; [done|].
  eapply Forall_impl; [done|]. intros c. by apply renderer_call_not_depth.
Qed.

Lemma entered_activates_main (r : Renderer) (w w' : World) :
  _main_program r = Main -> window_open r w ->
  extends r (entered r w) w' -> activates_main r w w'.
Proof.
  intros Hmain Hopen Hext.
  destruct (extends_not_depth r _ _ Hmain Hext) as (rest & Hcalls & Hall).
  exists rest. split; [|done].
  by rewrite Hcalls, entered_calls, Hmain, <- app_assoc.
Qed.

(** C7.  A renderer constructed with [(width, height)] holds a depth
    buffer of exactly [width * height] floats and a colour buffer of
    exactly [width * height * 3] bytes, and after any sequence of
    [set_scene], [render_objects], [render] and [render_depth_map] calls
    that returns (with or without a scene argument) both buffers have the
    length they were allocated with, and the renderer the dimensions it was
    constructed with. *)
Theorem buffers_sized_at_construction_and_never_resized
    (width height : Z) (w0 w1 : World) (r : Renderer) :
  valid_dims width height ->
  initialize width height w0 = Ok r w1 ->
  Z.of_nat (length (_depth_buffer r)) = width * height
  /\ Z.of_nat (length (_color_buffer r)) = width * height * 3
  /\ forall ops w r' w',
       run_ops r ops w = Ok r' w' ->
       length (_depth_buffer r') = length (_depth_buffer r)
       /\ length (_color_buffer r') = length (_color_buffer r)
       /\ _width r' = width /\ _height r' = height.
Proof.
  intros Hdims Hinit.
  destruct (initialize_Ok_inv _ _ _ _ _ Hinit)
    as (Hw & Hh & _ & _ & _ & _ & _ & _ & Hok).
  destruct (initialize_succeeds width height w0 Hok Hdims)
    as (r0 & w2 & Hrun & _ & _ & Hdepth & Hcolor & _).
  rewrite Hinit in Hrun. injection Hrun as <- <-.
  destruct (valid_dims_products width height Hdims) as (_ & _ & Hr & Hr3).
  split; [rewrite Hdepth, length_replicate; lia|].
  split; [rewrite Hcolor, length_replicate; lia|].
  intros ops w r' w' Hops.
  pose proof (run_ops_final ops r w) as Hfin. rewrite Hops in Hfin.
  destruct Hfin as (_ & (Hw' & Hh' & _ & _ & _ & _ & Hd & Hc) & _).
  repeat split; congruence.
Qed.

Lemma example_constructed_ok :
  initialize 2 2 world0
  = Ok (fst example_constructed) (snd example_constructed).
Proof. vm_compute. reflexivity. Qed.

Lemma buffers_sized_at_construction_and_never_resized_witness :
  Z.of_nat (length (_depth_buffer (fst example_constructed))) = 2 * 2
  /\ Z.of_nat (length (_color_buffer (fst example_constructed))) = 2 * 2 * 3
  /\ forall ops w r' w',
       run_ops (fst example_constructed) ops w = Ok r' w' ->
       length (_depth_buffer r')
       = length (_depth_buffer (fst example_constructed))
       /\ length (_color_buffer r')
          = length (_color_buffer (fst example_constructed))
       /\ _width r' = 2 /\ _height r' = 2.
Proof.
  apply (buffers_sized_at_construction_and_never_resized 2 2 world0
           (snd example_constructed) (fst example_constructed)).
  - repeat split; vm_compute; discriminate.
  - apply example_constructed_ok.
Defined.

(** C10.  A constructed renderer holds the Depth pipeline in
    [_depth_program] and the Main pipeline in [_main_program], and keeps
    them through every sequence of operations.  No call made by any
    operation (or by the destructor) activates the Depth pipeline or
    uploads a uniform to it.  A [render_depth_map] or [render] call that
    finds the window open activates the Main pipeline, right after the
    query of the close flag, whatever happens afterwards. *)
Theorem depth_pipeline_is_never_used (width height : Z) (w0 w1 : World)
    (r : Renderer) :
  initialize width height w0 = Ok r w1 ->
  forall ops wa,
    outcome_sat (run_ops r ops wa)
      (fun r' wb =>
         _depth_program r' = Depth /\ _main_program r' = Main
         /\ calls_without_depth wa wb
         /\ (forall camera depth_out w,
               window_open r' w ->
               outcome_sat (render_depth_map r' camera depth_out w)
                 (fun _ w' => activates_main r' w w')
                 (fun w' => activates_main r' w w'))
         /\ (forall camera rgb_out w,
               window_open r' w ->
               outcome_sat (render r' camera rgb_out w)
                 (fun _ w' => activates_main r' w w')
                 (fun w' => activates_main r' w w'))
         /\ (forall w,
               exists w',
                 Renderer_delete r' w = Ok tt w'
                 /\ calls w' = calls w ++ destructor_calls r'
                 /\ no_depth_use (destructor_calls r')))
      (fun wb => calls_without_depth wa wb).
Proof.
  intros Hinit ops wa.
  destruct (initialize_Ok_inv _ _ _ _ _ Hinit)
    as (_ & _ & Hdepth & Hmain & _).
  eapply outcome_sat_impl; [| |apply (run_ops_final ops r wa)].
  - intros r' wb (Hext & Hstable & _).
    destruct Hstable as (_ & _ & _ & Hd' & Hm' & _).
    rewrite Hdepth in Hd'. rewrite Hmain in Hm'.
    split; [done|]. split; [done|].
    split; [by apply (extends_not_depth r)|].
    split; [|split].
    + intros camera depth_out w Hopen.
      eapply outcome_sat_impl;
        [| |apply (render_depth_map_final_open r' camera depth_out w Hopen)].
      * intros ro w' (Hext' & _). by apply entered_activates_main.
      * intros w' Hext'. by apply entered_activates_main.
    + intros camera rgb_out w Hopen.
      eapply outcome_sat_impl;
        [| |apply (render_final_open r' camera rgb_out w Hopen)].
      * intros ro w' (Hext' & _). by apply entered_activates_main.
      * intros w' Hext'. by apply entered_activates_main.
    + intros w.
      destruct (teardown_extends r' w) as (w' & Hrun & Hcalls & _).
      exists w'. split; [done|]. split; [done|].
      unfold destructor_calls, no_depth_use. by repeat constructor.
  - intros wb Hext. by apply (extends_not_depth r).
Qed.

Lemma depth_pipeline_is_never_used_witness :
  outcome_sat
    (run_ops (fst example_constructed)
       [op_set_scene (Addr 2);
        op_render example_camera example_rgb_out;
        op_render_depth_map example_camera example_depth_out]
       (snd example_constructed))
    (fun r' wb =>
       _depth_program r' = Depth /\ _main_program r' = Main
       /\ calls_without_depth (snd example_constructed) wb
       /\ (forall camera depth_out w,
             window_open r' w ->
             outcome_sat (render_depth_map r' camera depth_out w)
               (fun _ w' => activates_main r' w w')
               (fun w' => activates_main r' w w'))
       /\ (forall camera rgb_out w,
             window_open r' w ->
             outcome_sat (render r' camera rgb_out w)
               (fun _ w' => activates_main r' w w')
               (fun w' => activates_main r' w w'))
       /\ (forall w,
             exists w',
               Renderer_delete r' w = Ok tt w'
               /\ calls w' = calls w ++ destructor_calls r'
               /\ no_depth_use (destructor_calls r')))
    (fun wb => calls_without_depth (snd example_constructed) wb).
Proof.
  apply (depth_pipeline_is_never_used 2 2 world0 (snd example_constructed)
           (fst example_constructed) example_constructed_ok).
Defined.

(** The operations of the witness above return normally. *)
Example example_ops_return :
  exists r' w',
    run_ops (fst example_constructed)
      [op_set_scene (Addr 2);
       op_render example_camera example_rgb_out;
       op_render_depth_map example_camera example_depth_out]
      (snd example_constructed) = Ok r' w'
    /\ length (_depth_buffer r') = 4%nat
    /\ length (_color_buffer r') = 12%nat.
Proof. vm_compute. eexists _, _. split; [reflexivity|]. by split. Qed.

(** *** The geometry binding *)

Lemma run_op_keeps_geometry_synced (r r' : Renderer) (op : Op)
    (w w' : World) :
  geometry_synced r w -> run_op r op w = Ok r' w' -> geometry_synced r' w'.
Proof.
  intros Hsync Hrun. pose proof (run_op_final r op w) as Hfin.
  rewrite Hrun in Hfin. simpl in Hfin. by apply Hfin.
Qed.

(** C6.  [set_scene(s)] stores [s] in [_scene] and replaces the geometry
    binding by one slot per object of [s], whatever was bound before.
    After [set_scene(A); set_scene(B); render] the calls made are those of
    the two [set_scene] calls followed by the calls of a frame of B's
    objects.  The geometry binding is the one built from the scene set
    last after each of these steps, and every operation that returns keeps
    it so. *)
Theorem set_scene_rebinds_geometry (r : Renderer) (a b : positive)
    (sA sB : Scene) (camera : PerspectiveCamera) (out : ndarray GLuint)
    (w : World) :
  scenes w !! a = Some sA ->
  scenes w !! b = Some sB ->
  window_open r w ->
  drawable sB ->
  valid_dims (_width r) (_height r) ->
  buffers_sized r ->
  nd_shape out = [_height r; _width r; 3] ->
  Z.of_nat (length (nd_data out)) = _height r * _width r * 3 ->
  (exists rA wA rB wB r' out' w',
     set_scene r (Addr a) w = Ok rA wA
     /\ _scene rA = Some (Addr a)
     /\ vao_slots (_vao rA) = _objects sA
     /\ geometry_synced rA wA
     /\ set_scene rA (Addr b) wA = Ok rB wB
     /\ _scene rB = Some (Addr b)
     /\ vao_slots (_vao rB) = _objects sB
     /\ geometry_synced rB wB
     /\ render rB camera out wB = Ok (r', out') w'
     /\ calls w' = calls w ++ set_scene_calls r (Addr a)
                   ++ set_scene_calls r (Addr b)
                   ++ render_calls r camera (_objects sB)
     /\ vao_slots (_vao r') = _objects sB
     /\ geometry_synced r' w')
  /\ (forall op r0 w0 r1 w1,
        geometry_synced r0 w0 -> run_op r0 op w0 = Ok r1 w1 ->
        geometry_synced r1 w1).
Proof.
  intros HsA HsB Hopen Hdraw Hdims Hsized Hshape Hlen.
  split; [|intros op r0 w0 r1 w1; apply run_op_keeps_geometry_synced].
  destruct (set_scene_spec r a sA w HsA)
    as (wA & HrunA & HcallsA & HscenesA & HflagsA & _).
  set (rA := set_scene_fields (Addr a) {| vao_slots := _objects sA |} r)
    in *.
  assert (scenes wA !! b = Some sB) as HsB' by (by rewrite HscenesA).
  destruct (set_scene_spec rA b sB wA HsB')
    as (wB & HrunB & HcallsB & HscenesB & HflagsB & _).
  set (rB := set_scene_fields (Addr b) {| vao_slots := _objects sB |} rA)
    in *.
  destruct (render_open rB camera out sB wB)
    as (buf & out' & w' & Hrender & _ & _ & Hcalls & Hscenes & _).
  { unfold window_open. simpl. by rewrite HflagsB, HflagsA. }
  { exists b. split; [done|]. by rewrite HscenesB. }
  { done. }
  { done. }
  { done. }
  { done. }
  { done. }
  exists rA, wA, rB, wB, (set_color_buffer buf rB), out', w'.
  split; [done|]. split; [done|]. split; [done|].
  split; [by eapply set_scene_synced|].
  split; [done|]. split; [done|]. split; [done|].
  split; [by eapply set_scene_synced|].
  split; [done|].
  split.
  { rewrite Hcalls, HcallsB, HcallsA. by rewrite <- !app_assoc. }
  split; [done|].
  eapply (geometry_synced_frame rB); [done..|].
  by eapply set_scene_synced.
Qed.

Lemma set_scene_rebinds_geometry_witness :
  (exists rA wA rB wB r' out' w',
     set_scene example_renderer (Addr 1) example_world = Ok rA wA
     /\ _scene rA = Some (Addr 1)
     /\ vao_slots (_vao rA) = _objects scene_A
     /\ geometry_synced rA wA
     /\ set_scene rA (Addr 2) wA = Ok rB wB
     /\ _scene rB = Some (Addr 2)
     /\ vao_slots (_vao rB) = _objects scene_B
     /\ geometry_synced rB wB
     /\ render rB example_camera example_rgb_out wB = Ok (r', out') w'
     /\ calls w' = calls example_world
                   ++ set_scene_calls example_renderer (Addr 1)
                   ++ set_scene_calls example_renderer (Addr 2)
                   ++ render_calls example_renderer example_camera
                        (_objects scene_B)
     /\ vao_slots (_vao r') = _objects scene_B
     /\ geometry_synced r' w')
  /\ (forall op r0 w0 r1 w1,
        geometry_synced r0 w0 -> run_op r0 op w0 = Ok r1 w1 ->
        geometry_synced r1 w1).
Proof.
  apply (set_scene_rebinds_geometry example_renderer 1 2 scene_A scene_B
           example_camera example_rgb_out example_world).
  - reflexivity.
  - reflexivity.
  - apply example_window_open.
  - apply example_drawable.
  - apply example_valid_dims.
  - apply example_buffers_sized.
  - reflexivity.
  - reflexivity.
Defined.

(** *** The clear at the start of a pass *)

(** When the loop of [render_objects] starts, the viewport is
    [(0, 0, width, height)], every pixel holds the clear colour and the
    clear depth that were current when [render_objects] was called, and
    the clear colour for the next clear is (0,0,0,1). *)
Lemma loop_entry_cleared (r : Renderer) (w : World) :
  gl_viewport (gl (loop_entry r w)) = (0, 0, _width r, _height r)
  /\ (forall x y,
        fb_color (framebuffer (loop_entry r w)) x y = gl_clear_color (gl w))
  /\ (forall x y,
        fb_depth (framebuffer (loop_entry r w)) x y = gl_clear_depth (gl w))
  /\ gl_clear_color (gl (loop_entry r w)) = opaque_black.
Proof. by repeat split. Qed.

(** A pass over a scene without objects leaves the frame as the clear
    made it. *)
Lemma render_objects_empty_scene (r : Renderer) (camera : PerspectiveCamera)
    (s : Scene) (w : World) :
  bound_scene r w s ->
  _objects s = [] ->
  exists w',
    render_objects r camera w = Ok tt w'
    /\ (forall x y, fb_color (framebuffer w') x y = gl_clear_color (gl w))
    /\ (forall x y, fb_depth (framebuffer w') x y = gl_clear_depth (gl w))
    /\ gl_viewport (gl w') = (0, 0, _width r, _height r)
    /\ gl_clear_color (gl w') = opaque_black
    /\ gl_clear_depth (gl w') = gl_clear_depth (gl w)
    /\ scenes w' = scenes w.
Proof.
  intros Hscene Hnil.
  destruct (render_objects_spec r camera s w Hscene)
    as (w' & Hrun & _ & _ & _ & _ & _ & Hentry).
  { split; rewrite Hnil; [simpl; unfold Int.MAX; lia|constructor]. }
  exists w'. split; [done|]. rewrite (Hentry Hnil). by repeat split.
Qed.

(** From the second pass on a context, the clear colour that is current
    when [render_objects] is called is (0,0,0,1), so the frame is cleared
    to it. *)
Lemma render_objects_empty_scene_again (r : Renderer)
    (camera : PerspectiveCamera) (s : Scene) (w : World) :
  bound_scene r w s ->
  _objects s = [] ->
  gl_clear_color (gl w) = opaque_black ->
  exists w',
    render_objects r camera w = Ok tt w'
    /\ forall x y, fb_color (framebuffer w') x y = opaque_black.
Proof.
  intros Hscene Hnil Hclear.
  destruct (render_objects_empty_scene r camera s w Hscene Hnil)
    as (w' & Hrun & Hcolor & _).
  exists w'. split; [done|]. intros x y. by rewrite Hcolor.
Qed.

Lemma example_empty_bound_scene :
  bound_scene (fst example_constructed_empty) (snd example_constructed_empty)
    scene_empty.
Proof. exists 3%positive. split; reflexivity. Qed.

(** C4, on the first pass of a renderer.  [Renderer(scene, 2, 2)] on a
    scene without objects, then [render_objects]: the pass returns with
    the viewport at (0,0,2,2) and the depth of every pixel at 1.0, but the
    colour of every pixel is the initial clear colour of the context,
    (0,0,0,0), not (0,0,0,1): [glClear] runs before [glClearColor].  A
    second pass clears to (0,0,0,1). *)
Theorem first_pass_clears_to_initial_clear_color :
  exists w1 w2,
    render_objects (fst example_constructed_empty) example_camera
      (snd example_constructed_empty) = Ok tt w1
    /\ gl_viewport (gl w1) = (0, 0, 2, 2)
    /\ (forall x y, fb_depth (framebuffer w1) x y = f32_one)
    /\ (forall x y, fb_color (framebuffer w1) x y = transparent_black)
    /\ (forall x y, fb_color (framebuffer w1) x y <> opaque_black)
    /\ render_objects (fst example_constructed_empty) example_camera w1
       = Ok tt w2
    /\ (forall x y, fb_color (framebuffer w2) x y = opaque_black).
Proof.
  destruct (render_objects_empty_scene (fst example_constructed_empty)
              example_camera scene_empty (snd example_constructed_empty)
              example_empty_bound_scene eq_refl)
    as (w1 & Hrun1 & Hcolor1 & Hdepth1 & Hview1 & Hclear1 & _ & Hscenes1).
  destruct (render_objects_empty_scene_again (fst example_constructed_empty)
              example_camera scene_empty w1)
    as (w2 & Hrun2 & Hcolor2).
  { exists 3%positive. split; [reflexivity|]. by rewrite Hscenes1. }
  { done. }
  { done. }
  exists w1, w2. split; [done|]. split; [done|].
  split; [intros x y; by rewrite Hdepth1|].
  split; [intros x y; by rewrite Hcolor1|].
  split; [|done].
  intros x y. rewrite Hcolor1. discriminate.
Qed.

(** *** What the readback holds *)

Lemma store_rows_content {T} (row : Z -> list T) (k H : Z)
    (buf buf' : list T) :
  0 <= k -> 0 <= H ->
  (forall j, Z.of_nat (length (row j)) = k) ->
  k * H <= Z.of_nat (length buf) ->
  for_int H (fun j b => store_at b (j * k) (row j)) buf = Some buf' ->
  forall j i, 0 <= j < H -> 0 <= i < k ->
    buf' !! Z.to_nat (j * k + i) = row j !! Z.to_nat i.
Proof.
  intros Hk HH Hrow Hfit Hrun.
  destruct (for_int_inv
    (fun n b =>
       length b = length buf
       /\ forall j i, 0 <= j < n -> 0 <= i < k ->
            b !! Z.to_nat (j * k + i) = row j !! Z.to_nat i)
    H (fun j b => store_at b (j * k) (row j)) buf)
    as (b' & Hrun' & _ & Hcontent); [done| | |].
  - split; [done|]. intros j i Hj. lia.
  - intros n b Hn (Hlen & Hinv).
    unfold store_at.
    destruct (row n) as [|x data] eqn:Hrown.
    { exists b. split; [done|]. split; [done|].
      intros j i Hj Hi. specialize (Hrow n). rewrite Hrown in Hrow.
      simpl in Hrow. lia. }
    rewrite <- Hrown in *.
    assert (Z.of_nat (length (row n)) = k) as Hln by apply Hrow.
    rewrite decide_True by (rewrite Hlen; nia).
    eexists. split; [done|].
    split.
    { rewrite !length_app, length_take, length_drop. nia. }
    intros j i Hj Hi.
    destruct (decide (j = n)) as [->|Hne].
    + rewrite lookup_app_r by (rewrite length_take; nia).
      rewrite length_take.
      replace (Z.to_nat (n * k + i)
               - Z.to_nat (n * k) `min` length b)%nat
        with (Z.to_nat i) by nia.
      by rewrite lookup_app_l by lia.
    + rewrite lookup_app_l by (rewrite length_take; nia).
      rewrite lookup_take_lt by nia.
      apply Hinv; lia.
  - rewrite Hrun in Hrun'. injection Hrun' as <-. apply Hcontent.
Qed.

Lemma lookup_depth_row (fb : Framebuffer) (x width y i : Z) :
  0 <= i < width ->
  depth_row fb x width y !! Z.to_nat i = Some (fb_depth fb (x + i) y).
Proof.
  intros Hi. unfold depth_row.
  rewrite list_lookup_fmap, lookup_seqZ_lt by lia. simpl.
  do 2 f_equal. lia.
Qed.

Lemma lookup_bind_triple {A B} (f : A -> list B) (l : list A) (i c : nat)
    (x : A) :
  (forall y, length (f y) = 3%nat) ->
  l !! i = Some x -> (c < 3)%nat ->
  (l ≫= f) !! (3 * i + c)%nat = f x !! c.
Proof.
  intros Hf. revert i. induction l as [|y l IH]; intros i Hi Hc; [done|].
  rewrite bind_cons. destruct i as [|i]; simpl in Hi.
  - injection Hi as ->. rewrite lookup_app_l by (rewrite Hf; lia).
    by replace (3 * 0 + c)%nat with c by lia.
  - rewrite lookup_app_r by (rewrite Hf; lia). rewrite Hf.
    replace (3 * S i + c - 3)%nat with (3 * i + c)%nat by lia.
    by apply IH.
Qed.

Lemma lookup_rgb_row (d : Driver) (fb : Framebuffer) (x width y i c : Z) :
  0 <= i < width -> 0 <= c < 3 ->
  rgb_row d fb x width y !! Z.to_nat (i * 3 + c)
  = Some (unorm8 d (channel c (fb_color fb (x + i) y))).
Proof.
  intros Hi Hc. unfold rgb_row.
  replace (Z.to_nat (i * 3 + c)) with (3 * Z.to_nat i + Z.to_nat c)%nat
    by lia.
  rewrite (lookup_bind_triple _ _ _ _ (0 + Z.of_nat (Z.to_nat i)));
    [|done|by apply lookup_seqZ_lt; lia|lia].
  replace (x + (0 + Z.of_nat (Z.to_nat i))) with (x + i) by lia.
  unfold channel.
  assert (c = 0 \/ c = 1 \/ c = 2) as [-> | [-> | ->]] by lia; done.
Qed.

Lemma glReadPixels_depth_content (r : Renderer) (w : World)
    (buf : list GLfloat) (w' : World) :
  valid_dims (_width r) (_height r) ->
  Z.of_nat (length (_depth_buffer r)) = _width r * _height r ->
  gl_pack_alignment (gl w) <= 4 ->
  glReadPixels_depth 0 0 (_width r) (_height r) (_depth_buffer r) w
  = Ok buf w' ->
  forall y x, 0 <= y < _height r -> 0 <= x < _width r ->
    buf !! Z.to_nat (y * _width r + x) = Some (fb_depth (framebuffer w) x y).
Proof.
  intros (HW & HH & Hmax) Hbuf Halign.
  unfold glReadPixels_depth. unfold_calls. simpl.
  unfold pack_row_length.
  replace (gl_pack_alignment (gl w) <=? 4) with true
    by (symmetry; apply Z.leb_le; done).
  match goal with
  | |- context [for_int ?n ?f ?b] =>
      destruct (for_int n f b) as [b'|] eqn:Hrun
  end; simpl; [|done].
  intros [= <- _] y x Hy Hx.
  rewrite (store_rows_content
             (fun j => depth_row (framebuffer w) 0 (_width r) (0 + j))
             (_width r) (_height r) (_depth_buffer r) b');
    [|done|done|intros j; by apply length_depth_row|lia|done|done|done].
  by rewrite lookup_depth_row.
Qed.

Lemma glReadPixels_rgb_content (r : Renderer) (w : World)
    (buf : list GLubyte) (w' : World) :
  valid_dims (_width r) (_height r) ->
  Z.of_nat (length (_color_buffer r)) = _width r * _height r * 3 ->
  gl_pack_alignment (gl w) = 1 ->
  glReadPixels_rgb 0 0 (_width r) (_height r) (_color_buffer r) w
  = Ok buf w' ->
  forall y x c, 0 <= y < _height r -> 0 <= x < _width r -> 0 <= c < 3 ->
    buf !! Z.to_nat (y * _width r * 3 + x * 3 + c)
    = Some (unorm8 (driver w) (channel c (fb_color (framebuffer w) x y))).
Proof.
  intros (HW & HH & Hmax) Hbuf Halign.
  unfold glReadPixels_rgb. unfold_calls. simpl.
  rewrite Halign. unfold pack_row_length. simpl.
  match goal with
  | |- context [for_int ?n ?f ?b] =>
      destruct (for_int n f b) as [b'|] eqn:Hrun
  end; simpl; [|done].
  intros [= <- _] y x c Hy Hx Hc.
  replace (y * _width r * 3 + x * 3 + c)
    with (y * (3 * _width r) + (x * 3 + c)) by lia.
  rewrite (store_rows_content
             (fun j => rgb_row (driver w) (framebuffer w) 0 (_width r)
                         (0 + j))
             (3 * _width r) (_height r) (_color_buffer r) b');
    [|lia|done|intros j; by apply length_rgb_row|lia|done|done|lia].
  by rewrite lookup_rgb_row.
Qed.

(** *** The render methods in stages *)

Lemma render_setup_frame (r : Renderer) (w : World) :
  window_open r w ->
  calls (render_setup r w)
  = calls w ++
    [ Call_glfwWindowShouldClose (_window r) false;
      Call_program_use (_main_program r);
      Call_glEnable GL_BLEND;
      Call_glEnable GL_CULL_FACE;
      Call_glEnable GL_DEPTH_TEST;
      Call_glBlendFunc GL_SRC_ALPHA GL_ONE_MINUS_SRC_ALPHA;
      Call_glPixelStorei GL_PACK_ALIGNMENT 1;
      Call_glViewport 0 0 (_width r) (_height r);
      Call_glBindRenderbuffer GL_RENDERBUFFER (_render_buffer r);
      Call_glFramebufferRenderbuffer
        GL_FRAMEBUFFER GL_COLOR_ATTACHMENT0 GL_RENDERBUFFER
        (_render_buffer r) ]
  /\ scenes (render_setup r w) = scenes w
  /\ glfw_close_flags (render_setup r w) = glfw_close_flags w
  /\ driver (render_setup r w) = driver w
  /\ framebuffer (render_setup r w) = framebuffer w
  /\ gl_clear_color (gl (render_setup r w)) = gl_clear_color (gl w)
  /\ gl_clear_depth (gl (render_setup r w)) = gl_clear_depth (gl w)
  /\ gl_program (gl (render_setup r w)) = Some (_main_program r)
  /\ gl_enabled (gl (render_setup r w))
     = GL_DEPTH_TEST :: GL_CULL_FACE :: GL_BLEND :: gl_enabled (gl w)
  /\ gl_blend_func (gl (render_setup r w))
     = Some (GL_SRC_ALPHA, GL_ONE_MINUS_SRC_ALPHA)
  /\ gl_pack_alignment (gl (render_setup r w)) = 1
  /\ gl_renderbuffer_binding (gl (render_setup r w)) = _render_buffer r
  /\ gl_attachments (gl (render_setup r w))
     = (GL_COLOR_ATTACHMENT0, _render_buffer r) :: gl_attachments (gl w).
Proof.
  intros Hopen. unfold render_setup, glfwWindowShouldClose.
  unfold_calls. simpl. rewrite bool_decide_eq_false_2 by done.
  rewrite <- !app_assoc. by repeat split.
Qed.

Lemma render_depth_map_setup_frame (r : Renderer) (w : World) :
  window_open r w ->
  calls (render_depth_map_setup r w)
  = calls w ++
    [ Call_glfwWindowShouldClose (_window r) false;
      Call_program_use (_main_program r);
      Call_glEnable GL_BLEND;
      Call_glEnable GL_CULL_FACE;
      Call_glEnable GL_DEPTH_TEST;
      Call_glBlendFunc GL_SRC_ALPHA GL_ONE_MINUS_SRC_ALPHA;
      Call_glBindRenderbuffer GL_RENDERBUFFER (_render_buffer r);
      Call_glFramebufferRenderbuffer
        GL_FRAMEBUFFER GL_DEPTH_ATTACHMENT GL_RENDERBUFFER
        (_render_buffer r) ]
  /\ scenes (render_depth_map_setup r w) = scenes w
  /\ glfw_close_flags (render_depth_map_setup r w) = glfw_close_flags w
  /\ driver (render_depth_map_setup r w) = driver w
  /\ framebuffer (render_depth_map_setup r w) = framebuffer w
  /\ gl_clear_color (gl (render_depth_map_setup r w)) = gl_clear_color (gl w)
  /\ gl_clear_depth (gl (render_depth_map_setup r w)) = gl_clear_depth (gl w)
  /\ gl_program (gl (render_depth_map_setup r w)) = Some (_main_program r)
  /\ gl_enabled (gl (render_depth_map_setup r w))
     = GL_DEPTH_TEST :: GL_CULL_FACE :: GL_BLEND :: gl_enabled (gl w)
  /\ gl_blend_func (gl (render_depth_map_setup r w))
     = Some (GL_SRC_ALPHA, GL_ONE_MINUS_SRC_ALPHA)
  /\ gl_pack_alignment (gl (render_depth_map_setup r w))
     = gl_pack_alignment (gl w)
  /\ gl_renderbuffer_binding (gl (render_depth_map_setup r w))
     = _render_buffer r
  /\ gl_attachments (gl (render_depth_map_setup r w))
     = (GL_DEPTH_ATTACHMENT, _render_buffer r) :: gl_attachments (gl w).
Proof.
  intros Hopen. unfold render_depth_map_setup, glfwWindowShouldClose.
  unfold_calls. simpl. rewrite bool_decide_eq_false_2 by done.
  rewrite <- !app_assoc. by repeat split.
Qed.

Lemma render_staged (r : Renderer) (camera : PerspectiveCamera)
    (out : ndarray GLuint) (w : World) :
  window_open r w ->
  render r camera out w
  = (render_objects r camera ;;
     color_buffer <-
       glReadPixels_rgb 0 0 (_width r) (_height r) (_color_buffer r) ;;
     rgb_map <- mutable_unchecked 3 out ;;
     rgb_map <-
       lift_ub (flip_rgb (set_color_buffer color_buffer r) rgb_map) ;;
     glUseProgram 0 ;;
     glBindVertexArray 0 ;;
     glBindRenderbuffer GL_RENDERBUFFER 0 ;;
     ret (set_color_buffer color_buffer r, rgb_map)) (render_setup r w).
Proof.
  intros Hopen. unfold render, render_setup, glfwWindowShouldClose.
  unfold bind at 1 2. unfold get_world, log, modify_world, ret.
  rewrite bool_decide_eq_false_2 by done.
  unfold_calls. simpl. rewrite bool_decide_eq_false_2 by done.
  reflexivity.
Qed.

Lemma render_depth_map_staged (r : Renderer) (camera : PerspectiveCamera)
    (out : ndarray GLfloat) (w : World) :
  window_open r w ->
  render_depth_map r camera out w
  = (render_objects r camera ;;
     depth_buffer <-
       glReadPixels_depth 0 0 (_width r) (_height r) (_depth_buffer r) ;;
     depth_map <- mutable_unchecked 2 out ;;
     depth_map <-
       lift_ub (flip_depth (set_depth_buffer depth_buffer r) depth_map) ;;
     glUseProgram 0 ;;
     glBindVertexArray 0 ;;
     glBindRenderbuffer GL_RENDERBUFFER 0 ;;
     ret (set_depth_buffer depth_buffer r, depth_map))
      (render_depth_map_setup r w).
Proof.
  intros Hopen.
  unfold render_depth_map, render_depth_map_setup, glfwWindowShouldClose.
  unfold bind at 1 2. unfold get_world, log, modify_world, ret.
  rewrite bool_decide_eq_false_2 by done.
  unfold_calls. simpl. rewrite bool_decide_eq_false_2 by done.
  reflexivity.
Qed.

Lemma bound_scene_frame (r : Renderer) (s : Scene) (w w' : World) :
  scenes w' = scenes w -> bound_scene r w s -> bound_scene r w' s.
Proof. intros Hs (a & Hp & Ha). exists a. by rewrite Hs. Qed.


(** An open window, a drawable scene and an output array of the
    renderer's shape: [render] runs the draw pass from [render_setup], reads
    the frame back, flips it and ends with the three unbinding calls. *)
Lemma render_returns (r : Renderer) (camera : PerspectiveCamera)
    (out : ndarray GLuint) (s : Scene) (w : World) :
  window_open r w ->
  bound_scene r w s ->
  drawable s ->
  valid_dims (_width r) (_height r) ->
  buffers_sized r ->
  nd_shape out = [_height r; _width r; 3] ->
  Z.of_nat (length (nd_data out)) = _height r * _width r * 3 ->
  exists w2 buf out',
    render_objects r camera (render_setup r w) = Ok tt w2
    /\ glReadPixels_rgb 0 0 (_width r) (_height r) (_color_buffer r) w2
       = Ok buf
           (logged (Call_glReadPixels 0 0 (_width r) (_height r)
                      GL_RGB GL_UNSIGNED_BYTE) w2)
    /\ length buf = length (_color_buffer r)
    /\ gl_pack_alignment (gl w2) = 1
    /\ flip_rgb (set_color_buffer buf r) out = Some out'
    /\ rgb_flip_inv (set_color_buffer buf r) (_height r) 0 out'
    /\ render r camera out w
       = Ok (set_color_buffer buf r, out')
           (render_finish
              (logged (Call_glReadPixels 0 0 (_width r) (_height r)
                         GL_RGB GL_UNSIGNED_BYTE) w2)).
Proof.
  intros Hopen Hscene Hdraw Hdims (Hdepth & Hcolor) Hshape Hlen.
  destruct (render_setup_frame r w Hopen)
    as (_ & Hscenes1 & _ & _ & _ & _ & _ & _ & _ & _ & Halign1 & _).
  destruct (render_objects_spec r camera s (render_setup r w))
    as (w2 & Hpass & _ & Hframe2 & _); [|done|].
  { by apply (bound_scene_frame r s w). }
  destruct Hframe2 as (_ & _ & _ & _ & _ & _ & _ & _ & _ & _
                       & _ & _ & Halign2 & _).
  rewrite Halign1 in Halign2.
  destruct (glReadPixels_rgb_spec r w2) as (buf & Hread & Hbuf);
    [done|done|done|].
  destruct (flip_rgb_spec (set_color_buffer buf r) out)
    as (out' & Hflip & Hinv); simpl; [done|lia|done|done|].
  exists w2, buf, out'.
  split; [done|]. split; [done|]. split; [done|]. split; [done|].
  split; [done|]. split; [done|].
  rewrite render_staged by done.
  rewrite (bind_Ok _ _ _ _ _ Hpass).
  rewrite (bind_Ok _ _ _ _ _ Hread).
  unfold mutable_unchecked. rewrite decide_True by (by rewrite Hshape).
  unfold bind at 1. unfold ret at 1.
  rewrite Hflip. unfold render_finish, lift_ub. unfold_calls. by simpl.
Qed.

Lemma render_depth_map_returns (r : Renderer) (camera : PerspectiveCamera)
    (out : ndarray GLfloat) (s : Scene) (w : World) :
  window_open r w ->
  bound_scene r w s ->
  drawable s ->
  valid_dims (_width r) (_height r) ->
  buffers_sized r ->
  gl_pack_alignment (gl w) <= 4 ->
  nd_shape out = [_height r; _width r] ->
  Z.of_nat (length (nd_data out)) = _height r * _width r ->
  exists w2 buf out',
    render_objects r camera (render_depth_map_setup r w) = Ok tt w2
    /\ glReadPixels_depth 0 0 (_width r) (_height r) (_depth_buffer r) w2
       = Ok buf
           (logged (Call_glReadPixels 0 0 (_width r) (_height r)
                      GL_DEPTH_COMPONENT GL_FLOAT) w2)
    /\ length buf = length (_depth_buffer r)
    /\ gl_pack_alignment (gl w2) = gl_pack_alignment (gl w)
    /\ flip_depth (set_depth_buffer buf r) out = Some out'
    /\ depth_flip_inv (set_depth_buffer buf r) (_height r) 0 out'
    /\ render_depth_map r camera out w
       = Ok (set_depth_buffer buf r, out')
           (render_finish
              (logged (Call_glReadPixels 0 0 (_width r) (_height r)
                         GL_DEPTH_COMPONENT GL_FLOAT) w2)).
Proof.
  intros Hopen Hscene Hdraw Hdims (Hdepth & Hcolor) Halign Hshape Hlen.
  destruct (render_depth_map_setup_frame r w Hopen)
    as (_ & Hscenes1 & _ & _ & _ & _ & _ & _ & _ & _ & Halign1 & _).
  destruct (render_objects_spec r camera s (render_depth_map_setup r w))
    as (w2 & Hpass & _ & Hframe2 & _); [|done|].
  { by apply (bound_scene_frame r s w). }
  destruct Hframe2 as (_ & _ & _ & _ & _ & _ & _ & _ & _ & _
                       & _ & _ & Halign2 & _).
  rewrite Halign1 in Halign2.
  destruct (glReadPixels_depth_spec r w2) as (buf & Hread & Hbuf);
    [done|done|lia|].
  destruct (flip_depth_spec (set_depth_buffer buf r) out)
    as (out' & Hflip & Hinv); simpl; [done|lia|done|done|].
  exists w2, buf, out'.
  split; [done|]. split; [done|]. split; [done|]. split; [done|].
  split; [done|]. split; [done|].
  rewrite render_depth_map_staged by done.
  rewrite (bind_Ok _ _ _ _ _ Hpass).
  rewrite (bind_Ok _ _ _ _ _ Hread).
  unfold mutable_unchecked. rewrite decide_True by (by rewrite Hshape).
  unfold bind at 1. unfold ret at 1.
  rewrite Hflip. unfold render_finish, lift_ub. unfold_calls. by simpl.
Qed.

(** *** From the frame to the caller's array *)

(** X1.  [render] on an open window, a drawable scene and an array of the
    renderer's shape returns, and the caller's array then shows the frame
    that the draw pass of this call produced, top row first: the element
    at row [h], column [x], channel [c] is the 8-bit value of channel [c]
    of the pixel at window coordinates [(x, height - 1 - h)].  The
    renderer's colour buffer holds that same frame bottom row first, so
    nothing of an earlier frame is left in it, and the array keeps its
    shape and size. *)
Theorem render_output_is_the_frame_top_down (r : Renderer)
    (camera : PerspectiveCamera) (out : ndarray GLuint) (s : Scene)
    (w : World) :
  window_open r w ->
  bound_scene r w s ->
  drawable s ->
  valid_dims (_width r) (_height r) ->
  buffers_sized r ->
  nd_shape out = [_height r; _width r; 3] ->
  Z.of_nat (length (nd_data out)) = _height r * _width r * 3 ->
  exists w2 r' out' w',
    render_objects r camera (render_setup r w) = Ok tt w2
    /\ render r camera out w = Ok (r', out') w'
    /\ framebuffer w' = framebuffer w2
    /\ nd_shape out' = nd_shape out
    /\ length (nd_data out') = length (nd_data out)
    /\ buffers_sized r'
    /\ forall h x c,
         0 <= h < _height r -> 0 <= x < _width r -> 0 <= c < 3 ->
         nd_get out' [h; x; c]
         = Some (GLuint_of_GLubyte
                   (unorm8 (driver w)
                      (channel c
                         (fb_color (framebuffer w2) x (_height r - 1 - h)))))
         /\ _color_buffer r' !! Z.to_nat (h * _width r * 3 + x * 3 + c)
            = Some (unorm8 (driver w)
                      (channel c (fb_color (framebuffer w2) x h))).
Proof.
  intros Hopen Hscene Hdraw Hdims Hsized Hshape Hlen.
  pose proof Hdims as (HW & HH & Hmax). unfold Int.MAX in Hmax.
  pose proof Hsized as (Hdepth & Hcolor).
  destruct (render_returns r camera out s w)
    as (w2 & buf & out' & Hpass & Hread & Hbuf & Halign & _
        & (Hs & Hl & Hflip) & Hrun); [done..|].
  destruct (render_setup_frame r w Hopen)
    as (_ & Hscenes1 & _ & Hdriver1 & _).
  destruct (render_objects_spec r camera s (render_setup r w))
    as (w2' & Hpass' & _ & Hframe2 & _);
    [by apply (bound_scene_frame r s w)|done|].
  rewrite Hpass in Hpass'. injection Hpass' as <-.
  destruct Hframe2 as (_ & _ & _ & _ & _ & _ & Hdriver2 & _).
  rewrite Hdriver1 in Hdriver2.
  pose proof (glReadPixels_rgb_content r w2 buf _ Hdims Hcolor Halign Hread)
    as Hcontent.
  rewrite Hdriver2 in Hcontent.
  eexists w2, (set_color_buffer buf r), out', _.
  split; [done|]. split; [exact Hrun|].
  split; [reflexivity|].
  split; [by rewrite Hs, Hshape|].
  split; [simpl in Hl; lia|].
  split; [split; simpl; [done|lia]|].
  intros h x c Hh Hx Hc. simpl in *.
  split; [|by apply Hcontent].
  unfold nd_get. rewrite Hs, nd_offset_3.
  rewrite decide_True by nia.
  rewrite Hflip; [|done..|left; lia].
  rewrite Hcontent by lia. done.
Qed.

Lemma render_output_is_the_frame_top_down_witness :
  exists w2 r' out' w',
    render_objects example_renderer example_camera
      (render_setup example_renderer example_world) = Ok tt w2
    /\ render example_renderer example_camera example_rgb_out example_world
       = Ok (r', out') w'
    /\ framebuffer w' = framebuffer w2
    /\ nd_shape out' = nd_shape example_rgb_out
    /\ length (nd_data out') = length (nd_data example_rgb_out)
    /\ buffers_sized r'
    /\ forall h x c,
         0 <= h < _height example_renderer ->
         0 <= x < _width example_renderer -> 0 <= c < 3 ->
         nd_get out' [h; x; c]
         = Some (GLuint_of_GLubyte
                   (unorm8 (driver example_world)
                      (channel c
                         (fb_color (framebuffer w2) x
                            (_height example_renderer - 1 - h)))))
         /\ _color_buffer r'
              !! Z.to_nat (h * _width example_renderer * 3 + x * 3 + c)
            = Some (unorm8 (driver example_world)
                      (channel c (fb_color (framebuffer w2) x h))).
Proof.
  apply (render_output_is_the_frame_top_down example_renderer
           example_camera example_rgb_out scene_B example_world).
  - apply example_window_open.
  - apply example_bound_scene.
  - apply example_drawable.
  - apply example_valid_dims.
  - apply example_buffers_sized.
  - reflexivity.
  - reflexivity.
Defined.

(** X2.  [render_depth_map] on an open window, a drawable scene and an
    array of the renderer's shape, with a pack alignment of at most 4
    (the method sets none), returns, and the caller's array then shows the
    depth of the frame that the draw pass of this call produced, top row
    first: the element at row [h], column [x] is the depth of the pixel at
    window coordinates [(x, height - 1 - h)], unchanged.  The renderer's
    depth buffer holds that same frame bottom row first. *)
Theorem render_depth_map_output_is_the_frame_top_down (r : Renderer)
    (camera : PerspectiveCamera) (out : ndarray GLfloat) (s : Scene)
    (w : World) :
  window_open r w ->
  bound_scene r w s ->
  drawable s ->
  valid_dims (_width r) (_height r) ->
  buffers_sized r ->
  gl_pack_alignment (gl w) <= 4 ->
  nd_shape out = [_height r; _width r] ->
  Z.of_nat (length (nd_data out)) = _height r * _width r ->
  exists w2 r' out' w',
    render_objects r camera (render_depth_map_setup r w) = Ok tt w2
    /\ render_depth_map r camera out w = Ok (r', out') w'
    /\ framebuffer w' = framebuffer w2
    /\ nd_shape out' = nd_shape out
    /\ length (nd_data out') = length (nd_data out)
    /\ buffers_sized r'
    /\ forall h x, 0 <= h < _height r -> 0 <= x < _width r ->
         nd_get out' [h; x]
         = Some (fb_depth (framebuffer w2) x (_height r - 1 - h))
         /\ _depth_buffer r' !! Z.to_nat (h * _width r + x)
            = Some (fb_depth (framebuffer w2) x h).
Proof.
  intros Hopen Hscene Hdraw Hdims Hsized Halign Hshape Hlen.
  pose proof Hdims as (HW & HH & Hmax). unfold Int.MAX in Hmax.
  pose proof Hsized as (Hdepth & Hcolor).
  destruct (render_depth_map_returns r camera out s w)
    as (w2 & buf & out' & Hpass & Hread & Hbuf & Halign2 & _
        & (Hs & Hl & Hflip) & Hrun); [done..|].
  pose proof (glReadPixels_depth_content r w2 buf _ Hdims Hdepth
                ltac:(lia) Hread) as Hcontent.
  eexists w2, (set_depth_buffer buf r), out', _.
  split; [done|]. split; [exact Hrun|].
  split; [reflexivity|].
  split; [by rewrite Hs, Hshape|].
  split; [simpl in Hl; lia|].
  split; [split; simpl; [lia|done]|].
  intros h x Hh Hx. simpl in *.
  split; [|by apply Hcontent].
  unfold nd_get. rewrite Hs, nd_offset_2.
  rewrite decide_True by nia.
  rewrite Hflip; [|done..|left; lia].
  by rewrite Hcontent by lia.
Qed.

Lemma render_depth_map_output_is_the_frame_top_down_witness :
  exists w2 r' out' w',
    render_objects example_renderer example_camera
      (render_depth_map_setup example_renderer example_world) = Ok tt w2
    /\ render_depth_map example_renderer example_camera example_depth_out
         example_world = Ok (r', out') w'
    /\ framebuffer w' = framebuffer w2
    /\ nd_shape out' = nd_shape example_depth_out
    /\ length (nd_data out') = length (nd_data example_depth_out)
    /\ buffers_sized r'
    /\ forall h x,
         0 <= h < _height example_renderer ->
         0 <= x < _width example_renderer ->
         nd_get out' [h; x]
         = Some (fb_depth (framebuffer w2) x
                   (_height example_renderer - 1 - h))
         /\ _depth_buffer r' !! Z.to_nat (h * _width example_renderer + x)
            = Some (fb_depth (framebuffer w2) x h).
Proof.
  apply (render_depth_map_output_is_the_frame_top_down example_renderer
           example_camera example_depth_out scene_B example_world).
  - apply example_window_open.
  - apply example_bound_scene.
  - apply example_drawable.
  - apply example_valid_dims.
  - apply example_buffers_sized.
  - vm_compute. discriminate.
  - reflexivity.
  - reflexivity.
Defined.

(** *** A scene without objects *)

(** X3.  [render] of a scene without objects returns an image of one
    colour: every element of channel [c] is the 8-bit value of channel [c]
    of the clear colour that was current when [render] was called.  The
    alpha of the clear colour is not read, and the clear colour that
    [render_objects] sets, (0,0,0,1), is the one of the next call. *)
Theorem render_of_empty_scene_is_the_clear_colour (r : Renderer)
    (camera : PerspectiveCamera) (out : ndarray GLuint) (s : Scene)
    (w : World) :
  window_open r w ->
  bound_scene r w s ->
  _objects s = [] ->
  valid_dims (_width r) (_height r) ->
  buffers_sized r ->
  nd_shape out = [_height r; _width r; 3] ->
  Z.of_nat (length (nd_data out)) = _height r * _width r * 3 ->
  exists r' out' w',
    render r camera out w = Ok (r', out') w'
    /\ gl_clear_color (gl w') = opaque_black
    /\ forall h x c,
         0 <= h < _height r -> 0 <= x < _width r -> 0 <= c < 3 ->
         nd_get out' [h; x; c]
         = Some (GLuint_of_GLubyte
                   (unorm8 (driver w) (channel c (gl_clear_color (gl w))))).
Proof.
  intros Hopen Hscene Hnil Hdims Hsized Hshape Hlen.
  pose proof Hdims as (HW & HH & Hmax). unfold Int.MAX in Hmax.
  pose proof Hsized as (Hdepth & Hcolor).
  assert (drawable s) as Hdraw.
  { split; rewrite Hnil; [simpl; unfold Int.MAX; lia|constructor]. }
  destruct (render_returns r camera out s w)
    as (w2 & buf & out' & Hpass & Hread & Hbuf & Halign & _
        & (Hs & Hl & Hflip) & Hrun); [done..|].
  destruct (render_setup_frame r w Hopen)
    as (_ & Hscenes1 & _ & Hdriver1 & _ & Hclear1 & _).
  destruct (render_objects_empty_scene r camera s (render_setup r w))
    as (w2' & Hpass' & Hframe & _ & _ & Hclear2 & _);
    [by apply (bound_scene_frame r s w)|done|].
  rewrite Hpass in Hpass'. injection Hpass' as <-.
  destruct (render_objects_spec r camera s (render_setup r w))
    as (w2' & Hpass' & _ & Hframe2 & _);
    [by apply (bound_scene_frame r s w)|done|].
  rewrite Hpass in Hpass'. injection Hpass' as <-.
  destruct Hframe2 as (_ & _ & _ & _ & _ & _ & Hdriver2 & _).
  rewrite Hdriver1 in Hdriver2.
  pose proof (glReadPixels_rgb_content r w2 buf _ Hdims Hcolor Halign Hread)
    as Hcontent.
  rewrite Hdriver2 in Hcontent.
  eexists (set_color_buffer buf r), out', _.
  split; [exact Hrun|].
  split; [exact Hclear2|].
  intros h x c Hh Hx Hc. simpl in *.
  unfold nd_get. rewrite Hs, nd_offset_3.
  rewrite decide_True by nia.
  rewrite Hflip; [|done..|left; lia].
  rewrite Hcontent by lia. simpl.
  by rewrite Hframe.
Qed.

Lemma example_empty_state_ok :
  window_open (fst example_constructed_empty) (snd example_constructed_empty)
  /\ valid_dims (_width (fst example_constructed_empty))
       (_height (fst example_constructed_empty))
  /\ buffers_sized (fst example_constructed_empty).
Proof.
  split; [unfold window_open; simpl; apply not_elem_of_nil|].
  split; [repeat split; vm_compute; discriminate|].
  split; reflexivity.
Qed.

Lemma render_of_empty_scene_is_the_clear_colour_witness :
  exists r' out' w',
    render (fst example_constructed_empty) example_camera example_rgb_out
      (snd example_constructed_empty) = Ok (r', out') w'
    /\ gl_clear_color (gl w') = opaque_black
    /\ forall h x c,
         0 <= h < _height (fst example_constructed_empty) ->
         0 <= x < _width (fst example_constructed_empty) -> 0 <= c < 3 ->
         nd_get out' [h; x; c]
         = Some (GLuint_of_GLubyte
                   (unorm8 (driver (snd example_constructed_empty))
                      (channel c
                         (gl_clear_color
                            (gl (snd example_constructed_empty)))))).
Proof.
  apply (render_of_empty_scene_is_the_clear_colour
           (fst example_constructed_empty) example_camera example_rgb_out
           scene_empty (snd example_constructed_empty)).
  - apply example_empty_state_ok.
  - apply example_empty_bound_scene.
  - reflexivity.
  - apply example_empty_state_ok.
  - apply example_empty_state_ok.
  - reflexivity.
  - reflexivity.
Defined.

(** X4.  [render_depth_map] of a scene without objects returns a depth
    map that holds, in every element, the clear depth that was current
    when it was called (1.0 in a context in its initial state: the
    renderer never sets another). *)
Theorem render_depth_map_of_empty_scene_is_the_clear_depth (r : Renderer)
    (camera : PerspectiveCamera) (out : ndarray GLfloat) (s : Scene)
    (w : World) :
  window_open r w ->
  bound_scene r w s ->
  _objects s = [] ->
  valid_dims (_width r) (_height r) ->
  buffers_sized r ->
  gl_pack_alignment (gl w) <= 4 ->
  nd_shape out = [_height r; _width r] ->
  Z.of_nat (length (nd_data out)) = _height r * _width r ->
  exists r' out' w',
    render_depth_map r camera out w = Ok (r', out') w'
    /\ gl_clear_depth (gl w') = gl_clear_depth (gl w)
    /\ forall h x, 0 <= h < _height r -> 0 <= x < _width r ->
         nd_get out' [h; x] = Some (gl_clear_depth (gl w)).
Proof.
  intros Hopen Hscene Hnil Hdims Hsized Halign Hshape Hlen.
  pose proof Hdims as (HW & HH & Hmax). unfold Int.MAX in Hmax.
  pose proof Hsized as (Hdepth & Hcolor).
  assert (drawable s) as Hdraw.
  { split; rewrite Hnil; [simpl; unfold Int.MAX; lia|constructor]. }
  destruct (render_depth_map_returns r camera out s w)
    as (w2 & buf & out' & Hpass & Hread & Hbuf & Halign2 & _
        & (Hs & Hl & Hflip) & Hrun); [done..|].
  destruct (render_depth_map_setup_frame r w Hopen)
    as (_ & Hscenes1 & _).
  destruct (render_objects_empty_scene r camera s
              (render_depth_map_setup r w))
    as (w2' & Hpass' & _ & Hframe & _ & _ & Hclear2 & _);
    [by apply (bound_scene_frame r s w)|done|].
  rewrite Hpass in Hpass'. injection Hpass' as <-.
  pose proof (glReadPixels_depth_content r w2 buf _ Hdims Hdepth
                ltac:(lia) Hread) as Hcontent.
  eexists (set_depth_buffer buf r), out', _.
  split; [exact Hrun|].
  split; [exact Hclear2|].
  intros h x Hh Hx. simpl in *.
  unfold nd_get. rewrite Hs, nd_offset_2.
  rewrite decide_True by nia.
  rewrite Hflip; [|done..|left; lia].
  rewrite Hcontent by lia.
  by rewrite Hframe.
Qed.

Lemma render_depth_map_of_empty_scene_is_the_clear_depth_witness :
  exists r' out' w',
    render_depth_map (fst example_constructed_empty) example_camera
      example_depth_out (snd example_constructed_empty) = Ok (r', out') w'
    /\ gl_clear_depth (gl w')
       = gl_clear_depth (gl (snd example_constructed_empty))
    /\ forall h x,
         0 <= h < _height (fst example_constructed_empty) ->
         0 <= x < _width (fst example_constructed_empty) ->
         nd_get out' [h; x]
         = Some (gl_clear_depth (gl (snd example_constructed_empty))).
Proof.
  apply (render_depth_map_of_empty_scene_is_the_clear_depth
           (fst example_constructed_empty) example_camera example_depth_out
           scene_empty (snd example_constructed_empty)).
  - apply example_empty_state_ok.
  - apply example_empty_bound_scene.
  - reflexivity.
  - apply example_empty_state_ok.
  - apply example_empty_state_ok.
  - vm_compute. discriminate.
  - reflexivity.
  - reflexivity.
Defined.

(** *** What a returning render call leaves behind *)





(** *** An output array of the wrong rank *)

(** X7.  [render] checks the rank of the caller's array only after the
    draw pass and the readback.  With an array that does not have three
    dimensions it throws [std::domain_error] at that point: the frame has
    been drawn and read, the calls made are those of a full [render]
    without the three unbinding calls at its end, and the main program and
    the renderbuffer are still bound. *)
Theorem render_rejects_a_wrong_rank_after_drawing (r : Renderer)
    (camera : PerspectiveCamera) (out : ndarray GLuint) (s : Scene)
    (w : World) :
  window_open r w ->
  bound_scene r w s ->
  drawable s ->
  valid_dims (_width r) (_height r) ->
  buffers_sized r ->
  length (nd_shape out) <> 3%nat ->
  exists w2 msg w',
    render_objects r camera (render_setup r w) = Ok tt w2
    /\ render r camera out w = Throw (domain_error msg) w'
    /\ framebuffer w' = framebuffer w2
    /\ calls w' ++ cleanup_calls
       = calls w ++ render_calls r camera (_objects s)
    /\ gl_program (gl w') = Some (_main_program r)
    /\ gl_renderbuffer_binding (gl w') = _render_buffer r.
Proof.
  intros Hopen Hscene Hdraw Hdims (Hdepth & Hcolor) Hrank.
  destruct (render_setup_frame r w Hopen)
    as (Hcalls1 & Hscenes1 & _ & _ & _ & _ & _ & Hprog1 & _ & _ & Halign1
        & Hbind1 & _).
  destruct (render_objects_spec r camera s (render_setup r w))
    as (w2 & Hpass & Hcalls2 & Hframe2 & _);
    [by apply (bound_scene_frame r s w)|done|].
  destruct Hframe2 as (_ & _ & _ & _ & _ & _ & _ & _ & _ & Hprog2
                       & _ & _ & Halign2 & _ & Hbind2 & _).
  rewrite Halign1 in Halign2. rewrite Hprog1 in Hprog2.
  rewrite Hbind1 in Hbind2.
  destruct (glReadPixels_rgb_spec r w2) as (buf & Hread & Hbuf);
    [done|done|done|].
  eexists w2, _, _.
  split; [done|].
  rewrite render_staged by done.
  rewrite (bind_Ok _ _ _ _ _ Hpass).
  rewrite (bind_Ok _ _ _ _ _ Hread).
  unfold mutable_unchecked. rewrite decide_False by done.
  unfold bind at 1. unfold throw at 1.
  split; [reflexivity|].
  split; [reflexivity|].
  split; [|by split].
  simpl. rewrite Hcalls2, Hcalls1. unfold render_calls, cleanup_calls.
  by rewrite <- !app_assoc.
Qed.

(** X8.  [render_depth_map] likewise rejects an array that does not have
    two dimensions only after the draw pass and the readback, with
    [std::domain_error] and without the three unbinding calls. *)
Theorem render_depth_map_rejects_a_wrong_rank_after_drawing (r : Renderer)
    (camera : PerspectiveCamera) (out : ndarray GLfloat) (s : Scene)
    (w : World) :
  window_open r w ->
  bound_scene r w s ->
  drawable s ->
  valid_dims (_width r) (_height r) ->
  buffers_sized r ->
  gl_pack_alignment (gl w) <= 4 ->
  length (nd_shape out) <> 2%nat ->
  exists w2 msg w',
    render_objects r camera (render_depth_map_setup r w) = Ok tt w2
    /\ render_depth_map r camera out w = Throw (domain_error msg) w'
    /\ framebuffer w' = framebuffer w2
    /\ calls w' ++ cleanup_calls
       = calls w ++ render_depth_map_calls r camera (_objects s)
    /\ gl_program (gl w') = Some (_main_program r)
    /\ gl_renderbuffer_binding (gl w') = _render_buffer r.
Proof.
  intros Hopen Hscene Hdraw Hdims (Hdepth & Hcolor) Halign Hrank.
  destruct (render_depth_map_setup_frame r w Hopen)
    as (Hcalls1 & Hscenes1 & _ & _ & _ & _ & _ & Hprog1 & _ & _ & Halign1
        & Hbind1 & _).
  destruct (render_objects_spec r camera s (render_depth_map_setup r w))
    as (w2 & Hpass & Hcalls2 & Hframe2 & _);
    [by apply (bound_scene_frame r s w)|done|].
  destruct Hframe2 as (_ & _ & _ & _ & _ & _ & _ & _ & _ & Hprog2
                       & _ & _ & Halign2 & _ & Hbind2 & _).
  rewrite Halign1 in Halign2. rewrite Hprog1 in Hprog2.
  rewrite Hbind1 in Hbind2.
  destruct (glReadPixels_depth_spec r w2) as (buf & Hread & Hbuf);
    [done|done|lia|].
  eexists w2, _, _.
  split; [done|].
  rewrite render_depth_map_staged by done.
  rewrite (bind_Ok _ _ _ _ _ Hpass).
  rewrite (bind_Ok _ _ _ _ _ Hread).
  unfold mutable_unchecked. rewrite decide_False by done.
  unfold bind at 1. unfold throw at 1.
  split; [reflexivity|].
  split; [reflexivity|].
  split; [|by split].
  simpl. rewrite Hcalls2, Hcalls1.
  unfold render_depth_map_calls, cleanup_calls.
  by rewrite <- !app_assoc.
Qed.

Lemma render_rejects_a_wrong_rank_after_drawing_witness :
  exists w2 msg w',
    render_objects example_renderer example_camera
      (render_setup example_renderer example_world) = Ok tt w2
    /\ render example_renderer example_camera example_flat_rgb_out
         example_world = Throw (domain_error msg) w'
    /\ framebuffer w' = framebuffer w2
    /\ calls w' ++ cleanup_calls
       = calls example_world
         ++ render_calls example_renderer example_camera (_objects scene_B)
    /\ gl_program (gl w') = Some (_main_program example_renderer)
    /\ gl_renderbuffer_binding (gl w') = _render_buffer example_renderer.
Proof.
  apply (render_rejects_a_wrong_rank_after_drawing example_renderer
           example_camera example_flat_rgb_out scene_B example_world).
  - apply example_window_open.
  - apply example_bound_scene.
  - apply example_drawable.
  - apply example_valid_dims.
  - apply example_buffers_sized.
  - simpl. lia.
Defined.

Lemma render_depth_map_rejects_a_wrong_rank_after_drawing_witness :
  exists w2 msg w',
    render_objects example_renderer example_camera
      (render_depth_map_setup example_renderer example_world) = Ok tt w2
    /\ render_depth_map example_renderer example_camera
         example_flat_depth_out example_world = Throw (domain_error msg) w'
    /\ framebuffer w' = framebuffer w2
    /\ calls w' ++ cleanup_calls
       = calls example_world
         ++ render_depth_map_calls example_renderer example_camera
              (_objects scene_B)
    /\ gl_program (gl w') = Some (_main_program example_renderer)
    /\ gl_renderbuffer_binding (gl w') = _render_buffer example_renderer.
Proof.
  apply (render_depth_map_rejects_a_wrong_rank_after_drawing
           example_renderer example_camera example_flat_depth_out scene_B
           example_world).
  - apply example_window_open.
  - apply example_bound_scene.
  - apply example_drawable.
  - apply example_valid_dims.
  - apply example_buffers_sized.
  - vm_compute. discriminate.
  - simpl. lia.
Defined.

(** *** A renderer without a live scene *)

(** X9.  [render_objects] reads the object list through [_scene] without
    a check.  When the pointer does not designate a live scene (never
    set, as after [Renderer(width, height)]; null; or dangling) the
    behaviour of [render_objects] is undefined, and so is that of [render]
    and [render_depth_map] unless the window has a close signal, in which
    case they never get to the scene. *)
Theorem rendering_without_a_live_scene_is_undefined (r : Renderer)
    (camera : PerspectiveCamera) (depth_out : ndarray GLfloat)
    (rgb_out : ndarray GLuint) (w : World) :
  (forall s, ~ bound_scene r w s) ->
  render_objects r camera w = Undefined
  /\ (window_open r w ->
      render r camera rgb_out w = Undefined
      /\ render_depth_map r camera depth_out w = Undefined)
  /\ (close_requested r w ->
      (exists w', render r camera rgb_out w = Ok (r, rgb_out) w')
      /\ (exists w',
            render_depth_map r camera depth_out w = Ok (r, depth_out) w')).
Proof.
  intros Hnone.
  assert (forall w0, scenes w0 = scenes w ->
            render_objects r camera w0 = Undefined) as Hpass.
  { intros w0 Hscenes. rewrite render_objects_unfold.
    destruct (_scene r) as [[|a]|] eqn:Hptr; [done| |done].
    unfold deref. unfold_calls. simpl.
    destruct (scenes w !! a) as [s|] eqn:Hs.
    - destruct (Hnone s). by exists a.
    - unfold loop_entry, render_objects_prelude. unfold_calls. simpl.
      rewrite Hscenes, Hs. done. }
  split; [by apply Hpass|].
  split.
  - intros Hopen. split.
    + rewrite render_staged by done.
      unfold bind at 1. rewrite Hpass; [done|].
      by apply render_setup_frame.
    + rewrite render_depth_map_staged by done.
      unfold bind at 1. rewrite Hpass; [done|].
      by apply render_depth_map_setup_frame.
  - intros Hclose. split.
    + destruct (render_closing r camera rgb_out w Hclose) as (w' & Hrun & _).
      by exists w'.
    + destruct (render_depth_map_closing r camera depth_out w Hclose)
        as (w' & Hrun & _).
      by exists w'.
Qed.

Lemma example_constructed_has_no_scene (s : Scene) :
  ~ bound_scene (fst example_constructed) (snd example_constructed) s.
Proof. by intros (a & Hptr & _). Qed.

Lemma rendering_without_a_live_scene_is_undefined_witness :
  render_objects (fst example_constructed) example_camera
    (snd example_constructed) = Undefined
  /\ (window_open (fst example_constructed) (snd example_constructed) ->
      render (fst example_constructed) example_camera example_rgb_out
        (snd example_constructed) = Undefined
      /\ render_depth_map (fst example_constructed) example_camera
           example_depth_out (snd example_constructed) = Undefined)
  /\ (close_requested (fst example_constructed) (snd example_constructed) ->
      (exists w',
         render (fst example_constructed) example_camera example_rgb_out
           (snd example_constructed)
         = Ok (fst example_constructed, example_rgb_out) w')
      /\ (exists w',
            render_depth_map (fst example_constructed) example_camera
              example_depth_out (snd example_constructed)
            = Ok (fst example_constructed, example_depth_out) w')).
Proof.
  apply (rendering_without_a_live_scene_is_undefined
           (fst example_constructed) example_camera example_depth_out
           example_rgb_out (snd example_constructed)).
  apply example_constructed_has_no_scene.
Defined.

(** *** Construction on a scene *)

Lemma initialize_window (width height : Z) (w w' : World) (r : Renderer) :
  initialize width height w = Ok r w' ->
  _window r = glfw_next_window w
  /\ glfw_close_flags w' = glfw_close_flags w
  /\ glfw_current w' = Some (_window r)
  /\ scenes w' = scenes w
  /\ driver w' = driver w
  /\ gl_clear_depth (gl w') = gl_clear_depth gl_initial.
Proof.
  unfold initialize. unfold_calls. simpl.
  destruct (glfw_initialized w || glfw_platform_ok w); simpl; [|done].
  unfold make_unique_array.
  case_decide; simpl; [|done]. case_decide; simpl; [|done].
  destruct (platform_apple w); simpl; intros [= <- <-]; by repeat split.
Qed.

(** X10.  [Renderer(scene, width, height)] on a live scene, when GLFW
    initialises and the dimensions are valid, returns the renderer that
    [Renderer(width, height)] returns with the scene set on it: its
    context is current, its buffers have the sizes of the dimensions, and
    its scene pointer is the scene given.  Unless the new window has a
    close signal already, [render] can be called on it directly: it
    returns, having made the calls of a frame of the scene's objects. *)
Theorem construction_on_a_scene_is_ready_to_render (a : positive)
    (s : Scene) (width height : Z) (camera : PerspectiveCamera)
    (out : ndarray GLuint) (w : World) :
  ~ glfwInit_fails w ->
  valid_dims width height ->
  scenes w !! a = Some s ->
  drawable s ->
  glfw_next_window w ∉ glfw_close_flags w ->
  nd_shape out = [height; width; 3] ->
  Z.of_nat (length (nd_data out)) = height * width * 3 ->
  exists r0 w0 r w1 r' out' w2,
    Renderer_new width height w = Ok r0 w0
    /\ Renderer_new_scene (Addr a) width height w = Ok r w1
    /\ r = set_scene_fields (Addr a) (_vao r) r0
    /\ calls w1 = calls w0 ++ set_scene_calls r0 (Addr a)
    /\ glfw_current w1 = Some (_window r)
    /\ _width r = width /\ _height r = height
    /\ buffers_sized r
    /\ bound_scene r w1 s
    /\ render r camera out w1 = Ok (r', out') w2
    /\ calls w2 = calls w1 ++ render_calls r camera (_objects s).
Proof.
  intros Hinit Hdims Hs Hdraw Hfresh Hshape Hlen.
  pose proof Hdims as (HW & HH & Hmax).
  destruct (initialize_succeeds width height w Hinit Hdims)
    as (r0 & w0 & Hnew & Hw & Hh & Hdepth & Hcolor & _ & _ & _ & _ & _ & _
        & _ & Hscenes0).
  destruct (initialize_window width height w w0 r0 Hnew)
    as (Hwin & Hflags0 & Hcur0 & _).
  destruct (set_scene_spec r0 a s w0) as (w1 & Hset & Hcalls1 & Hscenes1
                                          & Hflags1 & _);
    [by rewrite Hscenes0|].
  set (r := set_scene_fields (Addr a) {| vao_slots := _objects s |} r0)
    in *.
  assert (buffers_sized r) as Hsized.
  { split; simpl; rewrite ?Hdepth, ?Hcolor, length_replicate, Hw, Hh; nia. }
  assert (bound_scene r w1 s) as Hbound.
  { exists a. split; [done|]. by rewrite Hscenes1, Hscenes0. }
  destruct (render_open r camera out s w1)
    as (buf & out' & w2 & Hrun & _ & _ & Hcalls2 & _);
    [|done|done|simpl; by rewrite Hw, Hh|done|simpl; by rewrite Hw, Hh
     |simpl; by rewrite Hw, Hh|].
  { unfold window_open. simpl. by rewrite Hflags1, Hflags0, Hwin. }
  exists r0, w0, r, w1, (set_color_buffer buf r), out', w2.
  split; [done|].
  split; [unfold Renderer_new_scene; by rewrite (bind_Ok _ _ _ _ _ Hnew)|].
  split; [done|]. split; [done|].
  split.
  { unfold set_scene in Hset. unfold_calls. unfold vao_build in Hset.
    unfold_calls. simpl in Hset.
    destruct (deref (Addr a) _) as [s' w'| |] eqn:Hd in Hset; [|done..].
    unfold deref in Hd. unfold_calls. simpl in Hd.
    destruct (scenes w0 !! a); simpl in Hd; [|done].
    injection Hd as <- <-. injection Hset as _ <-. simpl. done. }
  split; [done|]. split; [done|]. split; [done|]. split; [done|].
  by split.
Qed.

Lemma construction_on_a_scene_is_ready_to_render_witness :
  exists r0 w0 r w1 r' out' w2,
    Renderer_new 2 2 world0 = Ok r0 w0
    /\ Renderer_new_scene (Addr 2) 2 2 world0 = Ok r w1
    /\ r = set_scene_fields (Addr 2) (_vao r) r0
    /\ calls w1 = calls w0 ++ set_scene_calls r0 (Addr 2)
    /\ glfw_current w1 = Some (_window r)
    /\ _width r = 2 /\ _height r = 2
    /\ buffers_sized r
    /\ bound_scene r w1 scene_B
    /\ render r example_camera example_rgb_out w1 = Ok (r', out') w2
    /\ calls w2 = calls w1 ++ render_calls r example_camera (_objects scene_B).
Proof.
  apply (construction_on_a_scene_is_ready_to_render 2 scene_B 2 2
           example_camera example_rgb_out world0).
  - vm_compute. discriminate.
  - repeat split; vm_compute; discriminate.
  - reflexivity.
  - apply example_drawable.
  - simpl. apply not_elem_of_nil.
  - reflexivity.
  - reflexivity.
Defined.

(** *** The overloads that take a scene *)

(** X11.  [render(scene, camera, array)] on an open window is [set_scene]
    followed by [render]: whatever scene the renderer had (or none), it
    returns with the renderer bound to the scene given and the geometry
    binding built from it, having made the two calls of [set_scene] and
    then the calls of a frame of that scene's objects; the array holds the
    flipped readback. *)
Theorem render_with_scene_rebinds_then_renders (r : Renderer)
    (a : positive) (s : Scene) (camera : PerspectiveCamera)
    (out : ndarray GLuint) (w : World) :
  window_open r w ->
  scenes w !! a = Some s ->
  drawable s ->
  valid_dims (_width r) (_height r) ->
  buffers_sized r ->
  nd_shape out = [_height r; _width r; 3] ->
  Z.of_nat (length (nd_data out)) = _height r * _width r * 3 ->
  exists r' out' w',
    render_scene r (Addr a) camera out w = Ok (r', out') w'
    /\ _scene r' = Some (Addr a)
    /\ vao_slots (_vao r') = _objects s
    /\ rgb_flip_inv r' (_height r) 0 out'
    /\ calls w'
       = calls w ++ set_scene_calls r (Addr a)
         ++ render_calls r camera (_objects s).
Proof.
  intros Hopen Hs Hdraw Hdims Hsized Hshape Hlen.
  destruct (set_scene_spec r a s w Hs)
    as (w1 & Hset & Hcalls1 & Hscenes1 & Hflags1 & _).
  set (r1 := set_scene_fields (Addr a) {| vao_slots := _objects s |} r)
    in *.
  destruct (render_open r1 camera out s w1)
    as (buf & out' & w2 & Hrun & _ & Hinv & Hcalls2 & _);
    [|exists a; split; [done|by rewrite Hscenes1]|done..|].
  { unfold window_open. simpl. by rewrite Hflags1. }
  exists (set_color_buffer buf r1), out', w2.
  split.
  { unfold render_scene. by rewrite (bind_Ok _ _ _ _ _ Hset). }
  split; [done|]. split; [done|]. split; [done|].
  by rewrite Hcalls2, Hcalls1, <- app_assoc.
Qed.

Lemma render_with_scene_rebinds_then_renders_witness :
  exists r' out' w',
    render_scene example_renderer (Addr 1) example_camera example_rgb_out
      example_world = Ok (r', out') w'
    /\ _scene r' = Some (Addr 1)
    /\ vao_slots (_vao r') = _objects scene_A
    /\ rgb_flip_inv r' (_height example_renderer) 0 out'
    /\ calls w'
       = calls example_world ++ set_scene_calls example_renderer (Addr 1)
         ++ render_calls example_renderer example_camera (_objects scene_A).
Proof.
  apply (render_with_scene_rebinds_then_renders example_renderer 1 scene_A
           example_camera example_rgb_out example_world).
  - apply example_window_open.
  - reflexivity.
  - split; [vm_compute; discriminate|].
    repeat constructor; vm_compute; discriminate.
  - apply example_valid_dims.
  - apply example_buffers_sized.
  - reflexivity.
  - reflexivity.
Defined.

(** X12.  [render_depth_map(scene, camera, array)] on an open window is
    [set_scene] followed by [render_depth_map], with the same effect on
    the renderer's scene and geometry binding. *)
Theorem render_depth_map_with_scene_rebinds_then_renders (r : Renderer)
    (a : positive) (s : Scene) (camera : PerspectiveCamera)
    (out : ndarray GLfloat) (w : World) :
  window_open r w ->
  scenes w !! a = Some s ->
  drawable s ->
  valid_dims (_width r) (_height r) ->
  buffers_sized r ->
  gl_pack_alignment (gl w) <= 4 ->
  nd_shape out = [_height r; _width r] ->
  Z.of_nat (length (nd_data out)) = _height r * _width r ->
  exists r' out' w',
    render_depth_map_scene r (Addr a) camera out w = Ok (r', out') w'
    /\ _scene r' = Some (Addr a)
    /\ vao_slots (_vao r') = _objects s
    /\ depth_flip_inv r' (_height r) 0 out'
    /\ calls w'
       = calls w ++ set_scene_calls r (Addr a)
         ++ render_depth_map_calls r camera (_objects s).
Proof.
  intros Hopen Hs Hdraw Hdims Hsized Halign Hshape Hlen.
  destruct (set_scene_spec r a s w Hs)
    as (w1 & Hset & Hcalls1 & Hscenes1 & Hflags1 & Hgl1 & _).
  set (r1 := set_scene_fields (Addr a) {| vao_slots := _objects s |} r)
    in *.
  destruct (render_depth_map_open r1 camera out s w1)
    as (buf & out' & w2 & Hrun & _ & Hinv & Hcalls2 & _);
    [|exists a; split; [done|by rewrite Hscenes1]|done|done|done
     |by rewrite Hgl1|done|done|].
  { unfold window_open. simpl. by rewrite Hflags1. }
  exists (set_depth_buffer buf r1), out', w2.
  split.
  { unfold render_depth_map_scene. by rewrite (bind_Ok _ _ _ _ _ Hset). }
  split; [done|]. split; [done|]. split; [done|].
  by rewrite Hcalls2, Hcalls1, <- app_assoc.
Qed.

Lemma render_depth_map_with_scene_rebinds_then_renders_witness :
  exists r' out' w',
    render_depth_map_scene example_renderer (Addr 1) example_camera
      example_depth_out example_world = Ok (r', out') w'
    /\ _scene r' = Some (Addr 1)
    /\ vao_slots (_vao r') = _objects scene_A
    /\ depth_flip_inv r' (_height example_renderer) 0 out'
    /\ calls w'
       = calls example_world ++ set_scene_calls example_renderer (Addr 1)
         ++ render_depth_map_calls example_renderer example_camera
              (_objects scene_A).
Proof.
  apply (render_depth_map_with_scene_rebinds_then_renders example_renderer
           1 scene_A example_camera example_depth_out example_world).
  - apply example_window_open.
  - reflexivity.
  - split; [vm_compute; discriminate|].
    repeat constructor; vm_compute; discriminate.
  - apply example_valid_dims.
  - apply example_buffers_sized.
  - vm_compute. discriminate.
  - reflexivity.
  - reflexivity.
Defined.

(** X13.  With a close signal on the window, the overloads that take a
    scene still run [set_scene] first: the renderer comes back bound to
    the scene given, with the geometry binding rebuilt, and only then is
    the window torn down.  The calls are the two of [set_scene] and the
    three of the close branch; nothing is drawn and the caller's array is
    returned as it was passed. *)
Theorem overloads_rebind_the_scene_before_the_close_check (r : Renderer)
    (a : positive) (s : Scene) (camera : PerspectiveCamera)
    (depth_out : ndarray GLfloat) (rgb_out : ndarray GLuint) (w : World) :
  close_requested r w ->
  scenes w !! a = Some s ->
  (exists w',
     render_scene r (Addr a) camera rgb_out w
     = Ok (set_scene_fields (Addr a) {| vao_slots := _objects s |} r,
           rgb_out) w'
     /\ calls w' = calls w ++ set_scene_calls r (Addr a) ++ teardown_calls r
     /\ framebuffer w' = framebuffer w
     /\ glfw_windows w' = [])
  /\
  (exists w',
     render_depth_map_scene r (Addr a) camera depth_out w
     = Ok (set_scene_fields (Addr a) {| vao_slots := _objects s |} r,
           depth_out) w'
     /\ calls w' = calls w ++ set_scene_calls r (Addr a) ++ teardown_calls r
     /\ framebuffer w' = framebuffer w
     /\ glfw_windows w' = []).
Proof.
  intros Hclose Hs.
  destruct (set_scene_spec r a s w Hs)
    as (w1 & Hset & Hcalls1 & Hscenes1 & Hflags1 & _ & Hfb1).
  set (r1 := set_scene_fields (Addr a) {| vao_slots := _objects s |} r)
    in *.
  assert (close_requested r1 w1) as Hclose1.
  { unfold close_requested. simpl. by rewrite Hflags1. }
  split.
  - destruct (render_closing r1 camera rgb_out w1 Hclose1)
      as (w2 & Hrun & Hcalls2 & _ & Hfb2 & _ & _ & Hwin2 & _).
    exists w2. split.
    { unfold render_scene. by rewrite (bind_Ok _ _ _ _ _ Hset). }
    split; [by rewrite Hcalls2, Hcalls1, <- app_assoc|].
    split; [by rewrite Hfb2|done].
  - destruct (render_depth_map_closing r1 camera depth_out w1 Hclose1)
      as (w2 & Hrun & Hcalls2 & _ & Hfb2 & _ & _ & Hwin2 & _).
    exists w2. split.
    { unfold render_depth_map_scene. by rewrite (bind_Ok _ _ _ _ _ Hset). }
    split; [by rewrite Hcalls2, Hcalls1, <- app_assoc|].
    split; [by rewrite Hfb2|done].
Qed.

Lemma overloads_rebind_the_scene_before_the_close_check_witness :
  (exists w',
     render_scene example_renderer (Addr 1) example_camera example_rgb_out
       example_closing_world
     = Ok (set_scene_fields (Addr 1) {| vao_slots := _objects scene_A |}
             example_renderer, example_rgb_out) w'
     /\ calls w' = calls example_closing_world
                   ++ set_scene_calls example_renderer (Addr 1)
                   ++ teardown_calls example_renderer
     /\ framebuffer w' = framebuffer example_closing_world
     /\ glfw_windows w' = [])
  /\
  (exists w',
     render_depth_map_scene example_renderer (Addr 1) example_camera
       example_depth_out example_closing_world
     = Ok (set_scene_fields (Addr 1) {| vao_slots := _objects scene_A |}
             example_renderer, example_depth_out) w'
     /\ calls w' = calls example_closing_world
                   ++ set_scene_calls example_renderer (Addr 1)
                   ++ teardown_calls example_renderer
     /\ framebuffer w' = framebuffer example_closing_world
     /\ glfw_windows w' = []).
Proof.
  apply (overloads_rebind_the_scene_before_the_close_check example_renderer
           1 scene_A example_camera example_depth_out example_rgb_out
           example_closing_world).
  - apply example_close_requested.
  - reflexivity.
Defined.

(** *** Sequences of operations that return *)

Lemma ready_set_scene (r : Renderer) (p : ScenePtr) (w : World) :
  ready r w ->
  scene_ok (scenes w) p ->
  exists r' w',
    set_scene r p w = Ok r' w'
    /\ ready r' w' /\ scenes w' = scenes w
    /\ _width r' = _width r /\ _height r' = _height r.
Proof.
  intros (Hopen & Hdims & Hsized & Halign & _) (a & s & -> & Hs & Hdraw).
  destruct (set_scene_spec r a s w Hs)
    as (w' & Hset & _ & Hscenes & Hflags & Hgl & _).
  eexists _, w'. split; [exact Hset|].
  split; [|by repeat split].
  split; [unfold window_open; simpl; by rewrite Hflags|].
  split; [done|]. split; [done|]. split; [by rewrite Hgl|].
  exists s. split; [|done]. exists a. split; [done|]. by rewrite Hscenes.
Qed.

Lemma ready_render (r : Renderer) (camera : PerspectiveCamera)
    (out : ndarray GLuint) (w : World) :
  ready r w ->
  rgb_shaped (_width r) (_height r) out ->
  exists r' out' w',
    render r camera out w = Ok (r', out') w'
    /\ ready r' w' /\ scenes w' = scenes w
    /\ _width r' = _width r /\ _height r' = _height r.
Proof.
  intros (Hopen & Hdims & Hsized & Halign & s & Hbound & Hdraw)
         (Hshape & Hlen).
  destruct (render_open r camera out s w)
    as (buf & out' & w' & Hrun & Hbuf & _ & _ & Hscenes & Hflags & Halign'
        & _); [done..|].
  eexists _, out', w'. split; [exact Hrun|].
  split; [|by repeat split].
  split; [unfold window_open; simpl; by rewrite Hflags|].
  split; [done|].
  split; [destruct Hsized; split; simpl; [done|by rewrite Hbuf]|].
  split; [lia|].
  exists s. split; [|done]. by apply (bound_scene_frame _ s w).
Qed.

Lemma ready_render_depth_map (r : Renderer) (camera : PerspectiveCamera)
    (out : ndarray GLfloat) (w : World) :
  ready r w ->
  depth_shaped (_width r) (_height r) out ->
  exists r' out' w',
    render_depth_map r camera out w = Ok (r', out') w'
    /\ ready r' w' /\ scenes w' = scenes w
    /\ _width r' = _width r /\ _height r' = _height r.
Proof.
  intros (Hopen & Hdims & Hsized & Halign & s & Hbound & Hdraw)
         (Hshape & Hlen).
  destruct (render_depth_map_open r camera out s w)
    as (buf & out' & w' & Hrun & Hbuf & _ & _ & Hscenes & Hflags & Halign'
        & _); [done..|].
  eexists _, out', w'. split; [exact Hrun|].
  split; [|by repeat split].
  split; [unfold window_open; simpl; by rewrite Hflags|].
  split; [done|].
  split; [destruct Hsized; split; simpl; [by rewrite Hbuf|done]|].
  split; [lia|].
  exists s. split; [|done]. by apply (bound_scene_frame _ s w).
Qed.

Lemma ready_run_op (r : Renderer) (op : Op) (w : World) :
  ready r w ->
  op_ok (_width r) (_height r) (scenes w) op ->
  exists r' w',
    run_op r op w = Ok r' w'
    /\ ready r' w' /\ scenes w' = scenes w
    /\ _width r' = _width r /\ _height r' = _height r.
Proof.
  intros Hready Hop.
  destruct op as [p|camera|camera out|camera out|p camera out|p camera out];
    simpl in *.
  - by apply ready_set_scene.
  - destruct Hready as (Hopen & Hdims & Hsized & Halign & s & Hbound & Hdraw).
    destruct (render_objects_spec r camera s w Hbound Hdraw)
      as (w' & Hrun & _ & Hframe & _).
    destruct Hframe as (_ & _ & _ & _ & Hflags & _ & _ & Hscenes & _ & _
                        & _ & _ & Halign' & _).
    exists r, w'. split; [by rewrite (bind_Ok _ _ _ _ _ Hrun)|].
    split; [|by repeat split].
    split; [unfold window_open; by rewrite Hflags|].
    split; [done|]. split; [done|]. split; [lia|].
    exists s. split; [|done]. by apply (bound_scene_frame _ s w).
  - destruct (ready_render_depth_map r camera out w)
      as (r' & out' & w' & Hrun & Hrest); [done..|].
    exists r', w'. split; [by rewrite (bind_Ok _ _ _ _ _ Hrun)|done].
  - destruct (ready_render r camera out w)
      as (r' & out' & w' & Hrun & Hrest); [done..|].
    exists r', w'. split; [by rewrite (bind_Ok _ _ _ _ _ Hrun)|done].
  - destruct Hop as (Hp & Hout).
    destruct (ready_set_scene r p w)
      as (r1 & w1 & Hset & Hready1 & Hscenes1 & Hw1 & Hh1); [done..|].
    destruct (ready_render_depth_map r1 camera out w1)
      as (r' & out' & w' & Hrun & Hready' & Hscenes' & Hw' & Hh');
      [done|by rewrite Hw1, Hh1|].
    exists r', w'. split.
    { assert (render_depth_map_scene r p camera out w = Ok (r', out') w')
        as Hboth.
      { unfold render_depth_map_scene.
        by rewrite (bind_Ok _ _ _ _ _ Hset). }
      by rewrite (bind_Ok _ _ _ _ _ Hboth). }
    split; [done|]. split; [congruence|]. split; congruence.
  - destruct Hop as (Hp & Hout).
    destruct (ready_set_scene r p w)
      as (r1 & w1 & Hset & Hready1 & Hscenes1 & Hw1 & Hh1); [done..|].
    destruct (ready_render r1 camera out w1)
      as (r' & out' & w' & Hrun & Hready' & Hscenes' & Hw' & Hh');
      [done|by rewrite Hw1, Hh1|].
    exists r', w'. split.
    { assert (render_scene r p camera out w = Ok (r', out') w') as Hboth.
      { unfold render_scene. by rewrite (bind_Ok _ _ _ _ _ Hset). }
      by rewrite (bind_Ok _ _ _ _ _ Hboth). }
    split; [done|]. split; [congruence|]. split; congruence.
Qed.

(** X14.  A renderer that is ready (window without close signal, valid
    dimensions, buffers of their sizes, a live drawable scene set, pack
    alignment at most 4) runs every sequence of [set_scene],
    [render_objects], [render_depth_map] and [render] calls, with or
    without a scene argument, to its end when each call is given a live
    drawable scene and an array of the renderer's shape: no call throws or
    has undefined behaviour, and the renderer is ready again afterwards,
    with its dimensions and the caller's scenes unchanged. *)
Theorem operations_on_a_ready_renderer_return (ops : list Op) :
  forall (r : Renderer) (w : World),
    ready r w ->
    Forall (op_ok (_width r) (_height r) (scenes w)) ops ->
    exists r' w',
      run_ops r ops w = Ok r' w'
      /\ ready r' w' /\ scenes w' = scenes w
      /\ _width r' = _width r /\ _height r' = _height r.
Proof.
  induction ops as [|op ops IH]; intros r w Hready Hops; simpl.
  - by exists r, w.
  - apply Forall_cons in Hops as (Hop & Hops).
    destruct (ready_run_op r op w Hready Hop)
      as (r1 & w1 & Hrun1 & Hready1 & Hscenes1 & Hw1 & Hh1).
    destruct (IH r1 w1 Hready1) as (r' & w' & Hrun & Hready' & Hscenes'
                                    & Hw' & Hh').
    { by rewrite Hw1, Hh1, Hscenes1. }
    exists r', w'. split; [by rewrite (bind_Ok _ _ _ _ _ Hrun1)|].
    split; [done|]. split; [congruence|]. split; congruence.
Qed.

Lemma example_ready : ready example_renderer example_world.
Proof.
  split; [apply example_window_open|].
  split; [apply example_valid_dims|].
  split; [apply example_buffers_sized|].
  split; [vm_compute; discriminate|].
  exists scene_B. split; [apply example_bound_scene|apply example_drawable].
Qed.

Lemma example_scenes_ok (a : positive) :
  (a <= 3)%positive -> scene_ok (scenes example_world) (Addr a).
Proof.
  intros Ha.
  assert (a = 1 \/ a = 2 \/ a = 3)%positive as [-> | [-> | ->]] by lia.
  - exists 1%positive, scene_A. split; [done|]. split; [reflexivity|].
    split; [vm_compute; discriminate|].
    repeat constructor; vm_compute; discriminate.
  - exists 2%positive, scene_B. split; [done|]. split; [reflexivity|].
    apply example_drawable.
  - exists 3%positive, scene_empty. split; [done|]. split; [reflexivity|].
    split; [vm_compute; discriminate|constructor].
Qed.

Lemma operations_on_a_ready_renderer_return_witness :
  exists r' w',
    run_ops example_renderer example_ops example_world = Ok r' w'
    /\ ready r' w' /\ scenes w' = scenes example_world
    /\ _width r' = _width example_renderer
    /\ _height r' = _height example_renderer.
Proof.
  apply (operations_on_a_ready_renderer_return example_ops example_renderer
           example_world).
  - apply example_ready.
  - repeat (apply Forall_cons; split);
      [| | | | | |by apply Forall_nil];
      simpl; repeat split; try reflexivity;
      apply example_scenes_ok; lia.
Defined.

(** *** Two renderers *)

Lemma initialize_windows (width height : Z) (w w' : World) (r : Renderer) :
  initialize width height w = Ok r w' ->
  _window r = glfw_next_window w
  /\ glfw_next_window w' = glfw_next_window w + 1
  /\ glfw_windows w' = _window r :: glfw_windows w
  /\ glfw_initialized w' = true
  /\ glfw_current w' = Some (_window r).
Proof.
  unfold initialize. unfold_calls. simpl.
  destruct (glfw_initialized w || glfw_platform_ok w) eqn:Hok; simpl;
    [|done].
  unfold make_unique_array.
  case_decide; simpl; [|done]. case_decide; simpl; [|done].
  destruct (platform_apple w); simpl; intros [= <- <-]; by repeat split.
Qed.

(** X15.  GLFW is shared by all renderers of the process, and each one
    terminates it.  With two renderers constructed one after the other,
    each has a window of its own and the context of the second is the
    current one; the destructor of the first, and likewise a [render] call
    on the first that finds a close signal on its window, destroys the
    window of the second as well and leaves GLFW terminated with no
    current context. *)
Theorem one_renderer_terminates_glfw_for_all (width1 height1 width2
    height2 : Z) (w w1 w2 : World) (r1 r2 : Renderer)
    (camera : PerspectiveCamera) (out : ndarray GLuint) :
  Renderer_new width1 height1 w = Ok r1 w1 ->
  Renderer_new width2 height2 w1 = Ok r2 w2 ->
  _window r1 <> _window r2
  /\ _window r1 ∈ glfw_windows w2
  /\ _window r2 ∈ glfw_windows w2
  /\ glfw_initialized w2 = true
  /\ glfw_current w2 = Some (_window r2)
  /\ (exists w3,
        Renderer_delete r1 w2 = Ok tt w3
        /\ glfw_windows w3 = []
        /\ glfw_initialized w3 = false
        /\ glfw_current w3 = None)
  /\ (exists w3,
        render r1 camera out (signal_close (_window r1) w2)
        = Ok (r1, out) w3
        /\ glfw_windows w3 = []
        /\ glfw_initialized w3 = false
        /\ glfw_current w3 = None).
Proof.
  unfold Renderer_new. intros Hnew1 Hnew2.
  destruct (initialize_windows _ _ _ _ _ Hnew1)
    as (Hwin1 & Hnext1 & Hwins1 & _ & _).
  destruct (initialize_windows _ _ _ _ _ Hnew2)
    as (Hwin2 & Hnext2 & Hwins2 & Hinit2 & Hcur2).
  split; [lia|].
  split.
  { rewrite Hwins2, Hwins1. apply list_elem_of_further, list_elem_of_here. }
  split; [rewrite Hwins2; apply list_elem_of_here|].
  split; [done|]. split; [done|].
  split.
  - destruct (teardown_extends r1 w2)
      as (w3 & Hrun & _ & _ & _ & _ & _ & Hwins3 & Hinit3 & Hcur3).
    by exists w3.
  - destruct (render_closing r1 camera out (signal_close (_window r1) w2))
      as (w3 & Hrun & _ & _ & _ & _ & _ & Hwins3 & Hinit3 & Hcur3).
    { unfold close_requested. simpl. apply list_elem_of_here. }
    by exists w3.
Qed.

Lemma one_renderer_terminates_glfw_for_all_witness :
  _window (fst example_constructed) <> _window (fst example_second)
  /\ _window (fst example_constructed) ∈ glfw_windows (snd example_second)
  /\ _window (fst example_second) ∈ glfw_windows (snd example_second)
  /\ glfw_initialized (snd example_second) = true
  /\ glfw_current (snd example_second)
     = Some (_window (fst example_second))
  /\ (exists w3,
        Renderer_delete (fst example_constructed) (snd example_second)
        = Ok tt w3
        /\ glfw_windows w3 = []
        /\ glfw_initialized w3 = false
        /\ glfw_current w3 = None)
  /\ (exists w3,
        render (fst example_constructed) example_camera example_rgb_out
          (signal_close (_window (fst example_constructed))
             (snd example_second))
        = Ok (fst example_constructed, example_rgb_out) w3
        /\ glfw_windows w3 = []
        /\ glfw_initialized w3 = false
        /\ glfw_current w3 = None).
Proof.
  apply (one_renderer_terminates_glfw_for_all 2 2 3 1 world0
           (snd example_constructed) (snd example_second)
           (fst example_constructed) (fst example_second)
           example_camera example_rgb_out).
  - vm_compute. reflexivity.
  - vm_compute. reflexivity.
Defined.

(** *** Arrays larger than the frame *)

Lemma flip_depth_block (r : Renderer) (a0 : ndarray GLfloat) (H2 W2 : Z) :
  valid_dims (_width r) (_height r) ->
  Z.of_nat (length (_depth_buffer r)) = _width r * _height r ->
  nd_shape a0 = [H2; W2] ->
  Z.of_nat (length (nd_data a0)) = H2 * W2 ->
  _height r <= H2 -> _width r <= W2 ->
  exists a',
    flip_depth r a0 = Some a'
    /\ depth_block_inv r a0 H2 W2 (_height r) 0 a'.
Proof.
  intros Hdims Hbuf Hshape Hlen HH2 HW2.
  pose proof Hdims as (HW & HH & Hmax).
  unfold flip_depth.
  apply (for_int_inv (fun h a => depth_block_inv r a0 H2 W2 h 0 a));
    [done| |].
  { split; [done|]. split; [done|].
    split; [intros h' w' Hh' Hw' [?|[? ?]]; lia|done]. }
  intros h a1 Hh Hinv.
  destruct (for_int_inv (fun w a => depth_block_inv r a0 H2 W2 h w a)
              (_width r)
              (fun w depth_map =>
                 v ← array_get (_depth_buffer r)
                       (Int.add
                          (Int.mul (Int.sub (Int.sub (_height r) h) 1)
                             (_width r)) w);
                 nd_set depth_map [h; w] v) a1)
    as (a2 & Hrun & Hinv2); [done|done| |].
  - intros w a3 Hw (Hs3 & Hl3 & Hc3 & Hu3).
    destruct (depth_index r h w Hdims Hh Hw) as (-> & Hidx).
    unfold Int.MAX in Hmax.
    rewrite array_get_lookup by lia.
    destruct (lookup_lt_is_Some_2 (_depth_buffer r)
                (Z.to_nat ((_height r - 1 - h) * _width r + w)))
      as (v & Hv); [lia|].
    rewrite Hv. simpl. unfold nd_set. rewrite Hs3, nd_offset_2.
    rewrite decide_True by nia.
    eexists. split; [done|].
    unfold depth_block_inv. simpl.
    split; [done|]. split; [by rewrite length_insert|].
    split.
    + intros h' w' Hh' Hw' Hcb.
      destruct (decide (h' * W2 + w' = h * W2 + w)) as [Heq|Hne].
      * apply cell_offset_inj in Heq as (-> & ->); [|lia..].
        rewrite list_lookup_insert_eq by nia. done.
      * rewrite list_lookup_insert_ne by nia.
        apply Hc3; [done..|].
        destruct Hcb as [?|[-> ?]]; [by left|].
        right. split; [done|].
        destruct (decide (w' = w)) as [->|]; [done|lia].
    + intros i j Hi Hj Hout.
      destruct (decide (i * W2 + j = h * W2 + w)) as [Heq|Hne].
      * apply cell_offset_inj in Heq as (-> & ->); [|lia..].
        exfalso. apply Hout. split; [lia|]. split; [lia|].
        right. lia.
      * rewrite list_lookup_insert_ne by nia.
        apply Hu3; [done..|].
        intros (? & ? & Hcb). apply Hout. split; [done|]. split; [done|].
        destruct Hcb as [?|[-> ?]]; [by left|right; lia].
  - exists a2. split; [done|].
    destruct Hinv2 as (Hs2 & Hl2 & Hc2 & Hu2).
    split; [done|]. split; [done|].
    split.
    + intros h' w' Hh' Hw' [?|[? ?]]; [|lia].
      apply Hc2; [done..|].
      destruct (decide (h' = h)) as [->|]; [right; lia|left; lia].
    + intros i j Hi Hj Hout. apply Hu2; [done..|].
      intros (? & ? & Hcb). apply Hout. split; [done|]. split; [done|].
      left. destruct Hcb as [?|[-> ?]]; lia.
Qed.

Lemma element_offset_inj (W2 C2 i j k i' j' k' : Z) :
  0 <= j < W2 -> 0 <= j' < W2 -> 0 <= k < C2 -> 0 <= k' < C2 ->
  (i * W2 + j) * C2 + k = (i' * W2 + j') * C2 + k' ->
  i = i' /\ j = j' /\ k = k'.
Proof.
  intros Hj Hj' Hk Hk' Heq.
  apply cell_offset_inj in Heq as (Hcell & ->); [|done..].
  by apply cell_offset_inj in Hcell as (-> & ->).
Qed.

Lemma element_offset_bound (H2 W2 C2 i j k : Z) :
  0 <= i < H2 -> 0 <= j < W2 -> 0 <= k < C2 ->
  0 <= (i * W2 + j) * C2 + k < H2 * W2 * C2.
Proof.
  intros Hi Hj Hk.
  assert (0 <= i * W2 + j <= H2 * W2 - 1) by nia.
  nia.
Qed.

Lemma nd_set_element (a : ndarray GLuint) (H2 W2 C2 h w c : Z)
    (v : GLuint) :
  nd_shape a = [H2; W2; C2] ->
  0 <= (h * W2 + w) * C2 + c < Z.of_nat (length (nd_data a)) ->
  nd_set a [h; w; c] v
  = Some {| nd_shape := [H2; W2; C2];
            nd_data :=
              <[Z.to_nat ((h * W2 + w) * C2 + c) := v]> (nd_data a) |}.
Proof.
  intros Hs Hoff. unfold nd_set. rewrite Hs, nd_offset_3.
  by rewrite decide_True.
Qed.

Lemma flip_rgb_block (r : Renderer) (a0 : ndarray GLuint) (H2 W2 C2 : Z) :
  valid_dims (_width r) (_height r) ->
  Z.of_nat (length (_color_buffer r)) = _width r * _height r * 3 ->
  nd_shape a0 = [H2; W2; C2] ->
  Z.of_nat (length (nd_data a0)) = H2 * W2 * C2 ->
  _height r <= H2 -> _width r <= W2 -> 3 <= C2 ->
  exists a',
    flip_rgb r a0 = Some a'
    /\ rgb_block_inv r a0 H2 W2 C2 (_height r) 0 a'.
Proof.
  intros Hdims Hbuf Hshape Hlen HH2 HW2 HC2.
  pose proof Hdims as (HW & HH & Hmax).
  unfold flip_rgb.
  apply (for_int_inv (fun h a => rgb_block_inv r a0 H2 W2 C2 h 0 a));
    [done| |].
  { split; [done|]. split; [done|].
    split; [intros h' w' c Hh' Hw' Hc [?|[? ?]]; lia|done]. }
  intros h a1 Hh Hinv.
  destruct (for_int_inv (fun w a => rgb_block_inv r a0 H2 W2 C2 h w a)
              (_width r)
              (fun w rgb_map =>
                 c0 ← array_get (_color_buffer r) (color_index r h w 0);
                 rgb_map ← nd_set rgb_map [h; w; 0] (GLuint_of_GLubyte c0);
                 c1 ← array_get (_color_buffer r) (color_index r h w 1);
                 rgb_map ← nd_set rgb_map [h; w; 1] (GLuint_of_GLubyte c1);
                 c2 ← array_get (_color_buffer r) (color_index r h w 2);
                 nd_set rgb_map [h; w; 2] (GLuint_of_GLubyte c2)) a1)
    as (a2 & Hrun & Hinv2); [done|done| |].
  - intros w a3 Hw (Hs3 & Hl3 & Hc3 & Hu3).
    destruct (color_buffer_get r h w 0) as (b0 & -> & Hb0); [done..|lia|].
    destruct (color_buffer_get r h w 1) as (b1 & -> & Hb1); [done..|lia|].
    destruct (color_buffer_get r h w 2) as (b2 & -> & Hb2); [done..|lia|].
    simpl.
    pose proof (element_offset_bound H2 W2 C2 h w 0) as Ho0.
    pose proof (element_offset_bound H2 W2 C2 h w 1) as Ho1.
    pose proof (element_offset_bound H2 W2 C2 h w 2) as Ho2.
    rewrite (nd_set_element a3 H2 W2 C2) by (done || lia).
    simpl.
    rewrite (nd_set_element _ H2 W2 C2)
      by (simpl; rewrite ?length_insert; done || lia).
    simpl.
    rewrite (nd_set_element _ H2 W2 C2)
      by (simpl; rewrite ?length_insert; done || lia).
    eexists. split; [done|].
    unfold rgb_block_inv. simpl.
    split; [done|]. split; [by rewrite !length_insert|].
    assert (forall i j k c0, 0 <= j < W2 -> 0 <= k < C2 -> 0 <= c0 < 3 ->
              ~ (i = h /\ j = w /\ k = c0) ->
              Z.to_nat ((h * W2 + w) * C2 + c0)
              <> Z.to_nat ((i * W2 + j) * C2 + k) \/ i < 0) as Hoff.
    { intros i j k c0 Hj Hk Hc0 Hne.
      destruct (decide (i < 0)) as [|Hi]; [by right|left].
      intros Heq.
      assert (0 <= (i * W2 + j) * C2 + k) by nia.
      assert ((h * W2 + w) * C2 + c0 = (i * W2 + j) * C2 + k) as Heq'
        by lia.
      apply element_offset_inj in Heq' as (-> & -> & ->); [|lia..].
      by apply Hne. }
    split.
    + intros h' w' c Hh' Hw' Hc Hcb.
      destruct (decide (h' = h /\ w' = w)) as [[-> ->]|Hne].
      * assert (c = 0 \/ c = 1 \/ c = 2) as [-> | [-> | ->]] by lia.
        -- rewrite list_lookup_insert_ne by lia.
           rewrite list_lookup_insert_ne by lia.
           rewrite list_lookup_insert_eq by lia. by rewrite Hb0.
        -- rewrite list_lookup_insert_ne by lia.
           rewrite list_lookup_insert_eq by (rewrite length_insert; lia).
           by rewrite Hb1.
        -- rewrite list_lookup_insert_eq by (rewrite !length_insert; lia).
           by rewrite Hb2.
      * destruct (Hoff h' w' c 0) as [H0|?]; [lia..|by intros (?&?&?);
                                                apply Hne| |lia].
        destruct (Hoff h' w' c 1) as [H1|?]; [lia..|by intros (?&?&?);
                                                apply Hne| |lia].
        destruct (Hoff h' w' c 2) as [H2'|?]; [lia..|by intros (?&?&?);
                                                 apply Hne| |lia].
        rewrite !list_lookup_insert_ne by done.
        apply Hc3; [done..|].
        destruct Hcb as [?|[-> ?]]; [by left|].
        right. split; [done|].
        destruct (decide (w' = w)) as [->|]; [|lia].
        exfalso. by apply Hne.
    + intros i j k Hi Hj Hk Hout.
      assert (~ (i = h /\ j = w /\ k < 3)) as Hne.
      { intros (-> & -> & ?). apply Hout. split; [lia|]. split; [lia|].
        split; [done|]. right. lia. }
      destruct (Hoff i j k 0) as [H0|?]; [lia..| | |lia].
      { intros (?&?&?). apply Hne. lia. }
      destruct (Hoff i j k 1) as [H1|?]; [lia..| | |lia].
      { intros (?&?&?). apply Hne. lia. }
      destruct (Hoff i j k 2) as [H2'|?]; [lia..| | |lia].
      { intros (?&?&?). apply Hne. lia. }
      rewrite !list_lookup_insert_ne by done.
      apply Hu3; [done..|].
      intros (? & ? & ? & Hcb). apply Hout.
      split; [done|]. split; [done|]. split; [done|].
      destruct Hcb as [?|[-> ?]]; [by left|right; lia].
  - exists a2. split; [done|].
    destruct Hinv2 as (Hs2 & Hl2 & Hc2 & Hu2).
    split; [done|]. split; [done|].
    split.
    + intros h' w' c Hh' Hw' Hc [?|[? ?]]; [|lia].
      apply Hc2; [done..|].
      destruct (decide (h' = h)) as [->|]; [right; lia|left; lia].
    + intros i j k Hi Hj Hk Hout. apply Hu2; [done..|].
      intros (? & ? & ? & Hcb). apply Hout.
      split; [done|]. split; [done|]. split; [done|].
      left. destruct Hcb as [?|[-> ?]]; lia.
Qed.

(** [render] and [render_depth_map] up to their copy loops. *)
Lemma render_reaches_the_copy (r : Renderer) (camera : PerspectiveCamera)
    (out : ndarray GLuint) (s : Scene) (w : World) :
  window_open r w ->
  bound_scene r w s ->
  drawable s ->
  valid_dims (_width r) (_height r) ->
  buffers_sized r ->
  length (nd_shape out) = 3%nat ->
  exists w2 buf,
    render_objects r camera (render_setup r w) = Ok tt w2
    /\ driver w2 = driver w
    /\ Z.of_nat (length buf) = _width r * _height r * 3
    /\ (forall y x c,
          0 <= y < _height r -> 0 <= x < _width r -> 0 <= c < 3 ->
          buf !! Z.to_nat (y * _width r * 3 + x * 3 + c)
          = Some (unorm8 (driver w)
                    (channel c (fb_color (framebuffer w2) x y))))
    /\ render r camera out w
       = match flip_rgb (set_color_buffer buf r) out with
         | Some out' =>
             Ok (set_color_buffer buf r, out')
               (render_finish
                  (logged (Call_glReadPixels 0 0 (_width r) (_height r)
                             GL_RGB GL_UNSIGNED_BYTE) w2))
         | None => Undefined
         end.
Proof.
  intros Hopen Hscene Hdraw Hdims (Hdepth & Hcolor) Hrank.
  destruct (render_setup_frame r w Hopen)
    as (_ & Hscenes1 & _ & Hdriver1 & _ & _ & _ & _ & _ & _ & Halign1 & _).
  destruct (render_objects_spec r camera s (render_setup r w))
    as (w2 & Hpass & _ & Hframe2 & _); [|done|].
  { by apply (bound_scene_frame r s w). }
  destruct Hframe2 as (_ & _ & _ & _ & _ & _ & Hdriver2 & _ & _ & _
                       & _ & _ & Halign2 & _).
  rewrite Halign1 in Halign2. rewrite Hdriver1 in Hdriver2.
  destruct (glReadPixels_rgb_spec r w2) as (buf & Hread & Hbuf);
    [done|done|done|].
  pose proof (glReadPixels_rgb_content r w2 buf _ Hdims Hcolor Halign2 Hread)
    as Hcontent.
  rewrite Hdriver2 in Hcontent.
  exists w2, buf.
  split; [done|]. split; [done|]. split; [lia|]. split; [done|].
  rewrite render_staged by done.
  rewrite (bind_Ok _ _ _ _ _ Hpass).
  rewrite (bind_Ok _ _ _ _ _ Hread).
  unfold mutable_unchecked. rewrite decide_True by done.
  unfold bind at 1. unfold ret at 1.
  destruct (flip_rgb (set_color_buffer buf r) out) as [out'|]; [|done].
  unfold render_finish, lift_ub. unfold_calls. by simpl.
Qed.

Lemma render_depth_map_reaches_the_copy (r : Renderer)
    (camera : PerspectiveCamera) (out : ndarray GLfloat) (s : Scene)
    (w : World) :
  window_open r w ->
  bound_scene r w s ->
  drawable s ->
  valid_dims (_width r) (_height r) ->
  buffers_sized r ->
  gl_pack_alignment (gl w) <= 4 ->
  length (nd_shape out) = 2%nat ->
  exists w2 buf,
    render_objects r camera (render_depth_map_setup r w) = Ok tt w2
    /\ Z.of_nat (length buf) = _width r * _height r
    /\ (forall y x, 0 <= y < _height r -> 0 <= x < _width r ->
          buf !! Z.to_nat (y * _width r + x)
          = Some (fb_depth (framebuffer w2) x y))
    /\ render_depth_map r camera out w
       = match flip_depth (set_depth_buffer buf r) out with
         | Some out' =>
             Ok (set_depth_buffer buf r, out')
               (render_finish
                  (logged (Call_glReadPixels 0 0 (_width r) (_height r)
                             GL_DEPTH_COMPONENT GL_FLOAT) w2))
         | None => Undefined
         end.
Proof.
  intros Hopen Hscene Hdraw Hdims (Hdepth & Hcolor) Halign Hrank.
  destruct (render_depth_map_setup_frame r w Hopen)
    as (_ & Hscenes1 & _ & _ & _ & _ & _ & _ & _ & _ & Halign1 & _).
  destruct (render_objects_spec r camera s (render_depth_map_setup r w))
    as (w2 & Hpass & _ & Hframe2 & _); [|done|].
  { by apply (bound_scene_frame r s w). }
  destruct Hframe2 as (_ & _ & _ & _ & _ & _ & _ & _ & _ & _
                       & _ & _ & Halign2 & _).
  rewrite Halign1 in Halign2.
  destruct (glReadPixels_depth_spec r w2) as (buf & Hread & Hbuf);
    [done|done|lia|].
  pose proof (glReadPixels_depth_content r w2 buf _ Hdims Hdepth
                ltac:(lia) Hread) as Hcontent.
  exists w2, buf.
  split; [done|]. split; [lia|]. split; [done|].
  rewrite render_depth_map_staged by done.
  rewrite (bind_Ok _ _ _ _ _ Hpass).
  rewrite (bind_Ok _ _ _ _ _ Hread).
  unfold mutable_unchecked. rewrite decide_True by done.
  unfold bind at 1. unfold ret at 1.
  destruct (flip_depth (set_depth_buffer buf r) out) as [out'|]; [|done].
  unfold render_finish, lift_ub. unfold_calls. by simpl.
Qed.

(** X16.  [render] writes through the strides of the array it is given.
    With an array of three dimensions that has at least [height] rows,
    [width] columns and three channels, it returns; the block of the first
    [height] rows, [width] columns and three channels holds the frame, top
    row first, and every element outside that block is what it was. *)
Theorem render_writes_only_the_block_of_the_frame (r : Renderer)
    (camera : PerspectiveCamera) (out : ndarray GLuint) (s : Scene)
    (w : World) (H2 W2 C2 : Z) :
  window_open r w ->
  bound_scene r w s ->
  drawable s ->
  valid_dims (_width r) (_height r) ->
  buffers_sized r ->
  nd_shape out = [H2; W2; C2] ->
  Z.of_nat (length (nd_data out)) = H2 * W2 * C2 ->
  _height r <= H2 -> _width r <= W2 -> 3 <= C2 ->
  exists w2 r' out' w',
    render_objects r camera (render_setup r w) = Ok tt w2
    /\ render r camera out w = Ok (r', out') w'
    /\ nd_shape out' = nd_shape out
    /\ (forall h x c,
          0 <= h < _height r -> 0 <= x < _width r -> 0 <= c < 3 ->
          nd_get out' [h; x; c]
          = Some (GLuint_of_GLubyte
                    (unorm8 (driver w)
                       (channel c
                          (fb_color (framebuffer w2) x
                             (_height r - 1 - h))))))
    /\ (forall i j k, 0 <= i < H2 -> 0 <= j < W2 -> 0 <= k < C2 ->
          _height r <= i \/ _width r <= j \/ 3 <= k ->
          nd_get out' [i; j; k] = nd_get out [i; j; k]).
Proof.
  intros Hopen Hscene Hdraw Hdims Hsized Hshape Hlen HH2 HW2 HC2.
  pose proof Hdims as (HW & HH & Hmax). unfold Int.MAX in Hmax.
  destruct (render_reaches_the_copy r camera out s w)
    as (w2 & buf & Hpass & _ & Hbuf & Hcontent & Hrun);
    [done..|by rewrite Hshape|].
  destruct (flip_rgb_block (set_color_buffer buf r) out H2 W2 C2)
    as (out' & Hflip & Hs & Hl & Hin & Hout); simpl; [done..|].
  rewrite Hflip in Hrun. simpl in Hin, Hout.
  eexists w2, _, out', _.
  split; [done|]. split; [exact Hrun|].
  split; [by rewrite Hs, Hshape|].
  split.
  - intros h x c Hh Hx Hc.
    pose proof (element_offset_bound H2 W2 C2 h x c) as Ho.
    unfold nd_get. rewrite Hs, nd_offset_3.
    rewrite decide_True by lia.
    rewrite Hin; [|done..|left; lia].
    by rewrite Hcontent by lia.
  - intros i j k Hi Hj Hk Hfar.
    pose proof (element_offset_bound H2 W2 C2 i j k) as Ho.
    unfold nd_get. rewrite Hs, Hshape, nd_offset_3.
    rewrite !decide_True by lia.
    apply Hout; [lia..|]. intros (? & ? & ? & _). lia.
Qed.

Lemma render_writes_only_the_block_of_the_frame_witness :
  exists w2 r' out' w',
    render_objects example_renderer example_camera
      (render_setup example_renderer example_world) = Ok tt w2
    /\ render example_renderer example_camera example_rgba_out
         example_world = Ok (r', out') w'
    /\ nd_shape out' = nd_shape example_rgba_out
    /\ (forall h x c,
          0 <= h < _height example_renderer ->
          0 <= x < _width example_renderer -> 0 <= c < 3 ->
          nd_get out' [h; x; c]
          = Some (GLuint_of_GLubyte
                    (unorm8 (driver example_world)
                       (channel c
                          (fb_color (framebuffer w2) x
                             (_height example_renderer - 1 - h))))))
    /\ (forall i j k, 0 <= i < 3 -> 0 <= j < 4 -> 0 <= k < 4 ->
          _height example_renderer <= i \/ _width example_renderer <= j
          \/ 3 <= k ->
          nd_get out' [i; j; k] = nd_get example_rgba_out [i; j; k]).
Proof.
  apply (render_writes_only_the_block_of_the_frame example_renderer
           example_camera example_rgba_out scene_B example_world 3 4 4).
  - apply example_window_open.
  - apply example_bound_scene.
  - apply example_drawable.
  - apply example_valid_dims.
  - apply example_buffers_sized.
  - reflexivity.
  - reflexivity.
  - vm_compute. discriminate.
  - vm_compute. discriminate.
  - lia.
Defined.

(** X17.  [render_depth_map] likewise returns on an array of two
    dimensions with at least [height] rows and [width] columns: the block
    of the first [height] rows and [width] columns holds the depth of the
    frame, top row first, and every element outside it is what it was. *)
Theorem render_depth_map_writes_only_the_block_of_the_frame (r : Renderer)
    (camera : PerspectiveCamera) (out : ndarray GLfloat) (s : Scene)
    (w : World) (H2 W2 : Z) :
  window_open r w ->
  bound_scene r w s ->
  drawable s ->
  valid_dims (_width r) (_height r) ->
  buffers_sized r ->
  gl_pack_alignment (gl w) <= 4 ->
  nd_shape out = [H2; W2] ->
  Z.of_nat (length (nd_data out)) = H2 * W2 ->
  _height r <= H2 -> _width r <= W2 ->
  exists w2 r' out' w',
    render_objects r camera (render_depth_map_setup r w) = Ok tt w2
    /\ render_depth_map r camera out w = Ok (r', out') w'
    /\ nd_shape out' = nd_shape out
    /\ (forall h x, 0 <= h < _height r -> 0 <= x < _width r ->
          nd_get out' [h; x]
          = Some (fb_depth (framebuffer w2) x (_height r - 1 - h)))
    /\ (forall i j, 0 <= i < H2 -> 0 <= j < W2 ->
          _height r <= i \/ _width r <= j ->
          nd_get out' [i; j] = nd_get out [i; j]).
Proof.
  intros Hopen Hscene Hdraw Hdims Hsized Halign Hshape Hlen HH2 HW2.
  pose proof Hdims as (HW & HH & Hmax). unfold Int.MAX in Hmax.
  destruct (render_depth_map_reaches_the_copy r camera out s w)
    as (w2 & buf & Hpass & Hbuf & Hcontent & Hrun);
    [done..|by rewrite Hshape|].
  destruct (flip_depth_block (set_depth_buffer buf r) out H2 W2)
    as (out' & Hflip & Hs & Hl & Hin & Hout); simpl; [done..|].
  rewrite Hflip in Hrun. simpl in Hin, Hout.
  eexists w2, _, out', _.
  split; [done|]. split; [exact Hrun|].
  split; [by rewrite Hs, Hshape|].
  split.
  - intros h x Hh Hx.
    unfold nd_get. rewrite Hs, nd_offset_2.
    rewrite decide_True by nia.
    rewrite Hin; [|done..|left; lia].
    by rewrite Hcontent by lia.
  - intros i j Hi Hj Hfar.
    unfold nd_get. rewrite Hs, Hshape, nd_offset_2.
    rewrite !decide_True by nia.
    apply Hout; [lia..|]. intros (? & ? & _). lia.
Qed.

Lemma render_depth_map_writes_only_the_block_of_the_frame_witness :
  exists w2 r' out' w',
    render_objects example_renderer example_camera
      (render_depth_map_setup example_renderer example_world) = Ok tt w2
    /\ render_depth_map example_renderer example_camera
         example_wide_depth_out example_world = Ok (r', out') w'
    /\ nd_shape out' = nd_shape example_wide_depth_out
    /\ (forall h x,
          0 <= h < _height example_renderer ->
          0 <= x < _width example_renderer ->
          nd_get out' [h; x]
          = Some (fb_depth (framebuffer w2) x
                    (_height example_renderer - 1 - h)))
    /\ (forall i j, 0 <= i < 3 -> 0 <= j < 4 ->
          _height example_renderer <= i \/ _width example_renderer <= j ->
          nd_get out' [i; j] = nd_get example_wide_depth_out [i; j]).
Proof.
  apply (render_depth_map_writes_only_the_block_of_the_frame
           example_renderer example_camera example_wide_depth_out scene_B
           example_world 3 4).
  - apply example_window_open.
  - apply example_bound_scene.
  - apply example_drawable.
  - apply example_valid_dims.
  - apply example_buffers_sized.
  - vm_compute. discriminate.
  - reflexivity.
  - reflexivity.
  - vm_compute. discriminate.
  - vm_compute. discriminate.
Defined.

(** *** Arrays smaller than the frame *)

Lemma for_each_last_fails {A St} (P : St -> Prop)
    (body : A -> St -> option St) (x : A) (l : list A) :
  (forall y s s', P s -> body y s = Some s' -> P s') ->
  (forall s, P s -> body x s = None) ->
  forall s, P s -> for_each (l ++ [x]) body s = None.
Proof.
  intros Hkeep Hlast. induction l as [|y l IH]; intros s Hs; simpl.
  - by rewrite Hlast.
  - destruct (body y s) as [s'|] eqn:Hy; [|done].
    apply IH. by eapply Hkeep.
Qed.

Lemma for_int_last_fails {St} (P : St -> Prop) (n : Z)
    (body : Z -> St -> option St) (s : St) :
  0 < n ->
  (forall i s s', P s -> body i s = Some s' -> P s') ->
  (forall s, P s -> body (n - 1) s = None) ->
  P s ->
  for_int n body s = None.
Proof.
  intros Hn Hkeep Hlast Hs. unfold for_int.
  replace n with (Z.of_nat (S (Z.to_nat (n - 1)))) at 1 by lia.
  rewrite seqZ_S.
  replace (0 + Z.of_nat (Z.to_nat (n - 1))) with (n - 1) by lia.
  by apply (for_each_last_fails P).
Qed.

Lemma for_int_keeps {St} (P : St -> Prop) (n : Z)
    (body : Z -> St -> option St) :
  (forall i s s', P s -> body i s = Some s' -> P s') ->
  forall s s', P s -> for_int n body s = Some s' -> P s'.
Proof.
  intros Hkeep. unfold for_int.
  induction (seqZ 0 n) as [|y l IH]; intros s s' Hs; simpl.
  - by intros [= <-].
  - destruct (body y s) as [s1|] eqn:Hy; [|done].
    apply IH. by eapply Hkeep.
Qed.

Lemma nd_set_keeps {T} (a a' : ndarray T) (idx : list Z) (v : T) :
  nd_set a idx v = Some a' ->
  nd_shape a' = nd_shape a /\ length (nd_data a') = length (nd_data a).
Proof.
  unfold nd_set. case_decide; [|done]. intros [= <-]. simpl.
  by rewrite length_insert.
Qed.

Lemma flip_rgb_overruns (r : Renderer) (a : ndarray GLuint) (H2 W2 C2 : Z) :
  0 < _height r -> 0 < _width r ->
  nd_shape a = [H2; W2; C2] ->
  Z.of_nat (length (nd_data a))
  <= ((_height r - 1) * W2 + (_width r - 1)) * C2 + 2 ->
  flip_rgb r a = None.
Proof.
  intros HH HW Hshape Hlen. unfold flip_rgb.
  set (P := fun a' : ndarray GLuint =>
              nd_shape a' = nd_shape a
              /\ length (nd_data a') = length (nd_data a)).
  assert (forall h w a1 a2, P a1 ->
            (c0 ← array_get (_color_buffer r) (color_index r h w 0);
             rgb_map ← nd_set a1 [h; w; 0] (GLuint_of_GLubyte c0);
             c1 ← array_get (_color_buffer r) (color_index r h w 1);
             rgb_map ← nd_set rgb_map [h; w; 1] (GLuint_of_GLubyte c1);
             c2 ← array_get (_color_buffer r) (color_index r h w 2);
             nd_set rgb_map [h; w; 2] (GLuint_of_GLubyte c2)) = Some a2 ->
            P a2) as Hcell.
  { intros h w a1 a2 (Hs1 & Hl1) Hrun.
    destruct (array_get _ (color_index r h w 0)); simpl in Hrun; [|done].
    destruct (nd_set a1 _ _) as [b1|] eqn:H1; simpl in Hrun; [|done].
    destruct (array_get _ (color_index r h w 1)); simpl in Hrun; [|done].
    destruct (nd_set b1 _ _) as [b2|] eqn:H2'; simpl in Hrun; [|done].
    destruct (array_get _ (color_index r h w 2)); simpl in Hrun; [|done].
    apply nd_set_keeps in H1 as (? & ?), H2' as (? & ?), Hrun as (? & ?).
    split; congruence. }
  apply (for_int_last_fails P); [done| | |done].
  - intros h a1 a2 Ha1. apply (for_int_keeps P); [|done].
    intros w b1 b2. apply Hcell.
  - intros a1 Ha1.
    apply (for_int_last_fails P); [done| | |done].
    + intros w b1 b2. apply Hcell.
    + intros b1 (Hs1 & Hl1).
      destruct (array_get _ (color_index r _ _ 0)); simpl; [|done].
      destruct (nd_set b1 _ _) as [b2|] eqn:H1; simpl; [|done].
      destruct (array_get _ (color_index r _ _ 1)); simpl; [|done].
      destruct (nd_set b2 _ _) as [b3|] eqn:H2'; simpl; [|done].
      destruct (array_get _ (color_index r _ _ 2)); simpl; [|done].
      apply nd_set_keeps in H1 as (Hs2 & Hl2), H2' as (Hs3 & Hl3).
      unfold nd_set.
      rewrite Hs3, Hs2, Hs1, Hshape, nd_offset_3.
      rewrite decide_False; [done|].
      rewrite Hl3, Hl2, Hl1. lia.
Qed.

Lemma flip_depth_overruns (r : Renderer) (a : ndarray GLfloat) (H2 W2 : Z) :
  0 < _height r -> 0 < _width r ->
  nd_shape a = [H2; W2] ->
  Z.of_nat (length (nd_data a)) <= (_height r - 1) * W2 + (_width r - 1) ->
  flip_depth r a = None.
Proof.
  intros HH HW Hshape Hlen. unfold flip_depth.
  set (P := fun a' : ndarray GLfloat =>
              nd_shape a' = nd_shape a
              /\ length (nd_data a') = length (nd_data a)).
  assert (forall h w a1 a2, P a1 ->
            (v ← array_get (_depth_buffer r)
                   (Int.add
                      (Int.mul (Int.sub (Int.sub (_height r) h) 1)
                         (_width r)) w);
             nd_set a1 [h; w] v) = Some a2 ->
            P a2) as Hcell.
  { intros h w a1 a2 (Hs1 & Hl1) Hrun.
    destruct (array_get _ _); simpl in Hrun; [|done].
    apply nd_set_keeps in Hrun as (? & ?).
    split; congruence. }
  apply (for_int_last_fails P); [done| | |done].
  - intros h a1 a2 Ha1. apply (for_int_keeps P); [|done].
    intros w b1 b2. apply Hcell.
  - intros a1 Ha1.
    apply (for_int_last_fails P); [done| | |done].
    + intros w b1 b2. apply Hcell.
    + intros b1 (Hs1 & Hl1).
      destruct (array_get _ _); simpl; [|done].
      unfold nd_set.
      rewrite Hs1, Hshape, nd_offset_2.
      rewrite decide_False; [done|].
      rewrite Hl1. lia.
Qed.

(** X18.  The copy loop of [render] is not bounds-checked.  When the
    element at the last row, last column and last channel that the loop
    writes, [(height - 1, width - 1, 2)], lies outside the storage of the
    array given (as it does for an array of shape [height - 1, width, 3],
    or [height, width, 1]), the behaviour of [render] is undefined: it
    writes outside the array, after the frame has been drawn and read. *)
Theorem render_overruns_an_array_that_is_too_small (r : Renderer)
    (camera : PerspectiveCamera) (out : ndarray GLuint) (s : Scene)
    (w : World) (H2 W2 C2 : Z) :
  window_open r w ->
  bound_scene r w s ->
  drawable s ->
  valid_dims (_width r) (_height r) ->
  buffers_sized r ->
  0 < _height r -> 0 < _width r ->
  nd_shape out = [H2; W2; C2] ->
  Z.of_nat (length (nd_data out))
  <= ((_height r - 1) * W2 + (_width r - 1)) * C2 + 2 ->
  render r camera out w = Undefined.
Proof.
  intros Hopen Hscene Hdraw Hdims Hsized HH HW Hshape Hlen.
  destruct (render_reaches_the_copy r camera out s w)
    as (w2 & buf & _ & _ & _ & _ & ->); [done..|by rewrite Hshape|].
  by rewrite (flip_rgb_overruns _ out H2 W2 C2).
Qed.

Lemma render_overruns_an_array_that_is_too_small_witness :
  render example_renderer example_camera example_short_rgb_out example_world
  = Undefined.
Proof.
  apply (render_overruns_an_array_that_is_too_small example_renderer
           example_camera example_short_rgb_out scene_B example_world 1 2 3).
  - apply example_window_open.
  - apply example_bound_scene.
  - apply example_drawable.
  - apply example_valid_dims.
  - apply example_buffers_sized.
  - reflexivity.
  - reflexivity.
  - reflexivity.
  - vm_compute. discriminate.
Defined.

(** X19.  The copy loop of [render_depth_map] is not bounds-checked
    either: when the element [(height - 1, width - 1)] lies outside the
    storage of the array given, the behaviour of [render_depth_map] is
    undefined. *)
Theorem render_depth_map_overruns_an_array_that_is_too_small (r : Renderer)
    (camera : PerspectiveCamera) (out : ndarray GLfloat) (s : Scene)
    (w : World) (H2 W2 : Z) :
  window_open r w ->
  bound_scene r w s ->
  drawable s ->
  valid_dims (_width r) (_height r) ->
  buffers_sized r ->
  gl_pack_alignment (gl w) <= 4 ->
  0 < _height r -> 0 < _width r ->
  nd_shape out = [H2; W2] ->
  Z.of_nat (length (nd_data out))
  <= (_height r - 1) * W2 + (_width r - 1) ->
  render_depth_map r camera out w = Undefined.
Proof.
  intros Hopen Hscene Hdraw Hdims Hsized Halign HH HW Hshape Hlen.
  destruct (render_depth_map_reaches_the_copy r camera out s w)
    as (w2 & buf & _ & _ & _ & ->); [done..|by rewrite Hshape|].
  by rewrite (flip_depth_overruns _ out H2 W2).
Qed.

Lemma render_depth_map_overruns_an_array_that_is_too_small_witness :
  render_depth_map example_renderer example_camera example_short_depth_out
    example_world = Undefined.
Proof.
  apply (render_depth_map_overruns_an_array_that_is_too_small
           example_renderer example_camera example_short_depth_out scene_B
           example_world 1 2).
  - apply example_window_open.
  - apply example_bound_scene.
  - apply example_drawable.
  - apply example_valid_dims.
  - apply example_buffers_sized.
  - vm_compute. discriminate.
  - reflexivity.
  - reflexivity.
  - reflexivity.
  - vm_compute. discriminate.
Defined.

(** *** The pack alignment of the depth readback *)

Lemma glReadPixels_depth_overruns (r : Renderer) (w : World) :
  Z.of_nat (length (_depth_buffer r)) = _width r * _height r ->
  gl_pack_alignment (gl w) = 8 ->
  Z.odd (_width r) = true -> 0 <= _width r -> 2 <= _height r ->
  glReadPixels_depth 0 0 (_width r) (_height r) (_depth_buffer r) w
  = Undefined.
Proof.
  intros Hbuf Halign Hodd HW HH.
  unfold glReadPixels_depth. unfold_calls. simpl.
  rewrite Halign. unfold pack_row_length. simpl.
  apply Z.odd_spec in Hodd as (m & Hm).
  assert ((4 * _width r + 8 - 1) / 8 = m + 1) as ->.
  { symmetry. apply (Z.div_unique _ 8 (m + 1) 3); lia. }
  rewrite (for_int_last_fails
             (fun b => length b = length (_depth_buffer r))); [done|lia| | |done].
  - intros j b b' Hb Hstore. apply store_at_length in Hstore. congruence.
  - intros b Hb. unfold store_at.
    destruct (depth_row (framebuffer w) 0 (_width r) (0 + (_height r - 1)))
      as [|v row] eqn:Hrow.
    { pose proof (length_depth_row (framebuffer w) 0 (_width r)
                    (0 + (_height r - 1)) HW) as Hl.
      rewrite Hrow in Hl. simpl in Hl. lia. }
    rewrite decide_False; [done|].
    pose proof (length_depth_row (framebuffer w) 0 (_width r)
                  (0 + (_height r - 1)) HW) as Hl.
    rewrite Hrow in Hl. rewrite Hl, Hb, Hbuf.
    change (8 `div` 4) with 2. nia.
Qed.

(** X20.  [render] sets the pack alignment to 1 before it reads the
    frame; [render_depth_map] sets none and reads with the alignment it
    finds.  With an alignment of 8, a renderer of odd width and at least
    two rows has each row of floats padded to a multiple of 8 bytes, so
    [glReadPixels] writes beyond the end of the depth buffer: the
    behaviour of [render_depth_map] is undefined, whatever array it is
    given. *)
Theorem render_depth_map_depends_on_the_pack_alignment (r : Renderer)
    (camera : PerspectiveCamera) (out : ndarray GLfloat) (s : Scene)
    (w : World) :
  window_open r w ->
  bound_scene r w s ->
  drawable s ->
  valid_dims (_width r) (_height r) ->
  buffers_sized r ->
  gl_pack_alignment (gl w) = 8 ->
  Z.odd (_width r) = true ->
  2 <= _height r ->
  render_depth_map r camera out w = Undefined.
Proof.
  intros Hopen Hscene Hdraw (HW & HH & Hmax) (Hdepth & Hcolor) Halign Hodd
         Hrows.
  destruct (render_depth_map_setup_frame r w Hopen)
    as (_ & Hscenes1 & _ & _ & _ & _ & _ & _ & _ & _ & Halign1 & _).
  destruct (render_objects_spec r camera s (render_depth_map_setup r w))
    as (w2 & Hpass & _ & Hframe2 & _); [|done|].
  { by apply (bound_scene_frame r s w). }
  destruct Hframe2 as (_ & _ & _ & _ & _ & _ & _ & _ & _ & _
                       & _ & _ & Halign2 & _).
  rewrite Halign1, Halign in Halign2.
  rewrite render_depth_map_staged by done.
  rewrite (bind_Ok _ _ _ _ _ Hpass).
  unfold bind at 1.
  by rewrite glReadPixels_depth_overruns.
Qed.

Lemma render_depth_map_depends_on_the_pack_alignment_witness :
  render_depth_map (fst example_tall) example_camera example_depth_out
    example_tall_world8 = Undefined.
Proof.
  apply (render_depth_map_depends_on_the_pack_alignment (fst example_tall)
           example_camera example_depth_out scene_B example_tall_world8).
  - unfold window_open. simpl. apply not_elem_of_nil.
  - exists 2%positive. split; reflexivity.
  - apply example_drawable.
  - repeat split; vm_compute; discriminate.
  - split; reflexivity.
  - reflexivity.
  - reflexivity.
  - vm_compute. discriminate.
Defined.
